(** * StockX scraper (stockx.py): a shallow embedding and its properties

    The development follows the layout of the source file:

    - the fragment of the Python runtime the class relies on (exceptions,
      JSON data, [dict], [str.split], [int], attribute access through the
      class's [property] objects);
    - the external capabilities: the HTTP GET of [requests], [json.loads],
      the worker pool of [concurrent.futures] and the table operations of
      [pandas] used by the script;
    - the methods of class [StockX] and the steps of [main];
    - the properties of the specification, claim by claim. *)

From Stdlib Require Import String Ascii List ZArith Lia Bool Arith Permutation.
From Stdlib Require Import Numbers.DecimalString Numbers.DecimalZ Numbers.DecimalPos.
Import ListNotations.
Open Scope string_scope.
Open Scope list_scope.
Set Warnings "-register-all".

(** ** Exceptions and results *)

(** The built-in exceptions the code can raise.  [ConnectionError] stands for
    every transport failure of [requests.get]; [JSONDecodeError] is the
    [ValueError] subclass raised by [json.loads]. *)
Inductive exn : Type :=
  | AttributeError
  | RecursionError
  | KeyError
  | IndexError
  | TypeError
  | ValueError
  | JSONDecodeError
  | NotImplementedError
  | ConnectionError.

(** A computation returns a value or raises. *)
Inductive result (A : Type) : Type :=
  | Ok (a : A)
  | Raise (e : exn).
Arguments Ok {A} a.
Arguments Raise {A} e.

Definition bind {A B : Type} (c : result A) (k : A -> result B) : result B :=
  match c with
  | Ok a => k a
  | Raise e => Raise e
  end.

Notation "x <- c ;; k" := (bind c (fun x => k))
  (at level 61, c at next level, right associativity).

Definition raises {A : Type} (c : result A) : Prop :=
  exists e, c = Raise e.

(** ** Python data *)

(** Values as [json.loads] builds them: [None], [bool], [int], [float],
    [str], [list] and [dict].  A float is kept by its literal, except the
    not-a-number value, which pandas also uses for a missing cell.  A [dict]
    keeps insertion order and holds each key once. *)
Inductive value : Type :=
  | JNull
  | JNaN
  | JBool (b : bool)
  | JInt (n : Z)
  | JFloat (lit : string)
  | JStr (s : string)
  | JArr (items : list value)
  | JObj (fields : list (string * value)).

Definition dict : Type := list (string * value).

(** Induction on values that reaches inside lists and dicts. *)
Section ValueInduction.

Variable P : value -> Prop.
Hypothesis Hnull : P JNull.
Hypothesis Hnan : P JNaN.
Hypothesis Hbool : forall b, P (JBool b).
Hypothesis Hint : forall n, P (JInt n).
Hypothesis Hfloat : forall lit, P (JFloat lit).
Hypothesis Hstr : forall s, P (JStr s).
Hypothesis Harr : forall items, Forall P items -> P (JArr items).
Hypothesis Hobj : forall fields, Forall (fun kv => P (snd kv)) fields -> P (JObj fields).

Fixpoint value_nested_ind (v : value) : P v :=
  match v with
  | JNull => Hnull
  | JNaN => Hnan
  | JBool b => Hbool b
  | JInt n => Hint n
  | JFloat lit => Hfloat lit
  | JStr s => Hstr s
  | JArr items =>
      Harr items
        ((fix all (l : list value) : Forall P l :=
            match l with
            | [] => Forall_nil P
            | x :: l' => Forall_cons x (value_nested_ind x) (all l')
            end) items)
  | JObj fields =>
      Hobj fields
        ((fix all (l : list (string * value)) : Forall (fun kv => P (snd kv)) l :=
            match l with
            | [] => Forall_nil _
            | kv :: l' => Forall_cons kv (value_nested_ind (snd kv)) (all l')
            end) fields)
  end.

End ValueInduction.

Definition keys (d : dict) : list string := map fst d.

(** [d.get(k)] *)
Fixpoint dict_get (k : string) (d : dict) : option value :=
  match d with
  | [] => None
  | (k', v) :: d' => if String.eqb k k' then Some v else dict_get k d'
  end.

(** [d[k] = v]: an existing key keeps its place, a new key goes last. *)
Fixpoint dict_set (k : string) (v : value) (d : dict) : dict :=
  match d with
  | [] => [(k, v)]
  | (k', v') :: d' =>
      if String.eqb k k' then (k', v) :: d' else (k', v') :: dict_set k v d'
  end.

(** [d.update(e)] *)
Definition dict_update (d e : dict) : dict :=
  fold_left (fun acc kv => dict_set (fst kv) (snd kv) acc) e d.

(** [x[k]] for a string key [k]: only a [dict] can be indexed by a string. *)
Definition getitem_key (x : value) (k : string) : result value :=
  match x with
  | JObj d => match dict_get k d with
              | Some v => Ok v
              | None => Raise KeyError
              end
  | _ => Raise TypeError
  end.

(** [xs[i]] on a Python list, for an index [i >= 0]. *)
Definition list_index {A : Type} (xs : list A) (i : nat) : result A :=
  match nth_error xs i with
  | Some x => Ok x
  | None => Raise IndexError
  end.

(** ** Strings *)

(** A [str] is modelled by its code points, all below 256. *)

(** [s.find(sep)], with [None] for Python's [-1]. *)
Fixpoint str_find (sep s : string) : option nat :=
  if String.prefix sep s then Some 0
  else match s with
       | EmptyString => None
       | String _ s' => option_map S (str_find sep s')
       end.

(** The scan behind [s.split(sep)] for a non-empty [sep]: left to right,
    cutting at every occurrence of [sep] that does not overlap the previous
    one.  [skip] counts the characters of a matched separator still to be
    passed over.  The head of the result is the piece under construction. *)
Fixpoint split_from (sep : string) (skip : nat) (s : string) : list string :=
  match s with
  | EmptyString => [EmptyString]
  | String c s' =>
      match skip with
      | S k => split_from sep k s'
      | O =>
          if String.prefix sep s
          then EmptyString :: split_from sep (String.length sep - 1) s'
          else match split_from sep 0 s' with
               | piece :: pieces => String c piece :: pieces
               | [] => [String c EmptyString]
               end
      end
  end.

(** [s.split(sep)]; an empty separator is a [ValueError]. *)
Definition str_split (s sep : string) : result (list string) :=
  match sep with
  | EmptyString => Raise ValueError
  | _ => Ok (split_from sep 0 s)
  end.

(** [c] does not occur in [s]. *)
Fixpoint lacks (c : ascii) (s : string) : bool :=
  match s with
  | EmptyString => true
  | String c' s' => negb (Ascii.eqb c c') && lacks c s'
  end.

Definition is_digit (c : ascii) : bool :=
  let n := nat_of_ascii c in (48 <=? n)%nat && (n <=? 57)%nat.

Definition digit_value (c : ascii) : Z :=
  Z.of_nat (nat_of_ascii c - 48).

(** The white space [int] drops around a number: tab to carriage return
    (9..13), space (32), next-line (133) and no-break space (160).  The
    separators 28..31, which [str.strip] would drop, are not among them:
    [int] refuses a text that holds one. *)
Definition is_space (c : ascii) : bool :=
  let n := nat_of_ascii c in
  ((9 <=? n)%nat && (n <=? 13)%nat) || (n =? 32)%nat
  || (n =? 133)%nat || (n =? 160)%nat.

(** The trimming [int] does before it reads the number: the white space at
    the two ends goes. *)
Fixpoint lstrip (s : string) : string :=
  match s with
  | String c s' => if is_space c then lstrip s' else s
  | EmptyString => EmptyString
  end.

Fixpoint rstrip (s : string) : string :=
  match s with
  | EmptyString => EmptyString
  | String c s' =>
      match rstrip s' with
      | EmptyString => if is_space c then EmptyString else String c EmptyString
      | t => String c t
      end
  end.

Definition strip (s : string) : string := rstrip (lstrip s).

(** The digits of an [int] literal in base 10: decimal digits, with single
    underscores allowed between two digits.  [seen] tells whether the
    previous character was a digit. *)
Fixpoint int_digits (s : string) (acc : Z) (seen : bool) : option Z :=
  match s with
  | EmptyString => if seen then Some acc else None
  | String c s' =>
      if is_digit c then int_digits s' (10 * acc + digit_value c)%Z true
      else if Ascii.eqb c "_"%char
           then (if seen then int_digits s' acc false else None)
           else None
  end.

(** [int(s)] for a [str]: surrounding white space is dropped, one sign is
    allowed, then come the digits.  The result is unbounded. *)
Definition py_int (s : string) : result Z :=
  let body := strip s in
  let parsed :=
    match body with
    | String "+" t => int_digits t 0 false
    | String "-" t => option_map Z.opp (int_digits t 0 false)
    | _ => int_digits body 0 false
    end in
  match parsed with
  | Some n => Ok n
  | None => Raise ValueError
  end.

(** [str(n)] for an [int], as an f-string field formats it. *)
Definition str_of_int (n : Z) : string :=
  NilZero.string_of_int (Z.to_int n).

(** [range(lo, hi)] as a list. *)
Definition py_range (lo hi : Z) : list Z :=
  map (fun k => (lo + Z.of_nat k)%Z) (seq 0 (Z.to_nat (hi - lo))).

(** ** Objects, classes and attribute access *)

(** A [property] object of a class.  Every accessor of the source has one
    shape: its getter is [return self.<name>] and its setter, when there is
    one, is [self.<name> = value]; [fget] and [fset] hold that name. *)
Record property : Type := {
  fget : option string;
  fset : option string
}.

(** The data descriptors of a class, by attribute name. *)
Definition pyclass : Type := list (string * property).

Fixpoint class_lookup (name : string) (cls : pyclass) : option property :=
  match cls with
  | [] => None
  | (n, p) :: cls' => if String.eqb name n then Some p else class_lookup name cls'
  end.

(** An instance: its class and its [__dict__]. *)
Record pyobj : Type := {
  ob_type : pyclass;
  ob_dict : dict
}.

(** The interpreter's default limit on the depth of nested calls. *)
Definition recursion_limit : nat := 1000.

(** Where a read of [self.<name>] ends up: a data descriptor of the class
    comes first and runs its getter, which is itself a read of an attribute;
    a name the class does not intercept is a slot of the instance's
    [__dict__].  [depth] is the number of calls still allowed. *)
Fixpoint resolve_get (depth : nat) (cls : pyclass) (name : string) : result string :=
  match class_lookup name cls with
  | None => Ok name
  | Some p =>
      match fget p with
      | None => Raise AttributeError
      | Some target =>
          match depth with
          | O => Raise RecursionError
          | S d => resolve_get d cls target
          end
      end
  end.

(** Where a write [self.<name> = v] ends up; a property without a setter
    refuses the assignment. *)
Fixpoint resolve_set (depth : nat) (cls : pyclass) (name : string) : result string :=
  match class_lookup name cls with
  | None => Ok name
  | Some p =>
      match fset p with
      | None => Raise AttributeError
      | Some target =>
          match depth with
          | O => Raise RecursionError
          | S d => resolve_set d cls target
          end
      end
  end.

(** [self.<name>] *)
Definition getattr (self : pyobj) (name : string) : result value :=
  slot <- resolve_get recursion_limit (ob_type self) name ;;
  match dict_get slot (ob_dict self) with
  | Some v => Ok v
  | None => Raise AttributeError
  end.

Definition store (self : pyobj) (slot : string) (v : value) : pyobj :=
  {| ob_type := ob_type self; ob_dict := dict_set slot v (ob_dict self) |}.

(** [self.<name> = v] *)
Definition setattr (self : pyobj) (name : string) (v : value) : result pyobj :=
  slot <- resolve_set recursion_limit (ob_type self) name ;;
  Ok (store self slot v).

(** [self.<name>.append(x)]: the list is read through [name] and extended in
    place, so the slot the read ended in holds the longer list afterwards. *)
Definition list_append (self : pyobj) (name : string) (x : value) : result pyobj :=
  slot <- resolve_get recursion_limit (ob_type self) name ;;
  match dict_get slot (ob_dict self) with
  | Some (JArr items) => Ok (store self slot (JArr (items ++ [x])))
  | _ => Raise AttributeError
  end.

(** The accessor block of class [StockX], lines 21 to 44 of the source.
    [@headers.setter] applied to a function named [set_headers] binds a copy
    of the [headers] property, now with a setter, to the name [set_headers];
    [headers] itself keeps no setter. *)
Definition StockX_class : pyclass :=
  [ ("api",               {| fget := Some "api";               fset := None |});
    ("sales_api",         {| fget := Some "sales_api";         fset := None |});
    ("headers",           {| fget := Some "headers";           fset := None |});
    ("_scraped_products", {| fget := Some "_scraped_products"; fset := None |});
    ("set_headers",       {| fget := Some "headers";           fset := Some "headers" |}) ].

(** The same class with ordinary fields, as the design notes of the
    specification describe it: no accessor intercepts any attribute. *)
Definition plain_fields_class : pyclass := [].

(** An attribute of [self] that no accessor of its class intercepts. *)
Definition plain_field (self : pyobj) (name : string) : Prop :=
  class_lookup name (ob_type self) = None.

(** ** External capabilities *)

(** What [requests.get] returns: a non-2xx status is an ordinary response,
    [requests] raises only when asked to ([raise_for_status]). *)
Record Response : Type := {
  status_code : Z;
  text : string
}.

(** The two library calls of the fetch handlers: the GET of a URL with the
    session's headers, which returns a response or raises on a transport
    failure, and the JSON decoder, which returns the decoded document or
    raises [JSONDecodeError]. *)
Class Capabilities : Type := {
  requests_get : string -> value -> result Response;
  json_loads : string -> result value
}.

(** ** Class StockX *)

(** [x[i]] for an integer index [i >= 0]: an element of a list, a character
    of a string; a [dict] decoded from JSON has string keys only, so an
    integer is a missing key; nothing else can be indexed. *)
Definition getitem_int (x : value) (i : nat) : result value :=
  match x with
  | JArr items => list_index items i
  | JStr s => match String.get i s with
              | Some c => Ok (JStr (String c EmptyString))
              | None => Raise IndexError
              end
  | JObj _ => Raise KeyError
  | _ => Raise TypeError
  end.

(** [x[k] = v] for a string key: only a [dict] accepts it. *)
Definition setitem_key (x : value) (k : string) (v : value) : result value :=
  match x with
  | JObj d => Ok (JObj (dict_set k v d))
  | _ => Raise TypeError
  end.

(** [x.split(sep)]: only a [str] has the method. *)
Definition split_method (x : value) (sep : string) : result (list string) :=
  match x with
  | JStr s => str_split s sep
  | _ => Raise AttributeError
  end.

(** A replacement field [{x}] of an f-string: a [str] goes in as it is, an
    [int], [None], a [bool] and not-a-number by their [str()].  A float, a
    list or a [dict] would go in by its [repr], which is not modelled: for
    them the model stops with [NotImplementedError]. *)
Definition format_field (x : value) : result string :=
  match x with
  | JStr s => Ok s
  | JInt n => Ok (str_of_int n)
  | JNull => Ok "None"
  | JBool true => Ok "True"
  | JBool false => Ok "False"
  | JNaN => Ok "nan"
  | _ => Raise NotImplementedError
  end.

(** The [for] loop over a value: a list yields its items, a [dict] its keys,
    a [str] its characters; other values are not iterable. *)
Fixpoint chars (s : string) : list value :=
  match s with
  | EmptyString => []
  | String c s' => JStr (String c EmptyString) :: chars s'
  end.

Definition iterate (x : value) : result (list value) :=
  match x with
  | JArr items => Ok items
  | JObj d => Ok (map (fun kv => JStr (fst kv)) d)
  | JStr s => Ok (chars s)
  | _ => Raise TypeError
  end.

(** A list comprehension whose body can raise: left to right, the first
    exception ends it. *)
Fixpoint comprehension {A B : Type} (f : A -> result B) (xs : list A) : result (list B) :=
  match xs with
  | [] => Ok []
  | x :: xs' => y <- f x ;; ys <- comprehension f xs' ;; Ok (y :: ys)
  end.

(** [__init__], lines 13 to 19: five attribute assignments on the new object. *)
Definition __init__ (self : pyobj) : result pyobj :=
  self <- setattr self "api" (JStr "https://stockx.com/api/browse?") ;;
  self <- setattr self "sales_api" (JStr "https://stockx.com/api/products/") ;;
  self <- setattr self "headers" JNull ;;
  self <- setattr self "_scraped_products" (JArr []) ;;
  setattr self "_scraped_sales_history" (JArr []).

(** [cls()]: a fresh instance, then [__init__]. *)
Definition construct (cls : pyclass) : result pyobj :=
  __init__ {| ob_type := cls; ob_dict := [] |}.

(** [reset_scrape], lines 46 to 49. *)
Definition reset_scrape (self : pyobj) : result pyobj :=
  self <- setattr self "_scraped_products" (JArr []) ;;
  setattr self "_scraped_sales_history" (JArr []).

(** The mutated first entry put back where [data['ProductActivity'][0]] is:
    Python changes the entry in place inside [data]. *)
Definition put_first_activity (data first : value) : value :=
  match data with
  | JObj d =>
      match dict_get "ProductActivity" d with
      | Some (JArr (_ :: others)) =>
          JObj (dict_set "ProductActivity" (JArr (first :: others)) d)
      | _ => data
      end
  | _ => data
  end.

(** The URL of a product's sales history, line 151. *)
Definition sales_url (product : string) : string :=
  "https://stockx.com/api/products/" ++ product
  ++ "/activity?state=480&currency=USD&limit=10000&page=1".

(** The URL of page [i] of a listing, lines 119 and 125. *)
Definition page_url (api tag category page : string) : string :=
  api ++ "_tags=" ++ tag ++ "&productCategory=" ++ category ++ "&page=" ++ page.

Section Methods.

Context {world : Capabilities}.

(** [_scrape], lines 61 to 64. *)
Definition _scrape (self : pyobj) (url : string) : result pyobj :=
  headers <- getattr self "headers" ;;
  r <- requests_get url headers ;;
  data <- json_loads (text r) ;;
  list_append self "_scraped_products" data.

(** Line 78: the right-hand side [url.split('/')[5]] is evaluated first,
    then the target [data['ProductActivity'][0]], then the item is set. *)
Definition inject_productId (data : value) (url : string) : result value :=
  segments <- str_split url "/" ;;
  product <- list_index segments 5 ;;
  activity <- getitem_key data "ProductActivity" ;;
  first <- getitem_int activity 0 ;;
  first <- setitem_key first "productId" (JStr product) ;;
  Ok (put_first_activity data first).

(** [_scrape_sales_history], lines 76 to 80. *)
Definition _scrape_sales_history (self : pyobj) (url : string) : result pyobj :=
  headers <- getattr self "headers" ;;
  r <- requests_get url headers ;;
  data <- json_loads (text r) ;;
  data <- inject_productId data url ;;
  list_append self "_scraped_sales_history" data.

(** [get_category_urls], lines 118 to 127. *)
Definition get_category_urls (self : pyobj) (tag category : string)
  : result (list string) :=
  api <- getattr self "api" ;;
  api <- format_field api ;;
  headers <- getattr self "headers" ;;
  r <- requests_get (page_url api tag category "1") headers ;;
  data <- json_loads (text r) ;;
  pagination <- getitem_key data "Pagination" ;;
  lastPage <- getitem_key pagination "lastPage" ;;
  after <- split_method lastPage "page=" ;;
  after <- list_index after 1 ;;
  number <- str_split after "&" ;;
  number <- list_index number 0 ;;
  last_page <- py_int number ;;
  Ok (map (fun i => page_url api tag category (str_of_int i))
          (py_range 1 (last_page + 1))).

End Methods.

(** ** The worker pool *)

(** [ThreadPoolExecutor.map(handler, urls)] submits one task per URL; each
    task runs [handler(url)] on a worker and its outcome, a return or the
    exception it raised, is kept in the task's future.  A handler changes the
    shared session in its last statement only, the [append], which is
    atomic, so a run of the pool is the order in which the tasks get there. *)
Record pool_state : Type := {
  pending : list string;
  futures : list (string * option exn);
  shared : pyobj
}.

(** One task runs to its end: a handler that raises leaves the session as
    it was and its exception in the future. *)
Definition complete (handler : pyobj -> string -> result pyobj)
    (i : nat) (st : pool_state) : pool_state :=
  match nth_error (pending st) i with
  | None => st
  | Some url =>
      let rest := firstn i (pending st) ++ skipn (S i) (pending st) in
      match handler (shared st) url with
      | Ok self' =>
          {| pending := rest; futures := (url, None) :: futures st; shared := self' |}
      | Raise e =>
          {| pending := rest; futures := (url, Some e) :: futures st; shared := shared st |}
      end
  end.

(** The pool runs until [n] tasks are done.  The scheduler is an oracle:
    the [k]-th task to finish is the one at position [sched k], modulo the
    number of tasks still pending.  Every completion order of every pool
    size is the run of some oracle. *)
Fixpoint drain (handler : pyobj -> string -> result pyobj)
    (sched : nat -> nat) (n : nat) (st : pool_state) : pool_state :=
  match n with
  | O => st
  | S n' =>
      drain handler (fun k => sched (S k)) n'
            (complete handler (sched 0 mod List.length (pending st)) st)
  end.

(** [with ThreadPoolExecutor() as executor: executor.map(handler, urls)]:
    all tasks are submitted, the iterator over their results is dropped
    unread, and leaving the block waits for every task.  Nothing reads the
    futures, so the block ends normally whatever they hold. *)
Definition executor_map (handler : pyobj -> string -> result pyobj)
    (sched : nat -> nat) (self : pyobj) (urls : list string) : pool_state :=
  drain handler sched (List.length urls)
        {| pending := urls; futures := []; shared := self |}.

Section Fetch.

Context {world : Capabilities}.

(** [get_product_info], lines 138 and 139. *)
Definition get_product_info (sched : nat -> nat) (self : pyobj)
    (urls : list string) : result pyobj :=
  Ok (shared (executor_map _scrape sched self urls)).

(** [get_product_sales_history], lines 150 to 153. *)
Definition get_product_sales_history (sched : nat -> nat) (self : pyobj)
    (products : list string) : result pyobj :=
  let urls := map sales_url products in
  Ok (shared (executor_map _scrape_sales_history sched self urls)).

End Fetch.

(** What the request for one URL yields to a handler: the decoded body, or
    the exception of the GET or of the decoder.  The status of the response
    plays no part. *)
Definition fetched {world : Capabilities} (headers : value) (url : string)
  : result value :=
  r <- requests_get url headers ;;
  json_loads (text r).

(** The same for the sales handler, which then writes the identifier in. *)
Definition fetched_sales {world : Capabilities} (headers : value) (url : string)
  : result value :=
  data <- fetched headers url ;;
  inject_productId data url.

(** The documents a list of requests delivers, in the order of the list. *)
Definition delivered (doc : string -> result value) (urls : list string)
  : list value :=
  flat_map (fun u => match doc u with Ok d => [d] | Raise _ => [] end) urls.

Definition failure {A : Type} (c : result A) : option exn :=
  match c with
  | Ok _ => None
  | Raise e => Some e
  end.

(** The two scheduling oracles used in the examples: tasks finish in the
    order submitted, or, for up to ten tasks, last submitted first (2519
    is one less than a multiple of every number up to ten). *)
Definition in_order : nat -> nat := fun _ => 0%nat.

Definition last_first : nat -> nat := fun _ => 2519%nat.

(** A session whose [headers] and whose accumulator [name] are ordinary
    fields, holding [headers] and the list [acc]. *)
Definition session_holds (name : string) (headers : value) (self : pyobj)
    (acc : list value) : Prop :=
  plain_field self "headers" /\ plain_field self name
  /\ dict_get "headers" (ob_dict self) = Some headers
  /\ dict_get name (ob_dict self) = Some (JArr acc).

(** ** Tables *)

(** The part of pandas the script uses, after its documentation:
    [json_normalize] on a list of records, [concat], the forward fill of a
    column and the left [merge].  A row is the record it came from, column
    name to cell; a column a row does not have is a missing cell there. *)
Definition row : Type := dict.

Record DataFrame : Type := {
  columns : list string;
  rows : list row
}.

(** A missing value for pandas: [None] or not-a-number. *)
Definition isna (v : value) : bool :=
  match v with
  | JNull | JNaN => true
  | _ => false
  end.

Definition cell (c : string) (r : row) : value :=
  match dict_get c r with
  | Some v => v
  | None => JNaN
  end.

Definition has_column (c : string) (cols : list string) : bool :=
  existsb (String.eqb c) cols.

(** Column names in order of first appearance. *)
Definition add_columns (cols new : list string) : list string :=
  fold_left (fun acc c => if has_column c acc then acc else acc ++ [c]) new cols.

(** [d.pop(k)] for the dict alone. *)
Fixpoint dict_pop (k : string) (d : dict) : dict :=
  match d with
  | [] => []
  | (k', v) :: d' => if String.eqb k k' then dict_pop k d' else (k', v) :: dict_pop k d'
  end.

(** The flattening of one record: a key whose value is a [dict] is replaced
    by the keys of that [dict], qualified with the outer key and a dot, and
    so on inwards; every other value stays as it is, lists included.
    [top] says whether [x] is the record itself or a [dict] met inside it
    under the qualified name [prefix].  A key with a dot in it can be the
    qualified name of another; releases of pandas treat such a record in
    different ways, and the statements about column names below are for
    records with plain keys. *)
Fixpoint nested_to_record (top : bool) (prefix : string) (x : value) : dict :=
  match x with
  | JObj d =>
      (fix items (todo : list (string * value)) (new_d : dict) : dict :=
         match todo with
         | [] => new_d
         | (k, v) :: todo' =>
             let newkey := if top then k else (prefix ++ "." ++ k)%string in
             match v with
             | JObj _ =>
                 items todo' (dict_update (dict_pop k new_d)
                                          (nested_to_record false newkey v))
             | _ =>
                 items todo' (if top then new_d
                              else dict_set newkey v (dict_pop k new_d))
             end
         end) d d
  | _ => []
  end.

(** The loop of [nested_to_record] over the items of one [dict], by name. *)
Fixpoint flatten_items (top : bool) (prefix : string)
    (todo : list (string * value)) (new_d : dict) : dict :=
  match todo with
  | [] => new_d
  | (k, v) :: todo' =>
      let newkey := if top then k else (prefix ++ "." ++ k)%string in
      match v with
      | JObj _ =>
          flatten_items top prefix todo'
            (dict_update (dict_pop k new_d) (nested_to_record false newkey v))
      | _ =>
          flatten_items top prefix todo'
            (if top then new_d else dict_set newkey v (dict_pop k new_d))
      end
  end.

(** A column name that carries the name of the [dict] it was found in. *)
Definition qualified (prefix key : string) : Prop :=
  exists rest, key = (prefix ++ "." ++ rest)%string.

Definition flatten_record (x : value) : row := nested_to_record true EmptyString x.

(** The flattened keys of a record in the words of the specification: a
    key whose value is not a [dict] stands for itself; the keys found
    inside a [dict] are qualified with the key of that [dict] and a dot. *)
Fixpoint leaf_paths (x : value) : list string :=
  match x with
  | JObj d =>
      (fix over (items : list (string * value)) : list string :=
         match items with
         | [] => []
         | (k, v) :: items' =>
             match v with
             | JObj _ => map (fun p => (k ++ "." ++ p)%string) (leaf_paths v)
             | _ => [k]
             end ++ over items'
         end) d
  | _ => []
  end.

(** The paths one item of a [dict] contributes. *)
Definition item_paths (kv : string * value) : list string :=
  match snd kv with
  | JObj _ => map (fun p => (fst kv ++ "." ++ p)%string) (leaf_paths (snd kv))
  | _ => [fst kv]
  end.

(** A record whose keys are plain names: at every level a [dict] holds
    each key once and no key has a dot in it, so that no key can be taken
    for the qualified name of another. *)
Fixpoint plain_keys (x : value) : Prop :=
  match x with
  | JObj d =>
      NoDup (keys d)
      /\ (fix over (items : list (string * value)) : Prop :=
            match items with
            | [] => True
            | (k, v) :: items' => lacks "." k = true /\ plain_keys v /\ over items'
            end) d
  | _ => True
  end.

Definition is_record (x : value) : bool :=
  match x with
  | JObj _ => true
  | _ => false
  end.

(** [DataFrame(records)] for flattened records. *)
Definition frame_of_rows (rs : list row) : DataFrame :=
  {| columns := fold_left (fun acc r => add_columns acc (map fst r)) rs [];
     rows := rs |}.

(** [pd.json_normalize(data)]: a list of records gives one row per record,
    a single record one row, the empty list the empty frame.  Releases of
    pandas differ on other data; here a list holding something that is not
    a record is an [AttributeError] and a scalar is not supported. *)
Definition json_normalize (data : value) : result DataFrame :=
  match data with
  | JArr [] => Ok {| columns := []; rows := [] |}
  | JArr entries =>
      if forallb is_record entries
      then Ok (frame_of_rows (map flatten_record entries))
      else Raise AttributeError
  | JObj _ => Ok (frame_of_rows [flatten_record data])
  | _ => Raise NotImplementedError
  end.

(** [pd.concat(dfs, ignore_index=True)]: the rows of the frames one after the
    other under the union of their columns; no frames at all is a
    [ValueError]. *)
Definition concat (dfs : list DataFrame) : result DataFrame :=
  match dfs with
  | [] => Raise ValueError
  | _ =>
      Ok {| columns := fold_left (fun acc df => add_columns acc (columns df)) dfs [];
            rows := flat_map rows dfs |}
  end.

(** The two projections, lines 89 to 91 and 100 to 102: the list
    comprehension over the accumulator, then the concatenation. *)
Definition project (self : pyobj) (accumulator key : string) : result DataFrame :=
  docs <- getattr self accumulator ;;
  docs <- iterate docs ;;
  dfs <- comprehension (fun data => entries <- getitem_key data key ;;
                                    json_normalize entries) docs ;;
  concat dfs.

Definition product_info_to_dataframe (self : pyobj) : result DataFrame :=
  project self "_scraped_products" "Products".

Definition sales_history_to_dataframe (self : pyobj) : result DataFrame :=
  project self "_scraped_sales_history" "ProductActivity".

(** [df[c]]: the cells of a column, top to bottom. *)
Definition column (df : DataFrame) (c : string) : result (list value) :=
  if has_column c (columns df)
  then Ok (map (cell c) (rows df))
  else Raise KeyError.

(** [series.fillna(method='ffill')]: [last] is the latest value met that is
    not missing; a missing cell takes it, or stays missing when there is
    none yet. *)
Fixpoint ffill_from (last : option value) (col : list value) : list value :=
  match col with
  | [] => []
  | v :: col' =>
      if isna v
      then match last with
           | Some w => w :: ffill_from last col'
           | None => v :: ffill_from last col'
           end
      else v :: ffill_from (Some v) col'
  end.

Definition fillna_ffill (col : list value) : list value := ffill_from None col.

(** [df[c] = series] for a series as long as the frame. *)
Fixpoint set_cells (c : string) (rs : list row) (vs : list value) : list row :=
  match rs, vs with
  | r :: rs', v :: vs' => dict_set c v r :: set_cells c rs' vs'
  | _, _ => rs
  end.

Definition set_column (df : DataFrame) (c : string) (vs : list value) : DataFrame :=
  {| columns := add_columns (columns df) [c]; rows := set_cells c (rows df) vs |}.

(** Line 169 of [main]:
    [df['productId'] = df['productId'].fillna(method='ffill')]. *)
Definition main_ffill (df : DataFrame) : result DataFrame :=
  ids <- column df "productId" ;;
  Ok (set_column df "productId" (fillna_ffill ids)).

Definition is_text (v : value) : bool :=
  match v with
  | JStr _ => true
  | _ => false
  end.

(** Equality of two join keys in columns of text: two strings are equal by
    their characters, and two missing keys match each other, as pandas has
    it.  It is used on columns of text only. *)
Definition key_eqb (a b : value) : bool :=
  match a, b with
  | JStr s, JStr t => String.eqb s t
  | _, _ => isna a && isna b
  end.

(** pandas compares two key columns according to their types, and refuses
    some pairs.  The model tells two kinds of column apart.  A column of
    text holds strings and missing cells, with at least one string unless
    it has no rows: pandas keeps such a column as Python objects.  A column
    of integers has at least one row and holds nothing but [int]s that fit
    64 bits: pandas keeps it as [int64]. *)
Definition text_column (col : list value) : bool :=
  forallb (fun v => is_text v || isna v) col
  && match col with
     | [] => true
     | _ => existsb is_text col
     end.

Definition int64_column (col : list value) : bool :=
  match col with
  | [] => false
  | _ => forallb (fun v => match v with
                           | JInt n => (- 2 ^ 63 <=? n)%Z && (n <? 2 ^ 63)%Z
                           | _ => false
                           end) col
  end.

Definition has_rows {A : Type} (l : list A) : bool :=
  match l with
  | [] => false
  | _ => true
  end.

(** A row of the merged table: the row of the left table and the row of
    the right table attached to it, if any.  Without one, every column
    that comes from the right table is missing in this row. *)
Record joined : Type := {
  left_part : row;
  right_part : option row
}.

Definition right_cell (c : string) (j : joined) : value :=
  match right_part j with
  | Some r => cell c r
  | None => JNaN
  end.

(** The rows of the merged table that come from one left row: the row with
    every right row of equal key, or once alone. *)
Definition joined_block (right : DataFrame) (left_on right_on : string) (l : row)
  : list joined :=
  match filter (fun r => key_eqb (cell left_on l) (cell right_on r)) (rows right) with
  | [] => [ {| left_part := l; right_part := None |} ]
  | matches => map (fun r => {| left_part := l; right_part := Some r |}) matches
  end.

(** [left.merge(right, how='left', left_on=l, right_on=r)].  A key column
    that does not exist is a [KeyError].  For two key columns of text the
    result is the blocks of the left rows, in the order of the left table.
    A column of text with rows against a column of integers is refused with
    a [ValueError] (You are trying to merge on object and int64 columns).
    What pandas does for other pairs of columns depends on the types it
    gives them, which the model does not follow: there it stops with
    [NotImplementedError]. *)
Definition merge_left (left right : DataFrame) (left_on right_on : string)
  : result (list joined) :=
  if has_column left_on (columns left) && has_column right_on (columns right)
  then
    let lk := map (cell left_on) (rows left) in
    let rk := map (cell right_on) (rows right) in
    if text_column lk && text_column rk
    then Ok (flat_map (joined_block right left_on right_on) (rows left))
    else if (has_rows lk && text_column lk && int64_column rk)
            || (int64_column lk && has_rows rk && text_column rk)
    then Raise ValueError
    else Raise NotImplementedError
  else Raise KeyError.

(** Line 171 of [main]. *)
Definition main_merge (df product_info : DataFrame) : result (list joined) :=
  merge_left df product_info "productId" "id".

(** ** The script *)

(** [main], lines 157 to 171, up to the table that line 173 writes out,
    for a session of class [cls]; [sched1] and [sched2] are the scheduling
    oracles of the two fetches.  [list(product_info['id'])] gives the cells
    of the [id] column, and each goes into its URL through an f-string
    field. *)
Definition pipeline {world : Capabilities} (cls : pyclass)
    (sched1 sched2 : nat -> nat) : result (list joined) :=
  scraper <- construct cls ;;
  category_urls <- get_category_urls scraper "air jordan" "sneakers" ;;
  scraper <- get_product_info sched1 scraper category_urls ;;
  product_info <- product_info_to_dataframe scraper ;;
  products <- column product_info "id" ;;
  products <- comprehension format_field products ;;
  scraper <- get_product_sales_history sched2 scraper products ;;
  df <- sales_history_to_dataframe scraper ;;
  df <- main_ffill df ;;
  main_merge df product_info.

(** [main] as the source has it: the scraper is a [StockX()]. *)
Definition main {world : Capabilities} (sched1 sched2 : nat -> nat)
  : result (list joined) :=
  pipeline StockX_class sched1 sched2.

(** ** Sessions and services used in the examples *)

(** A session as the specification describes it: the five attributes of
    [__init__] held as ordinary fields. *)
Definition plain_session (products sales : list value) : pyobj :=
  {| ob_type := plain_fields_class;
     ob_dict := [ ("api", JStr "https://stockx.com/api/browse?");
                  ("sales_api", JStr "https://stockx.com/api/products/");
                  ("headers", JNull);
                  ("_scraped_products", JArr products);
                  ("_scraped_sales_history", JArr sales) ] |}.

(** A listing service that answers every request with one page whose
    pagination block carries [lastPage]. *)
Definition listing_document (lastPage : string) : value :=
  JObj [ ("Pagination", JObj [ ("page", JInt 1); ("lastPage", JStr lastPage) ]);
         ("Products", JArr []) ].

Definition listing_world (lastPage : string) : Capabilities :=
  {| requests_get := fun _ _ => Ok {| status_code := 200; text := "listing" |};
     json_loads := fun _ => Ok (listing_document lastPage) |}.

(** A response whose body is not JSON. *)
Definition broken_world : Capabilities :=
  {| requests_get := fun _ _ => Ok {| status_code := 502; text := "<html>" |};
     json_loads := fun _ => Raise JSONDecodeError |}.

(** A service for the fetches: the host [down] cannot be reached, paths
    under [missing] answer with status 404, and every answer carries the
    URL as its body; the body [https://stockx.com/garbage] is not JSON,
    any other decodes to a page with one product and two sales. *)
Definition shop_document (body : string) : value :=
  JObj [ ("Products", JArr [ JObj [ ("id", JStr body) ] ]);
         ("ProductActivity",
          JArr [ JObj [ ("amount", JInt 250) ]; JObj [ ("amount", JInt 260) ] ]) ].

Definition shop_world : Capabilities :=
  {| requests_get := fun url _ =>
       if String.eqb url "https://down/"
       then Raise ConnectionError
       else Ok {| status_code := if String.prefix "https://stockx.com/missing" url
                                 then 404%Z else 200%Z;
                  text := url |};
     json_loads := fun body =>
       if String.eqb body "https://stockx.com/garbage"
       then Raise JSONDecodeError
       else Ok (shop_document body) |}.

(** A page as the API returns it, with one product and one sale per
    identifier; a product has a nested [media] object. *)
Definition catalogue_page (ids : list string) : value :=
  JObj [ ("Products",
          JArr (map (fun i => JObj [ ("id", JStr i);
                                     ("media", JObj [ ("imageUrl", JStr i) ]) ]) ids));
         ("ProductActivity",
          JArr (map (fun i => JObj [ ("amount", JInt 250); ("chainId", JStr i) ]) ids)) ].

(** A sales history without a single sale. *)
Definition quiet_world : Capabilities :=
  {| requests_get := fun _ _ => Ok {| status_code := 200; text := "{}" |};
     json_loads := fun _ => Ok (JObj [ ("ProductActivity", JArr []) ]) |}.

(** A sales history of three sales whose second entry brings a
    [productId] of its own. *)
Definition tagged_world : Capabilities :=
  {| requests_get := fun _ _ => Ok {| status_code := 200; text := "{}" |};
     json_loads := fun _ =>
       Ok (JObj [ ("ProductActivity",
                   JArr [ JObj [ ("amount", JInt 250) ];
                          JObj [ ("amount", JInt 255); ("productId", JStr "Q") ];
                          JObj [ ("amount", JInt 260) ] ]) ]) |}.

(** A sales record as [_scrape_sales_history] stores it for product [p],
    with [n] entries: the first carries [p] as its [productId], the others
    are records that bring no [productId] of their own. *)
Definition stored_record (p : string) (n : nat) (record : value) : Prop :=
  exists d first others,
    record = JObj d
    /\ dict_get "ProductActivity" d = Some (JArr (JObj first :: others))
    /\ dict_get "productId" first = Some (JStr p)
    /\ NoDup (keys first)
    /\ forallb is_record others = true
    /\ Forall (fun e => isna (cell "productId" (flatten_record e)) = true) others
    /\ n = S (List.length others).

(** The entries of a record owned by [p]: the first carries [p], the
    others no identifier. *)
Definition owned_entries (owner : string * nat) (es : list value) : Prop :=
  exists first others,
    es = JObj first :: others
    /\ cell "productId" (flatten_record (JObj first)) = JStr (fst owner)
    /\ forallb is_record others = true
    /\ Forall (fun e => isna (cell "productId" (flatten_record e)) = true) others
    /\ snd owner = S (List.length others).

(** A market of two listing pages with one product each, [p1] and [p2],
    and two sales for any product. *)
Definition market_listing (product : string) : value :=
  JObj [ ("Pagination",
          JObj [ ("lastPage",
                  JStr "/api/browse?_tags=air+jordan&productCategory=sneakers&page=2") ]);
         ("Products",
          JArr [ JObj [ ("id", JStr product); ("brand", JStr "Jordan") ] ]) ].

Definition market_world : Capabilities :=
  {| requests_get := fun url _ => Ok {| status_code := 200; text := url |};
     json_loads := fun body =>
       if String.eqb body (page_url "https://stockx.com/api/browse?"
                                    "air jordan" "sneakers" "1")
       then Ok (market_listing "p1")
       else if String.eqb body (page_url "https://stockx.com/api/browse?"
                                         "air jordan" "sneakers" "2")
       then Ok (market_listing "p2")
       else Ok (JObj [ ("ProductActivity",
                        JArr [ JObj [ ("amount", JInt 250) ];
                               JObj [ ("amount", JInt 260) ] ]) ]) |}.



(** The decimal reading of a string of digits. *)
Fixpoint all_digits (s : string) : bool :=
  match s with
  | EmptyString => true
  | String c s' => is_digit c && all_digits s'
  end.

Fixpoint decimal_from (acc : Z) (s : string) : Z :=
  match s with
  | EmptyString => acc
  | String c s' => decimal_from (10 * acc + digit_value c) s'
  end.

Definition decimal_value (s : string) : Z := decimal_from 0 s.

(** The failures the specification groups under the name ParseError: the
    exceptions that decoding a listing can raise. *)
Definition ParseError (e : exn) : Prop :=
  In e [JSONDecodeError; KeyError; TypeError; AttributeError; IndexError; ValueError].

Section Listings.

Context {world : Capabilities}.

(** A listing response that cannot be decoded, with the exception each shape
    leads to: a body that is not JSON; a document without a [Pagination]
    object; a pagination block without [lastPage]; a [lastPage] that is not
    a string; one without any [page=]; one where the text between the first
    [page=] and what ends it, the next [&], the next [page=] or the end of
    the string, is not an integer for [int]. *)
Inductive bad_listing (r : Response) : exn -> Prop :=
  | not_json :
      json_loads (text r) = Raise JSONDecodeError ->
      bad_listing r JSONDecodeError
  | no_pagination (data : value) (e : exn) :
      json_loads (text r) = Ok data ->
      getitem_key data "Pagination" = Raise e ->
      bad_listing r e
  | no_lastPage (data pagination : value) (e : exn) :
      json_loads (text r) = Ok data ->
      getitem_key data "Pagination" = Ok pagination ->
      getitem_key pagination "lastPage" = Raise e ->
      bad_listing r e
  | lastPage_not_str (data pagination lastPage : value) :
      json_loads (text r) = Ok data ->
      getitem_key data "Pagination" = Ok pagination ->
      getitem_key pagination "lastPage" = Ok lastPage ->
      (forall s, lastPage <> JStr s) ->
      bad_listing r AttributeError
  | lastPage_without_page (data pagination : value) (s : string) :
      json_loads (text r) = Ok data ->
      getitem_key data "Pagination" = Ok pagination ->
      getitem_key pagination "lastPage" = Ok (JStr s) ->
      str_find "page=" s = None ->
      bad_listing r IndexError
  | page_not_integer (data pagination : value) (pre number post : string) :
      json_loads (text r) = Ok data ->
      getitem_key data "Pagination" = Ok pagination ->
      getitem_key pagination "lastPage"
        = Ok (JStr (pre ++ "page=" ++ number ++ post)%string) ->
      str_find "page=" (pre ++ "page=" ++ number ++ post)%string
        = Some (String.length pre) ->
      str_find "page=" number = None -> lacks "&" number = true ->
      (post = EmptyString \/ (exists q, post = String "&" q)
       \/ exists q, post = ("page=" ++ q)%string) ->
      py_int number = Raise ValueError ->
      bad_listing r ValueError.

End Listings.

(** A service seen through other status codes: the same responses, each
    with the status [status] gives its URL. *)
Definition with_status (status : string -> Z) (w : Capabilities) : Capabilities :=
  {| requests_get := fun url headers =>
       match @requests_get w url headers with
       | Ok r => Ok {| status_code := status url; text := text r |}
       | Raise e => Raise e
       end;
     json_loads := @json_loads w |}.

(** A decoded sales response that line 78 cannot write into, with the
    exception it leads to: not an object; an object without
    [ProductActivity]; a [ProductActivity] that is an object, a scalar, an
    empty or a non-empty string; a list whose first entry is not an
    object. *)
Inductive bad_sales_document : value -> exn -> Prop :=
  | sales_not_an_object (data : value) :
      is_record data = false -> bad_sales_document data TypeError
  | sales_without_activity (d : dict) :
      dict_get "ProductActivity" d = None ->
      bad_sales_document (JObj d) KeyError
  | activity_an_object (d fields : dict) :
      dict_get "ProductActivity" d = Some (JObj fields) ->
      bad_sales_document (JObj d) KeyError
  | activity_a_scalar (d : dict) (x : value) :
      dict_get "ProductActivity" d = Some x ->
      In x [JNull; JNaN] \/ (exists b, x = JBool b) \/ (exists n, x = JInt n)
      \/ (exists lit, x = JFloat lit) ->
      bad_sales_document (JObj d) TypeError
  | activity_empty_text (d : dict) :
      dict_get "ProductActivity" d = Some (JStr EmptyString) ->
      bad_sales_document (JObj d) IndexError
  | activity_text (d : dict) (c : ascii) (s : string) :
      dict_get "ProductActivity" d = Some (JStr (String c s)) ->
      bad_sales_document (JObj d) TypeError
  | first_entry_not_an_object (d : dict) (first : value) (others : list value) :
      dict_get "ProductActivity" d = Some (JArr (first :: others)) ->
      is_record first = false ->
      bad_sales_document (JObj d) TypeError.

(** A sales record with its identifier in the first entry, whatever the
    other entries bring. *)
Definition kept_record (record : value) : Prop :=
  exists d first others p,
    record = JObj d
    /\ dict_get "ProductActivity" d = Some (JArr (JObj first :: others))
    /\ dict_get "productId" first = Some (JStr p)
    /\ NoDup (keys first)
    /\ forallb is_record others = true.

(** A session that differs from [self0] in the accumulator [name] at most. *)
Definition same_but (name : string) (headers : value) (self0 self : pyobj)
    (acc : list value) : Prop :=
  session_holds name headers self acc
  /\ ob_type self = ob_type self0
  /\ keys (ob_dict self) = keys (ob_dict self0)
  /\ forall k, k <> name -> dict_get k (ob_dict self) = dict_get k (ob_dict self0).

(** The identifier a stored sales record carries:
    [record['ProductActivity'][0]['productId']]. *)
Definition record_identifier (record : value) : result value :=
  activity <- getitem_key record "ProductActivity" ;;
  first <- getitem_int activity 0 ;;
  getitem_key first "productId".

(** ** Properties of the runtime fragment *)

Lemma bind_ok {A B : Type} (c : result A) (k : A -> result B) (a : A) :
  c = Ok a -> bind c k = k a.
Proof. intros ->. reflexivity. Qed.

Lemma bind_raise {A B : Type} (c : result A) (k : A -> result B) (e : exn) :
  c = Raise e -> bind c k = Raise e.
Proof. intros ->. reflexivity. Qed.

Lemma dict_get_set_same (k : string) (v : value) (d : dict) :
  dict_get k (dict_set k v d) = Some v.
Proof.
  induction d as [|[k' v'] d IH]; simpl.
  - now rewrite String.eqb_refl.
  - destruct (String.eqb k k') eqn:E; simpl; rewrite E; auto.
Qed.

Lemma dict_get_set_other (k k' : string) (v : value) (d : dict) :
  k <> k' -> dict_get k (dict_set k' v d) = dict_get k d.
Proof.
  intros Hne. induction d as [|[k0 v0] d IH]; simpl.
  - destruct (String.eqb_spec k k'); congruence.
  - destruct (String.eqb_spec k' k0) as [->|Hk0]; simpl.
    + destruct (String.eqb_spec k k0); congruence.
    + now rewrite IH.
Qed.

(** *** Splitting *)

Section Splitting.

Local Open Scope string_scope.

Lemma prefix_split (sep s : string) :
  String.prefix sep s = true -> exists r, s = sep ++ r.
Proof.
  revert s. induction sep as [|c sep IH]; intros s H.
  - now exists s.
  - destruct s as [|c' s]; simpl in H; [discriminate|].
    destruct (ascii_dec c c') as [->|]; [|discriminate].
    destruct (IH _ H) as [r ->]. now exists r.
Qed.

Lemma prefix_append (sep r : string) : String.prefix sep (sep ++ r) = true.
Proof.
  induction sep as [|c sep IH]; simpl.
  - now destruct r.
  - destruct (ascii_dec c c); [assumption|congruence].
Qed.

Lemma split_from_skip (sep x r : string) :
  split_from sep (String.length x) (x ++ r) = split_from sep 0 r.
Proof.
  induction x as [|c x IH]; simpl.
  - now destruct r.
  - exact IH.
Qed.

Lemma split_from_cons (sep : string) (k : nat) (s : string) :
  exists piece pieces, split_from sep k s = piece :: pieces.
Proof.
  revert k. induction s as [|c s IH]; intros k; cbn [split_from].
  - now exists EmptyString, [].
  - destruct k as [|k]; [|apply IH].
    destruct (String.prefix sep (String c s)).
    + now eexists _, _.
    + destruct (IH 0%nat) as (p & ps & ->). now eexists _, _.
Qed.

Lemma split_from_separator (c : ascii) (sep r : string) :
  split_from (String c sep) 0 (String c sep ++ r)
  = EmptyString :: split_from (String c sep) 0 r.
Proof.
  change (String c sep ++ r) with (String c (sep ++ r)).
  cbn [split_from].
  change (String c (sep ++ r)) with (String c sep ++ r).
  rewrite prefix_append.
  replace (String.length (String c sep) - 1)%nat with (String.length sep)
    by (simpl; lia).
  now rewrite split_from_skip.
Qed.

(** The first occurrence of the separator is where [split] cuts first. *)
Lemma split_from_find (c : ascii) (sep s : string) (n : nat) :
  str_find (String c sep) s = Some n ->
  exists a r, s = a ++ String c sep ++ r /\ String.length a = n
              /\ split_from (String c sep) 0 s = a :: split_from (String c sep) 0 r.
Proof.
  revert n. induction s as [|c' s IH]; intros n H.
  - simpl in H. discriminate.
  - cbn [str_find] in H.
    destruct (String.prefix (String c sep) (String c' s)) eqn:P.
    + injection H as <-. destruct (prefix_split _ _ P) as [r Hr].
      exists EmptyString, r. rewrite Hr. repeat split.
      apply split_from_separator.
    + destruct (str_find (String c sep) s) as [m|] eqn:F; [|discriminate].
      injection H as <-. destruct (IH m eq_refl) as (a & r & -> & Hlen & Hs).
      exists (String c' a), r. repeat split.
      * simpl. now rewrite Hlen.
      * change (String c' a ++ String c sep ++ r)
          with (String c' (a ++ String c sep ++ r)).
        cbn [split_from]. rewrite P, Hs. reflexivity.
Qed.

Lemma split_from_absent (c : ascii) (sep s : string) :
  str_find (String c sep) s = None -> split_from (String c sep) 0 s = [s].
Proof.
  induction s as [|c' s IH]; intros H.
  - reflexivity.
  - cbn [str_find] in H. cbn [split_from].
    destruct (String.prefix (String c sep) (String c' s)); [discriminate|].
    destruct (str_find (String c sep) s); [discriminate|].
    now rewrite IH.
Qed.

(** A stretch of text without the separator's first character goes whole
    into the first piece. *)
Lemma split_from_lacks (c : ascii) (sep a t : string) :
  lacks c a = true ->
  split_from (String c sep) 0 (a ++ t)
  = (a ++ hd EmptyString (split_from (String c sep) 0 t))
      :: tl (split_from (String c sep) 0 t).
Proof.
  induction a as [|c' a IH]; intros H.
  - simpl. destruct (split_from_cons (String c sep) 0 t) as (p & ps & ->).
    reflexivity.
  - simpl in H. apply andb_true_iff in H as [Hc Ha].
    change (String c' a ++ t) with (String c' (a ++ t)).
    cbn [split_from String.prefix].
    destruct (ascii_dec c c') as [->|_].
    + rewrite Ascii.eqb_refl in Hc. discriminate.
    + rewrite (IH Ha). reflexivity.
Qed.

End Splitting.

(** *** Integers in text *)

Lemma digit_not_space (c : ascii) : is_digit c = true -> is_space c = false.
Proof.
  destruct c as [[] [] [] [] [] [] [] []]; vm_compute; congruence.
Qed.

Lemma digit_not_sign (c : ascii) :
  is_digit c = true -> c <> "+"%char /\ c <> "-"%char.
Proof.
  destruct c as [[] [] [] [] [] [] [] []]; vm_compute; intros H; split;
    congruence.
Qed.

Lemma digit_lacks (c0 : ascii) (s : string) :
  is_digit c0 = false -> all_digits s = true -> lacks c0 s = true.
Proof.
  intros Hc. induction s as [|c s IH]; simpl; [reflexivity|].
  intros H. apply andb_true_iff in H as [Hd Hs]. rewrite (IH Hs), andb_true_r.
  destruct (Ascii.eqb_spec c0 c) as [->|]; [congruence|reflexivity].
Qed.

Lemma rstrip_digits (s : string) : all_digits s = true -> rstrip s = s.
Proof.
  induction s as [|c s IH]; simpl; [reflexivity|].
  intros H. apply andb_true_iff in H as [Hd Hs]. rewrite (IH Hs).
  destruct s; [|reflexivity]. now rewrite (digit_not_space _ Hd).
Qed.

Lemma strip_digits (s : string) : all_digits s = true -> strip s = s.
Proof.
  intros H. unfold strip.
  replace (lstrip s) with s; [now apply rstrip_digits|].
  destruct s as [|c s]; simpl in *; [reflexivity|].
  apply andb_true_iff in H as [Hd _]. now rewrite (digit_not_space _ Hd).
Qed.

Lemma int_digits_decimal (s : string) (acc : Z) :
  all_digits s = true -> int_digits s acc true = Some (decimal_from acc s).
Proof.
  revert acc. induction s as [|c s IH]; intros acc H; simpl in *; [reflexivity|].
  apply andb_true_iff in H as [Hd Hs]. rewrite Hd. now apply IH.
Qed.

(** [int] reads a plain string of digits as its decimal value. *)
Lemma py_int_digits (s : string) :
  s <> EmptyString -> all_digits s = true -> py_int s = Ok (decimal_value s).
Proof.
  intros Hne H. unfold py_int. rewrite (strip_digits _ H).
  destruct s as [|c s]; [congruence|].
  simpl in H. apply andb_true_iff in H as [Hd Hs].
  assert (Hbody : int_digits (String c s) 0 false = Some (decimal_value (String c s))).
  { simpl. rewrite Hd. now apply int_digits_decimal. }
  destruct (digit_not_sign _ Hd) as [Hplus Hminus].
  destruct c as [[] [] [] [] [] [] [] []];
    try (now rewrite Hbody); congruence.
Qed.

(** *** Attribute access *)

Lemma resolve_get_plain (depth : nat) (cls : pyclass) (name : string) :
  class_lookup name cls = None -> resolve_get depth cls name = Ok name.
Proof. intros H. destruct depth; simpl; now rewrite H. Qed.

Lemma getattr_plain (self : pyobj) (name : string) (v : value) :
  plain_field self name ->
  dict_get name (ob_dict self) = Some v ->
  getattr self name = Ok v.
Proof.
  intros Hp Hd. unfold getattr. rewrite (resolve_get_plain _ _ _ Hp). simpl.
  now rewrite Hd.
Qed.

Lemma list_append_plain (self : pyobj) (name : string) (items : list value)
    (x : value) :
  plain_field self name ->
  dict_get name (ob_dict self) = Some (JArr items) ->
  list_append self name x = Ok (store self name (JArr (items ++ [x]))).
Proof.
  intros Hp Hd. unfold list_append. rewrite (resolve_get_plain _ _ _ Hp). simpl.
  now rewrite Hd.
Qed.

(** A getter that returns the attribute it is defined for calls itself
    again, whatever the depth allowed. *)
Lemma self_referential_getter (depth : nat) (cls : pyclass) (name : string)
    (p : property) :
  class_lookup name cls = Some p -> fget p = Some name ->
  resolve_get depth cls name = Raise RecursionError.
Proof.
  intros Hc Hg. induction depth as [|d IH]; simpl; rewrite Hc, Hg; auto.
Qed.

(** ** The pagination resolver *)

Section Resolver.

Context {world : Capabilities}.

Local Open Scope string_scope.

Lemma append_same_length (a b x y : string) :
  String.length a = String.length b -> a ++ x = b ++ y -> a = b /\ x = y.
Proof.
  revert b. induction a as [|c a IH]; intros [|c' b] Hlen H; simpl in *;
    try discriminate; [now split|].
  injection H as -> H. injection Hlen as Hlen.
  destruct (IH _ Hlen H) as [-> ->]. now split.
Qed.

(** What lines 121 and 122 cut out of [lastPage]: the text after the first
    [page=], up to the [&] or the end that follows it. *)
Lemma number_of_lastPage (pre number post : string) :
  str_find "page=" (pre ++ "page=" ++ number ++ post) = Some (String.length pre) ->
  lacks "p" number = true -> lacks "&" number = true ->
  (post = EmptyString \/ exists q, post = String "&" q) ->
  (after <- split_method (JStr (pre ++ "page=" ++ number ++ post)) "page=" ;;
   after <- list_index after 1 ;;
   pieces <- str_split after "&" ;;
   list_index pieces 0) = Ok number.
Proof.
  intros Hfind Hp Hamp Hpost.
  destruct (split_from_find _ _ _ _ Hfind) as (a & r & Heq & Hlen & Hsplit).
  destruct (append_same_length _ _ _ _ (eq_sym Hlen) Heq) as [<- Hr].
  change ("page=" ++ number ++ post) with (String "p" "age=" ++ (number ++ post)) in Hr.
  change (String "p" "age=" ++ r) with (String "p" ("age=" ++ r)) in Hr.
  injection Hr as Hr. repeat (injection Hr as Hr). subst r.
  cbn [split_method str_split bind]. rewrite Hsplit.
  rewrite (split_from_lacks "p" "age=" number post Hp).
  cbn [list_index nth_error bind].
  rewrite (split_from_lacks "&" EmptyString number _ Hamp).
  cbn [list_index nth_error]. f_equal.
  assert (Hhd : hd EmptyString (split_from "&" 0 (hd EmptyString (split_from "page=" 0 post))) = EmptyString).
  { destruct Hpost as [->|[q ->]]; [reflexivity|].
    change (String "&" q) with ("&" ++ q).
    rewrite (split_from_lacks "p" "age=" "&" q eq_refl). cbn [hd].
    change ("&" ++ hd EmptyString (split_from "page=" 0 q))
      with (String "&" EmptyString ++ hd EmptyString (split_from "page=" 0 q)).
    now rewrite split_from_separator. }
  rewrite Hhd. clear. induction number; simpl; congruence.
Qed.

Lemma str_find_none_prefix (sep a : string) :
  str_find sep a = None -> String.prefix sep a = false.
Proof.
  destruct a; cbn [str_find]; now destruct (String.prefix sep _).
Qed.

(** A separator that starts inside [a] and does not hold the character
    that follows [a] lies inside [a]. *)
Lemma prefix_through (sep a : string) (c : ascii) (t : string) :
  lacks c sep = true ->
  String.prefix sep (a ++ String c t) = true -> String.prefix sep a = true.
Proof.
  revert a. induction sep as [|c0 sep IH]; intros a Hc H.
  - now destruct a.
  - cbn [lacks] in Hc. apply andb_true_iff in Hc as [Hc0 Hsep].
    destruct a as [|c1 a].
    + change (EmptyString ++ String c t) with (String c t) in H.
      cbn [String.prefix] in H. destruct (ascii_dec c0 c) as [->|]; [|discriminate].
      rewrite Ascii.eqb_refl in Hc0. discriminate.
    + change (String c1 a ++ String c t) with (String c1 (a ++ String c t)) in H.
      cbn [String.prefix] in H |- *.
      destruct (ascii_dec c0 c1); [|discriminate]. now apply (IH a).
Qed.

(** A stretch of text without the separator, closed by a character the
    separator does not hold, goes whole into the first piece. *)
Lemma split_from_past (c0 : ascii) (sep a : string) (c : ascii) (t : string) :
  str_find (String c0 sep) a = None -> lacks c (String c0 sep) = true ->
  split_from (String c0 sep) 0 (a ++ String c t)
  = (a ++ String c (hd EmptyString (split_from (String c0 sep) 0 t)))
      :: tl (split_from (String c0 sep) 0 t).
Proof.
  intros Hfind Hc. induction a as [|c1 a IH].
  - change (EmptyString ++ String c t) with (String c t).
    cbn [split_from String.prefix].
    destruct (ascii_dec c0 c) as [->|_].
    + cbn [lacks] in Hc. rewrite Ascii.eqb_refl in Hc. discriminate.
    + destruct (split_from_cons (String c0 sep) 0 t) as (x & xs & ->). reflexivity.
  - pose proof (str_find_none_prefix _ _ Hfind) as Hpre.
    assert (Hrest : str_find (String c0 sep) a = None).
    { cbn [str_find] in Hfind. rewrite Hpre in Hfind.
      now destruct (str_find (String c0 sep) a). }
    change (String c1 a ++ String c t) with (String c1 (a ++ String c t)).
    cbn [split_from].
    destruct (String.prefix (String c0 sep) (String c1 (a ++ String c t))) eqn:P.
    + change (String c1 (a ++ String c t)) with (String c1 a ++ String c t) in P.
      apply (prefix_through _ _ _ _ Hc) in P. congruence.
    + rewrite (IH Hrest). reflexivity.
Qed.

(** [page=] does not overlap itself: a copy that starts inside [n] and runs
    into a following [page=] would have to lie inside [n]. *)
Lemma page_no_straddle (n q : string) :
  String.prefix "page=" n = false ->
  String.prefix "page=" (n ++ "page=" ++ q) = true -> n = EmptyString.
Proof.
  intros Hn H.
  destruct n as [|c1 n]; [reflexivity|].
  destruct n as [|c2 n]; [|destruct n as [|c3 n]; [|destruct n as [|c4 n];
    [|destruct n as [|c5 n]]]];
    cbn [append String.prefix] in Hn, H;
    repeat match type of H with
           | (if ascii_dec ?a ?b then _ else _) = true =>
               destruct (ascii_dec a b) as [?|?]; [subst|discriminate]
           end;
    try discriminate;
    cbn [String.prefix] in Hn;
    repeat match type of Hn with
           | (if ascii_dec ?a ?b then _ else _) = false =>
               destruct (ascii_dec a b) as [?|?]; [|congruence]
           end;
    try discriminate.
  now destruct n.
Qed.

(** The next [page=] after a stretch that holds none is found at its end. *)
Lemma find_page_after (number q : string) :
  str_find "page=" number = None ->
  str_find "page=" (number ++ "page=" ++ q) = Some (String.length number).
Proof.
  induction number as [|c n IH]; intros Hfind.
  - change (EmptyString ++ "page=" ++ q) with ("page=" ++ q).
    destruct q; reflexivity.
  - pose proof (str_find_none_prefix _ _ Hfind) as Hpre.
    assert (Hrest : str_find "page=" n = None).
    { cbn [str_find] in Hfind. rewrite Hpre in Hfind.
      now destruct (str_find "page=" n). }
    change (String c n ++ "page=" ++ q) with (String c (n ++ "page=" ++ q)).
    cbn [str_find].
    destruct (String.prefix "page=" (String c (n ++ "page=" ++ q))) eqn:P.
    + change (String c (n ++ "page=" ++ q)) with (String c n ++ "page=" ++ q) in P.
      now apply (page_no_straddle _ _ Hpre) in P.
    + rewrite (IH Hrest). reflexivity.
Qed.

(** What [split('&')[0]] keeps of a text that goes on with [&] or ends. *)
Lemma amp_cut (number rest : string) :
  lacks "&" number = true ->
  (rest = EmptyString \/ exists q, rest = String "&" q) ->
  hd EmptyString (split_from "&" 0 (number ++ rest)) = number.
Proof.
  intros Hamp Hrest.
  rewrite (split_from_lacks "&" EmptyString number rest Hamp). cbn [hd].
  assert (Hhd : hd EmptyString (split_from "&" 0 rest) = EmptyString).
  { destruct Hrest as [->|[q ->]]; [reflexivity|].
    change (String "&" q) with (String "&" EmptyString ++ q).
    now rewrite split_from_separator. }
  rewrite Hhd. clear. induction number; simpl; congruence.
Qed.

(** Lines 121 and 122 in general: the text cut out of [lastPage] starts
    after the first [page=] and stops at the next [&], at the next [page=]
    or at the end, whichever comes first. *)
Lemma number_of_lastPage_cut (pre number post : string) :
  str_find "page=" (pre ++ "page=" ++ number ++ post) = Some (String.length pre) ->
  str_find "page=" number = None -> lacks "&" number = true ->
  (post = EmptyString \/ (exists q, post = String "&" q)
   \/ exists q, post = "page=" ++ q) ->
  (after <- split_method (JStr (pre ++ "page=" ++ number ++ post)) "page=" ;;
   after <- list_index after 1 ;;
   pieces <- str_split after "&" ;;
   list_index pieces 0) = Ok number.
Proof.
  intros Hfind Hnone Hamp Hpost.
  destruct (split_from_find _ _ _ _ Hfind) as (a & r & Heq & Hlen & Hsplit).
  destruct (append_same_length _ _ _ _ (eq_sym Hlen) Heq) as [<- Hr].
  change ("page=" ++ number ++ post) with (String "p" "age=" ++ (number ++ post)) in Hr.
  change (String "p" "age=" ++ r) with (String "p" ("age=" ++ r)) in Hr.
  injection Hr as Hr. repeat (injection Hr as Hr). subst r.
  cbn [split_method str_split bind]. rewrite Hsplit.
  assert (Hafter : exists rest others,
            split_from "page=" 0 (number ++ post) = (number ++ rest) :: others
            /\ (rest = EmptyString \/ exists q, rest = String "&" q)).
  { destruct Hpost as [->|[[q ->]|[q ->]]].
    - exists EmptyString, []. split; [|now left].
      replace (number ++ EmptyString) with number
        by (clear; induction number; simpl; congruence).
      now apply (split_from_absent "p" "age=").
    - eexists _, _. split; [|right; eexists; reflexivity].
      now apply (split_from_past "p" "age=" number "&" q).
    - destruct (split_from_find _ _ _ _ (find_page_after number q Hnone))
        as (a' & r' & Heq' & Hlen' & Hs).
      destruct (append_same_length _ _ _ _ (eq_sym Hlen') Heq') as [<- _].
      exists EmptyString, (split_from "page=" 0 r'). split; [|now left].
      rewrite Hs.
      replace (number ++ EmptyString) with number
        by (clear; induction number; simpl; congruence).
      reflexivity. }
  destruct Hafter as (rest & others & -> & Hrest).
  cbn [list_index nth_error bind].
  pose proof (amp_cut number rest Hamp Hrest) as Hcut.
  destruct (split_from_cons "&" 0 (number ++ rest)) as (x & xs & Hx).
  rewrite Hx in *. cbn [hd] in Hcut. now subst x.
Qed.

(** The URLs of pages 1 to [n], as the comprehension of line 125 lists them. *)
Lemma page_urls_range (api tag category : string) (n : Z) :
  map (fun i => page_url api tag category (str_of_int i)) (py_range 1 (n + 1))
  = map (fun i => page_url api tag category (str_of_int (Z.of_nat i)))
        (seq 1 (Z.to_nat n)).
Proof.
  unfold py_range. replace (n + 1 - 1)%Z with n by lia.
  rewrite <- seq_shift, !map_map. apply map_ext. intros k.
  do 2 f_equal. lia.
Qed.

(** With the session's two attributes readable and the request answered,
    the method comes down to [int] of the text cut out of [lastPage]. *)
Lemma get_category_urls_number (self : pyobj) (tag category api : string)
    (headers : value) (r : Response) (data pagination : value)
    (pre number post : string) :
  plain_field self "api" -> plain_field self "headers" ->
  dict_get "api" (ob_dict self) = Some (JStr api) ->
  dict_get "headers" (ob_dict self) = Some headers ->
  requests_get (page_url api tag category "1") headers = Ok r ->
  json_loads (text r) = Ok data ->
  getitem_key data "Pagination" = Ok pagination ->
  getitem_key pagination "lastPage" = Ok (JStr (pre ++ "page=" ++ number ++ post)) ->
  str_find "page=" (pre ++ "page=" ++ number ++ post) = Some (String.length pre) ->
  lacks "p" number = true -> lacks "&" number = true ->
  (post = EmptyString \/ exists q, post = String "&" q) ->
  get_category_urls self tag category
  = (last_page <- py_int number ;;
     Ok (map (fun i => page_url api tag category (str_of_int i))
             (py_range 1 (last_page + 1)))).
Proof.
  intros Pa Ph Da Dh Hget Hjson Hpag Hlast Hfind Hp Hamp Hpost.
  pose proof (number_of_lastPage _ _ _ Hfind Hp Hamp Hpost) as Hnum.
  unfold get_category_urls.
  rewrite (getattr_plain _ _ _ Pa Da). cbn [bind format_field].
  rewrite (getattr_plain _ _ _ Ph Dh). cbn [bind].
  rewrite Hget. cbn [bind]. rewrite Hjson. cbn [bind].
  rewrite Hpag. cbn [bind]. rewrite Hlast. cbn [bind].
  destruct (split_method _ "page=") as [parts|e]; [|discriminate].
  cbn [bind] in Hnum |- *.
  destruct (list_index parts 1) as [after|e]; [|discriminate].
  cbn [bind] in Hnum |- *.
  destruct (str_split after "&") as [pieces|e]; [|discriminate].
  cbn [bind] in Hnum |- *. rewrite Hnum. reflexivity.
Qed.

(** The same for a number closed by [&], by the next [page=] or by the end. *)
Lemma get_category_urls_cut (self : pyobj) (tag category api : string)
    (headers : value) (r : Response) (data pagination : value)
    (pre number post : string) :
  plain_field self "api" -> plain_field self "headers" ->
  dict_get "api" (ob_dict self) = Some (JStr api) ->
  dict_get "headers" (ob_dict self) = Some headers ->
  requests_get (page_url api tag category "1") headers = Ok r ->
  json_loads (text r) = Ok data ->
  getitem_key data "Pagination" = Ok pagination ->
  getitem_key pagination "lastPage" = Ok (JStr (pre ++ "page=" ++ number ++ post)) ->
  str_find "page=" (pre ++ "page=" ++ number ++ post) = Some (String.length pre) ->
  str_find "page=" number = None -> lacks "&" number = true ->
  (post = EmptyString \/ (exists q, post = String "&" q)
   \/ exists q, post = "page=" ++ q) ->
  get_category_urls self tag category
  = (last_page <- py_int number ;;
     Ok (map (fun i => page_url api tag category (str_of_int i))
             (py_range 1 (last_page + 1)))).
Proof.
  intros Pa Ph Da Dh Hget Hjson Hpag Hlast Hfind Hp Hamp Hpost.
  pose proof (number_of_lastPage_cut _ _ _ Hfind Hp Hamp Hpost) as Hnum.
  unfold get_category_urls.
  rewrite (getattr_plain _ _ _ Pa Da). cbn [bind format_field].
  rewrite (getattr_plain _ _ _ Ph Dh). cbn [bind].
  rewrite Hget. cbn [bind]. rewrite Hjson. cbn [bind].
  rewrite Hpag. cbn [bind]. rewrite Hlast. cbn [bind].
  destruct (split_method _ "page=") as [parts|e]; [|discriminate].
  cbn [bind] in Hnum |- *.
  destruct (list_index parts 1) as [after|e]; [|discriminate].
  cbn [bind] in Hnum |- *.
  destruct (str_split after "&") as [pieces|e]; [|discriminate].
  cbn [bind] in Hnum |- *. rewrite Hnum. reflexivity.
Qed.

(** C3 (as amended): for a session whose [api] and [headers] are readable as
    fields and a listing whose [lastPage] has, at its first [page=], the
    digits of N followed by [&] or the end of the string,
    [get_category_urls] returns exactly N URLs, the listing URL with [page]
    set to 1, 2, ..., N.  For [page=1] that is one URL. *)
Theorem get_category_urls_pages (self : pyobj) (tag category api : string)
    (headers : value) (r : Response) (data pagination : value)
    (pre digits post : string) :
  plain_field self "api" -> plain_field self "headers" ->
  dict_get "api" (ob_dict self) = Some (JStr api) ->
  dict_get "headers" (ob_dict self) = Some headers ->
  requests_get (page_url api tag category "1") headers = Ok r ->
  json_loads (text r) = Ok data ->
  getitem_key data "Pagination" = Ok pagination ->
  getitem_key pagination "lastPage" = Ok (JStr (pre ++ "page=" ++ digits ++ post)) ->
  str_find "page=" (pre ++ "page=" ++ digits ++ post) = Some (String.length pre) ->
  digits <> EmptyString -> all_digits digits = true ->
  (post = EmptyString \/ exists q, post = String "&" q) ->
  exists urls,
    get_category_urls self tag category = Ok urls
    /\ List.length urls = Z.to_nat (decimal_value digits)
    /\ urls = map (fun i => page_url api tag category (str_of_int (Z.of_nat i)))
                  (seq 1 (Z.to_nat (decimal_value digits))).
Proof.
  intros Pa Ph Da Dh Hget Hjson Hpag Hlast Hfind Hne Hdig Hpost.
  rewrite (get_category_urls_number _ _ _ _ _ _ _ _ _ _ _
             Pa Ph Da Dh Hget Hjson Hpag Hlast Hfind
             (digit_lacks "p" _ eq_refl Hdig) (digit_lacks "&" _ eq_refl Hdig) Hpost).
  rewrite (py_int_digits _ Hne Hdig). cbn [bind]. rewrite page_urls_range.
  eexists. split; [reflexivity|]. split; [|reflexivity].
  now rewrite length_map, length_seq.
Qed.

Lemma getitem_key_raises (x : value) (k : string) (e : exn) :
  getitem_key x k = Raise e -> e = KeyError \/ e = TypeError.
Proof.
  unfold getitem_key. destruct x; try (intros [= <-]; tauto).
  destruct (dict_get k fields); [discriminate|]. intros [= <-]; tauto.
Qed.

(** The method up to the decoding of the response body. *)
Lemma get_category_urls_decode (self : pyobj) (tag category api : string)
    (headers : value) (r : Response) :
  plain_field self "api" -> plain_field self "headers" ->
  dict_get "api" (ob_dict self) = Some (JStr api) ->
  dict_get "headers" (ob_dict self) = Some headers ->
  requests_get (page_url api tag category "1") headers = Ok r ->
  get_category_urls self tag category
  = (data <- json_loads (text r) ;;
     pagination <- getitem_key data "Pagination" ;;
     lastPage <- getitem_key pagination "lastPage" ;;
     after <- split_method lastPage "page=" ;;
     after <- list_index after 1 ;;
     number <- str_split after "&" ;;
     number <- list_index number 0 ;;
     last_page <- py_int number ;;
     Ok (map (fun i => page_url api tag category (str_of_int i))
             (py_range 1 (last_page + 1)))).
Proof.
  intros Pa Ph Da Dh Hget. unfold get_category_urls.
  rewrite (getattr_plain _ _ _ Pa Da). cbn [bind format_field].
  rewrite (getattr_plain _ _ _ Ph Dh). cbn [bind].
  rewrite Hget. reflexivity.
Qed.

(** C4 (as amended): for a session whose [api] and [headers] are readable as
    fields, a response that is not JSON, or lacks the pagination block or its
    [lastPage] string, or whose [lastPage] has no [page=], or has text there
    that [int] rejects, makes [get_category_urls] raise one of the built-in
    exceptions grouped as ParseError, so no list of URLs comes back. *)
Theorem get_category_urls_bad_listing (self : pyobj) (tag category api : string)
    (headers : value) (r : Response) (e : exn) :
  plain_field self "api" -> plain_field self "headers" ->
  dict_get "api" (ob_dict self) = Some (JStr api) ->
  dict_get "headers" (ob_dict self) = Some headers ->
  requests_get (page_url api tag category "1") headers = Ok r ->
  bad_listing r e ->
  get_category_urls self tag category = Raise e /\ ParseError e.
Proof.
  intros Pa Ph Da Dh Hget Hbad.
  pose proof (get_category_urls_decode _ tag category _ _ _ Pa Ph Da Dh Hget) as Hrun.
  destruct Hbad as [Hj | data e Hj Hp | data pag e Hj Hp Hl
                   | data pag lp Hj Hp Hl Hns | data pag s Hj Hp Hl Hf
                   | data pag pre number post Hj Hp Hl Hf Hlp Hla Hpost Hint].
  - split; [|unfold ParseError; simpl; tauto].
    rewrite Hrun, Hj. reflexivity.
  - split.
    + rewrite Hrun, Hj. cbn [bind]. now rewrite Hp.
    + unfold ParseError. destruct (getitem_key_raises _ _ _ Hp) as [-> | ->];
        simpl; tauto.
  - split.
    + rewrite Hrun, Hj. cbn [bind]. rewrite Hp. cbn [bind]. now rewrite Hl.
    + unfold ParseError. destruct (getitem_key_raises _ _ _ Hl) as [-> | ->];
        simpl; tauto.
  - split; [|unfold ParseError; simpl; tauto].
    rewrite Hrun, Hj. cbn [bind]. rewrite Hp. cbn [bind]. rewrite Hl. cbn [bind].
    destruct lp; try reflexivity. now destruct (Hns s).
  - split; [|unfold ParseError; simpl; tauto].
    rewrite Hrun, Hj. cbn [bind]. rewrite Hp. cbn [bind]. rewrite Hl.
    cbn [bind split_method str_split].
    now rewrite (split_from_absent "p" "age=" s Hf).
  - split; [|unfold ParseError; simpl; tauto].
    rewrite (get_category_urls_cut _ _ _ _ _ _ _ _ _ _ _
               Pa Ph Da Dh Hget Hj Hp Hl Hf Hlp Hla Hpost).
    now rewrite Hint.
Qed.

End Resolver.

(** What ends the number: [5p] and a number behind a separator character
    (code 28) are refused by [int]; a number closed by a second [page=] is
    read. *)
Example get_category_urls_number_ends :
  get_category_urls (world := listing_world "/api/browse?_tags=a&page=5p")
    (plain_session [] []) "a" "sneakers" = Raise ValueError
  /\ get_category_urls
       (world := listing_world
                   ("/api/browse?_tags=a&page=" ++ String (ascii_of_nat 28) "5")%string)
       (plain_session [] []) "a" "sneakers" = Raise ValueError
  /\ get_category_urls (world := listing_world "a?page=1page=x")
       (plain_session [] []) "a" "sneakers"
     = Ok ["https://stockx.com/api/browse?_tags=a&productCategory=sneakers&page=1"].
Proof. repeat split. Qed.

(** The listing of the script's own query, five pages long. *)
Lemma get_category_urls_pages_witness :
  exists urls,
    get_category_urls
      (world := listing_world
                  "/api/browse?_tags=air+jordan&productCategory=sneakers&page=5")
      (plain_session [] []) "air jordan" "sneakers" = Ok urls
    /\ List.length urls = 5%nat
    /\ urls = map (fun i => page_url "https://stockx.com/api/browse?"
                              "air jordan" "sneakers" (str_of_int (Z.of_nat i)))
                  (seq 1 5).
Proof.
  apply (get_category_urls_pages
           (world := listing_world
                       "/api/browse?_tags=air+jordan&productCategory=sneakers&page=5")
           (plain_session [] []) "air jordan" "sneakers"
           "https://stockx.com/api/browse?" JNull
           {| status_code := 200; text := "listing" |}
           (listing_document
              "/api/browse?_tags=air+jordan&productCategory=sneakers&page=5")
           (JObj [ ("page", JInt 1);
                   ("lastPage",
                    JStr "/api/browse?_tags=air+jordan&productCategory=sneakers&page=5") ])
           "/api/browse?_tags=air+jordan&productCategory=sneakers&" "5" EmptyString);
    try reflexivity.
  - discriminate.
  - now left.
Defined.

(** A listing of a single page gives the one URL of page 1. *)
Example get_category_urls_single_page :
  get_category_urls
    (world := listing_world "/api/browse?_tags=air+jordan&productCategory=sneakers&page=1")
    (plain_session [] []) "air jordan" "sneakers"
  = Ok ["https://stockx.com/api/browse?_tags=air jordan&productCategory=sneakers&page=1"].
Proof. reflexivity. Qed.

(** C3, the claim as written fails: this [lastPage] contains [page=5],
    closed by the end of the string, yet the method cuts at the first
    [page=], the one inside [perpage=40], and returns 40 URLs. *)
Lemma first_page_occurrence_counts :
  let lastPage := "/api/browse?_tags=a&perpage=40&page=5" in
  lastPage = ("/api/browse?_tags=a&perpage=40&" ++ "page=" ++ "5" ++ EmptyString)%string
  /\ exists urls,
       get_category_urls (world := listing_world lastPage)
         (plain_session [] []) "a" "sneakers" = Ok urls
       /\ List.length urls = 40%nat
       /\ List.length urls <> 5%nat.
Proof.
  split; [reflexivity|]. eexists. split; [vm_compute; reflexivity|].
  split; [reflexivity|discriminate].
Qed.

Lemma get_category_urls_bad_listing_witness :
  (get_category_urls (world := broken_world) (plain_session [] []) "a" "sneakers"
   = Raise JSONDecodeError
   /\ ParseError JSONDecodeError)
  /\ (get_category_urls (world := listing_world "/api/browse?_tags=a&page=5p")
        (plain_session [] []) "a" "sneakers"
      = Raise ValueError
      /\ ParseError ValueError).
Proof.
  split.
  - apply (get_category_urls_bad_listing (world := broken_world)
             (plain_session [] []) "a" "sneakers" "https://stockx.com/api/browse?"
             JNull {| status_code := 502; text := "<html>" |} JSONDecodeError);
      try reflexivity.
    apply not_json. reflexivity.
  - apply (get_category_urls_bad_listing
             (world := listing_world "/api/browse?_tags=a&page=5p")
             (plain_session [] []) "a" "sneakers" "https://stockx.com/api/browse?"
             JNull {| status_code := 200; text := "listing" |} ValueError);
      try reflexivity.
    apply (page_not_integer (world := listing_world "/api/browse?_tags=a&page=5p")
             _ (listing_document "/api/browse?_tags=a&page=5p")
             (JObj [ ("page", JInt 1);
                     ("lastPage", JStr "/api/browse?_tags=a&page=5p") ])
             "/api/browse?_tags=a&" "5p" EmptyString);
      try reflexivity.
    now left.
Defined.

(** C4, the claim as written fails: a page count that is no positive
    integer is not refused.  [int] reads [-3], and the method returns an
    empty list instead of failing; it reads [+2] and [ 7] as well, and
    URLs are produced. *)
Lemma malformed_page_count_accepted :
  get_category_urls (world := listing_world "/api/browse?_tags=a&page=-3")
    (plain_session [] []) "a" "sneakers" = Ok []
  /\ (exists urls,
        get_category_urls (world := listing_world "/api/browse?_tags=a&page=+2")
          (plain_session [] []) "a" "sneakers" = Ok urls
        /\ List.length urls = 2%nat)
  /\ (exists urls,
        get_category_urls (world := listing_world "/api/browse?_tags=a&page= 7")
          (plain_session [] []) "a" "sneakers" = Ok urls
        /\ List.length urls = 7%nat).
Proof.
  split; [reflexivity|].
  split; eexists; (split; [vm_compute; reflexivity|reflexivity]).
Qed.

(** ** The accessors of the class *)

(** C9: with the accessor block of the source, constructing a session
    fails at the first assignment of [__init__], every read of the four
    attributes the block names never returns, and [headers] cannot be set
    by either name; with ordinary fields the constructor returns the
    session with its five attributes and they read back as stored. *)
Theorem accessors_are_not_plain_fields :
  construct StockX_class = Raise AttributeError
  /\ construct plain_fields_class = Ok (plain_session [] [])
  /\ (forall d, getattr {| ob_type := StockX_class; ob_dict := d |} "api"
                = Raise RecursionError)
  /\ (forall d, getattr {| ob_type := StockX_class; ob_dict := d |} "sales_api"
                = Raise RecursionError)
  /\ (forall d, getattr {| ob_type := StockX_class; ob_dict := d |} "headers"
                = Raise RecursionError)
  /\ (forall d, getattr {| ob_type := StockX_class; ob_dict := d |} "_scraped_products"
                = Raise RecursionError)
  /\ (forall d v, setattr {| ob_type := StockX_class; ob_dict := d |} "headers" v
                  = Raise AttributeError)
  /\ (forall d v, setattr {| ob_type := StockX_class; ob_dict := d |} "set_headers" v
                  = Raise AttributeError)
  /\ getattr (plain_session [] []) "api" = Ok (JStr "https://stockx.com/api/browse?")
  /\ getattr (plain_session [] []) "headers" = Ok JNull
  /\ (forall (world : Capabilities) sched1 sched2,
        main sched1 sched2 = Raise AttributeError).
Proof.
  repeat split; try reflexivity; intros d;
    try (unfold getattr; cbn [ob_type];
         now rewrite (self_referential_getter recursion_limit StockX_class _
                        _ eq_refl eq_refl)).
Qed.

(** On an instance of the class as written, were there one, the methods
    that read the four attributes never get past the read: the resolver
    and the projection of products raise, and a fetch, whose tasks all
    raise, returns with the session as it was. *)
Lemma methods_blocked_by_accessors (world : Capabilities) (d : dict) :
  let self := {| ob_type := StockX_class; ob_dict := d |} in
  (forall tag category, get_category_urls self tag category = Raise RecursionError)
  /\ (forall url, _scrape self url = Raise RecursionError)
  /\ (forall url, _scrape_sales_history self url = Raise RecursionError)
  /\ product_info_to_dataframe self = Raise RecursionError
  /\ reset_scrape self = Raise AttributeError
  /\ (forall sched url, get_product_info sched self [url] = Ok self).
Proof.
  assert (Hget : forall name p,
            class_lookup name StockX_class = Some p -> fget p = Some name ->
            getattr {| ob_type := StockX_class; ob_dict := d |} name
            = Raise RecursionError).
  { intros name p Hc Hg. unfold getattr. cbn [ob_type].
    now rewrite (self_referential_getter _ _ _ _ Hc Hg). }
  assert (Hscrape : forall url,
            _scrape {| ob_type := StockX_class; ob_dict := d |} url
            = Raise RecursionError).
  { intros url. unfold _scrape. now rewrite (Hget "headers" _ eq_refl eq_refl). }
  cbv zeta. split; [|split; [exact Hscrape|split; [|split; [|split]]]].
  - intros tag category. unfold get_category_urls.
    now rewrite (Hget "api" _ eq_refl eq_refl).
  - intros url. unfold _scrape_sales_history.
    now rewrite (Hget "headers" _ eq_refl eq_refl).
  - unfold product_info_to_dataframe, project.
    now rewrite (Hget "_scraped_products" _ eq_refl eq_refl).
  - reflexivity.
  - intros sched url. unfold get_product_info, executor_map.
    cbn [List.length drain pending]. rewrite Nat.mod_1_r.
    unfold complete. cbn [pending nth_error shared]. now rewrite Hscrape.
Qed.

(** With ordinary fields the script runs through: two listing pages, two
    products, two sales each, four rows, every one with its product. *)
Example pipeline_with_plain_fields :
  exists out,
    pipeline (world := market_world) plain_fields_class last_first in_order = Ok out
    /\ map (fun j => cell "productId" (left_part j)) out
       = [JStr "p2"; JStr "p2"; JStr "p1"; JStr "p1"]
    /\ map (right_cell "id") out = [JStr "p2"; JStr "p2"; JStr "p1"; JStr "p1"]
    /\ map (right_cell "brand") out
       = [JStr "Jordan"; JStr "Jordan"; JStr "Jordan"; JStr "Jordan"].
Proof.
  eexists. split; [vm_compute; reflexivity|]. repeat split.
Qed.

(** ** The worker pool *)

Lemma remove_middle {A : Type} (l1 l2 : list A) (u : A) :
  firstn (List.length l1) (l1 ++ u :: l2) ++ skipn (S (List.length l1)) (l1 ++ u :: l2)
  = l1 ++ l2.
Proof. induction l1; simpl; [reflexivity|now f_equal]. Qed.

Section PoolRuns.

(** A handler that, on a session holding the accumulated list [acc], either
    appends the document of its URL or raises and changes nothing. *)
Variable handler : pyobj -> string -> result pyobj.
Variable doc : string -> result value.
Variable holds : pyobj -> list value -> Prop.

Hypothesis handler_appends : forall self acc u d,
  holds self acc -> doc u = Ok d ->
  exists self', handler self u = Ok self' /\ holds self' (acc ++ [d]).

Hypothesis handler_raises : forall self acc u e,
  holds self acc -> doc u = Raise e -> handler self u = Raise e.

Lemma delivered_app (l1 l2 : list string) :
  delivered doc (l1 ++ l2) = delivered doc l1 ++ delivered doc l2.
Proof. apply flat_map_app. Qed.

(** Whatever the oracle, once as many tasks have finished as were pending,
    none is left, the accumulator has grown by the delivered documents in
    some order, and every task has left its outcome in a future. *)
Lemma drain_all (n : nat) :
  forall sched pend futs self acc,
    List.length pend = n -> holds self acc ->
    let st' := drain handler sched n
                 {| pending := pend; futures := futs; shared := self |} in
    pending st' = []
    /\ exists ds, holds (shared st') (acc ++ ds)
                  /\ Permutation ds (delivered doc pend)
                  /\ Permutation (futures st')
                       (map (fun u => (u, failure (doc u))) pend ++ futs).
Proof.
  induction n as [|n IH]; intros sched pend futs self acc Hlen Hacc.
  - destruct pend; [|discriminate]. simpl. split; [reflexivity|].
    exists []. rewrite app_nil_r. repeat split; auto.
  - cbn [drain pending].
    set (i := (sched 0%nat mod List.length pend)%nat).
    assert (Hi : (i < List.length pend)%nat)
      by (apply Nat.mod_upper_bound; lia).
    destruct (nth_error pend i) as [u|] eqn:Hu;
      [|apply nth_error_None in Hu; lia].
    destruct (nth_error_split _ _ Hu) as (l1 & l2 & -> & Hl1).
    assert (Hrest : firstn i (l1 ++ u :: l2) ++ skipn (S i) (l1 ++ u :: l2) = l1 ++ l2)
      by (rewrite <- Hl1; apply remove_middle).
    assert (Hlen' : List.length (l1 ++ l2) = n).
    { rewrite length_app in *. simpl in Hlen. lia. }
    unfold complete. cbn [pending shared futures]. rewrite Hu, Hrest.
    destruct (doc u) as [d|e] eqn:Hdoc.
    + destruct (handler_appends _ _ _ _ Hacc Hdoc) as (self' & -> & Hacc').
      destruct (IH (fun k => sched (S k)) (l1 ++ l2) ((u, None) :: futs)
                   self' (acc ++ [d]) Hlen' Hacc') as (Hp & ds & Hds & Hperm & Hfut).
      split; [exact Hp|]. exists (d :: ds). split; [|split].
      * now rewrite <- app_assoc in Hds.
      * rewrite !delivered_app in *. cbn [delivered flat_map]. rewrite Hdoc.
        cbn [app]. apply Permutation_cons_app. exact Hperm.
      * rewrite Hfut. rewrite !map_app. cbn [map]. rewrite Hdoc. cbn [failure].
        rewrite <- !app_assoc. cbn [app]. apply Permutation_app_head.
        symmetry. apply Permutation_middle.
    + rewrite (handler_raises _ _ _ _ Hacc Hdoc).
      destruct (IH (fun k => sched (S k)) (l1 ++ l2) ((u, Some e) :: futs)
                   self acc Hlen' Hacc) as (Hp & ds & Hds & Hperm & Hfut).
      split; [exact Hp|]. exists ds. split; [|split].
      * exact Hds.
      * rewrite !delivered_app in *. cbn [delivered flat_map]. rewrite Hdoc.
        exact Hperm.
      * rewrite Hfut. rewrite !map_app. cbn [map]. rewrite Hdoc. cbn [failure].
        rewrite <- !app_assoc. cbn [app]. apply Permutation_app_head.
        symmetry. apply Permutation_middle.
Qed.

End PoolRuns.

(** ** The fetches *)

Section Fetches.

Context {world : Capabilities}.

Lemma session_holds_getattr (name : string) (headers : value) (self : pyobj)
    (acc : list value) :
  session_holds name headers self acc ->
  getattr self "headers" = Ok headers /\ getattr self name = Ok (JArr acc).
Proof.
  intros (Ph & Pn & Dh & Dn). split; now apply getattr_plain.
Qed.

Lemma session_holds_append (name : string) (headers : value) (self : pyobj)
    (acc : list value) (d : value) :
  name <> "headers" ->
  session_holds name headers self acc ->
  list_append self name d = Ok (store self name (JArr (acc ++ [d])))
  /\ session_holds name headers (store self name (JArr (acc ++ [d]))) (acc ++ [d]).
Proof.
  intros Hne (Ph & Pn & Dh & Dn). split.
  - now apply list_append_plain.
  - repeat split; try assumption; cbn [store ob_dict].
    + rewrite dict_get_set_other; [assumption|congruence].
    + apply dict_get_set_same.
Qed.

Lemma _scrape_appends (headers : value) (self : pyobj) (acc : list value)
    (u : string) (d : value) :
  session_holds "_scraped_products" headers self acc ->
  fetched headers u = Ok d ->
  exists self', _scrape self u = Ok self'
                /\ session_holds "_scraped_products" headers self' (acc ++ [d]).
Proof.
  intros Hs Hd. destruct (session_holds_getattr _ _ _ _ Hs) as [Hh _].
  assert (Hne : "_scraped_products" <> "headers") by discriminate.
  destruct (session_holds_append _ _ _ _ d Hne Hs) as [Ha Hs'].
  eexists. split; [|exact Hs'].
  unfold _scrape. rewrite Hh. cbn [bind]. unfold fetched in Hd.
  destruct (requests_get u headers) as [r|e]; [|discriminate]. cbn [bind] in *.
  rewrite Hd. cbn [bind]. exact Ha.
Qed.

Lemma _scrape_raises (headers : value) (self : pyobj) (acc : list value)
    (u : string) (e : exn) :
  session_holds "_scraped_products" headers self acc ->
  fetched headers u = Raise e ->
  _scrape self u = Raise e.
Proof.
  intros Hs Hd. destruct (session_holds_getattr _ _ _ _ Hs) as [Hh _].
  unfold _scrape. rewrite Hh. cbn [bind]. unfold fetched in Hd.
  destruct (requests_get u headers) as [r|e']; cbn [bind] in *; [|congruence].
  now rewrite Hd.
Qed.

Lemma _scrape_sales_history_appends (headers : value) (self : pyobj)
    (acc : list value) (u : string) (d : value) :
  session_holds "_scraped_sales_history" headers self acc ->
  fetched_sales headers u = Ok d ->
  exists self', _scrape_sales_history self u = Ok self'
                /\ session_holds "_scraped_sales_history" headers self' (acc ++ [d]).
Proof.
  intros Hs Hd. destruct (session_holds_getattr _ _ _ _ Hs) as [Hh _].
  assert (Hne : "_scraped_sales_history" <> "headers") by discriminate.
  destruct (session_holds_append _ _ _ _ d Hne Hs) as [Ha Hs'].
  eexists. split; [|exact Hs'].
  unfold _scrape_sales_history. rewrite Hh. cbn [bind].
  unfold fetched_sales, fetched in Hd.
  destruct (requests_get u headers) as [r|e]; [|discriminate]. cbn [bind] in *.
  destruct (json_loads (text r)) as [data|e]; [|discriminate]. cbn [bind] in *.
  rewrite Hd. cbn [bind]. exact Ha.
Qed.

Lemma _scrape_sales_history_raises (headers : value) (self : pyobj)
    (acc : list value) (u : string) (e : exn) :
  session_holds "_scraped_sales_history" headers self acc ->
  fetched_sales headers u = Raise e ->
  _scrape_sales_history self u = Raise e.
Proof.
  intros Hs Hd. destruct (session_holds_getattr _ _ _ _ Hs) as [Hh _].
  unfold _scrape_sales_history. rewrite Hh. cbn [bind].
  unfold fetched_sales, fetched in Hd.
  destruct (requests_get u headers) as [r|e']; cbn [bind] in *; [|congruence].
  destruct (json_loads (text r)) as [data|e']; cbn [bind] in *; [|congruence].
  now rewrite Hd.
Qed.

(** A run of [get_product_info], for any oracle. *)
Lemma get_product_info_run (sched : nat -> nat) (self : pyobj) (headers : value)
    (acc : list value) (urls : list string) :
  session_holds "_scraped_products" headers self acc ->
  exists self' docs,
    get_product_info sched self urls = Ok self'
    /\ session_holds "_scraped_products" headers self' (acc ++ docs)
    /\ Permutation docs (delivered (fetched headers) urls)
    /\ Permutation (futures (executor_map _scrape sched self urls))
         (map (fun u => (u, failure (fetched headers u))) urls).
Proof.
  intros Hs.
  destruct (drain_all _scrape (fetched headers)
              (session_holds "_scraped_products" headers)
              (_scrape_appends headers) (_scrape_raises headers)
              (List.length urls) sched urls [] self acc eq_refl Hs)
    as (_ & ds & Hds & Hperm & Hfut).
  exists (shared (executor_map _scrape sched self urls)), ds.
  rewrite app_nil_r in Hfut.
  split; [reflexivity|]. split; [exact Hds|]. split; [exact Hperm|exact Hfut].
Qed.

(** A run of [get_product_sales_history], for any oracle. *)
Lemma get_product_sales_history_run (sched : nat -> nat) (self : pyobj)
    (headers : value) (acc : list value) (products : list string) :
  session_holds "_scraped_sales_history" headers self acc ->
  exists self' docs,
    get_product_sales_history sched self products = Ok self'
    /\ session_holds "_scraped_sales_history" headers self' (acc ++ docs)
    /\ Permutation docs (delivered (fetched_sales headers) (map sales_url products))
    /\ Permutation
         (futures (executor_map _scrape_sales_history sched self
                     (map sales_url products)))
         (map (fun u => (u, failure (fetched_sales headers u)))
              (map sales_url products)).
Proof.
  intros Hs.
  destruct (drain_all _scrape_sales_history (fetched_sales headers)
              (session_holds "_scraped_sales_history" headers)
              (_scrape_sales_history_appends headers)
              (_scrape_sales_history_raises headers)
              (List.length (map sales_url products)) sched
              (map sales_url products) [] self acc eq_refl Hs)
    as (_ & ds & Hds & Hperm & Hfut).
  exists (shared (executor_map _scrape_sales_history sched self
                    (map sales_url products))), ds.
  rewrite app_nil_r in Hfut.
  split; [reflexivity|]. split; [exact Hds|]. split; [exact Hperm|exact Hfut].
Qed.

Lemma delivered_all (doc : string -> result value) (urls : list string) :
  (forall u, In u urls -> exists d, doc u = Ok d) ->
  map Ok (delivered doc urls) = map doc urls.
Proof.
  induction urls as [|u urls IH]; intros H; [reflexivity|].
  cbn [delivered flat_map map].
  destruct (H u (or_introl eq_refl)) as [d Hd]. rewrite Hd. cbn [app map].
  f_equal. apply IH. intros v Hv. apply H. now right.
Qed.

(** C1: when every request of a fetch succeeds, the accumulator of the
    handler gains exactly one document per URL, N for N URLs, and they are
    the documents of those URLs, in whatever order the tasks finish.  This
    holds for [get_product_info] and for [get_product_sales_history], on a
    session whose headers and accumulators are readable as fields. *)
Theorem fetch_all_appends_one_document_per_url (sched : nat -> nat)
    (self : pyobj) (headers : value) (products sales : list value)
    (urls ids : list string) :
  session_holds "_scraped_products" headers self products ->
  session_holds "_scraped_sales_history" headers self sales ->
  (forall u, In u urls -> exists d, fetched headers u = Ok d) ->
  (forall u, In u (map sales_url ids) -> exists d, fetched_sales headers u = Ok d) ->
  (exists self' docs,
     get_product_info sched self urls = Ok self'
     /\ getattr self' "_scraped_products" = Ok (JArr (products ++ docs))
     /\ List.length docs = List.length urls
     /\ Permutation (map Ok docs) (map (fetched headers) urls))
  /\ (exists self' docs,
        get_product_sales_history sched self ids = Ok self'
        /\ getattr self' "_scraped_sales_history" = Ok (JArr (sales ++ docs))
        /\ List.length docs = List.length ids
        /\ Permutation (map Ok docs)
             (map (fetched_sales headers) (map sales_url ids))).
Proof.
  intros Hp Hs Hurls Hids. split.
  - destruct (get_product_info_run sched self headers products urls Hp)
      as (self' & docs & Hrun & Hs' & Hperm & _).
    exists self', docs. split; [exact Hrun|].
    split; [apply (session_holds_getattr _ _ _ _ Hs')|].
    pose proof (Permutation_map Ok Hperm) as Hm.
    rewrite (delivered_all _ _ Hurls) in Hm. split; [|exact Hm].
    apply Permutation_length in Hm. now rewrite !length_map in Hm.
  - destruct (get_product_sales_history_run sched self headers sales ids Hs)
      as (self' & docs & Hrun & Hs' & Hperm & _).
    exists self', docs. split; [exact Hrun|].
    split; [apply (session_holds_getattr _ _ _ _ Hs')|].
    pose proof (Permutation_map Ok Hperm) as Hm.
    rewrite (delivered_all _ _ Hids) in Hm. split; [|exact Hm].
    apply Permutation_length in Hm. now rewrite !length_map in Hm.
Qed.

(** C2 (as amended): a request that fails does not end the fetch.  Its
    exception stays in the future of its task, which nothing reads; the
    fetch returns normally, nothing is tried again, and the accumulator
    gains the documents of exactly the requests that succeeded, the ones
    scheduled after a failure included.  A response is judged by its body
    alone, so a non-2xx status is no failure. *)
Theorem fetch_all_drops_failed_requests (sched : nat -> nat)
    (self : pyobj) (headers : value) (products sales : list value)
    (urls ids : list string) :
  session_holds "_scraped_products" headers self products ->
  session_holds "_scraped_sales_history" headers self sales ->
  (exists self' docs,
     get_product_info sched self urls = Ok self'
     /\ getattr self' "_scraped_products" = Ok (JArr (products ++ docs))
     /\ Permutation docs (delivered (fetched headers) urls)
     /\ Permutation (futures (executor_map _scrape sched self urls))
          (map (fun u => (u, failure (fetched headers u))) urls))
  /\ (exists self' docs,
        get_product_sales_history sched self ids = Ok self'
        /\ getattr self' "_scraped_sales_history" = Ok (JArr (sales ++ docs))
        /\ Permutation docs
             (delivered (fetched_sales headers) (map sales_url ids))
        /\ Permutation
             (futures (executor_map _scrape_sales_history sched self
                         (map sales_url ids)))
             (map (fun u => (u, failure (fetched_sales headers u)))
                  (map sales_url ids))).
Proof.
  intros Hp Hs. split.
  - destruct (get_product_info_run sched self headers products urls Hp)
      as (self' & docs & Hrun & Hs' & Hperm & Hfut).
    exists self', docs. split; [exact Hrun|].
    split; [apply (session_holds_getattr _ _ _ _ Hs')|].
    split; [exact Hperm|exact Hfut].
  - destruct (get_product_sales_history_run sched self headers sales ids Hs)
      as (self' & docs & Hrun & Hs' & Hperm & Hfut).
    exists self', docs. split; [exact Hrun|].
    split; [apply (session_holds_getattr _ _ _ _ Hs')|].
    split; [exact Hperm|exact Hfut].
Qed.

End Fetches.

Lemma plain_session_holds_products (products sales : list value) :
  session_holds "_scraped_products" JNull (plain_session products sales) products.
Proof. repeat split. Defined.

Lemma plain_session_holds_sales (products sales : list value) :
  session_holds "_scraped_sales_history" JNull (plain_session products sales) sales.
Proof. repeat split. Defined.

(** Two listing pages and two products, the later task finishing first. *)
Lemma fetch_all_appends_one_document_per_url_witness :
  (exists self' docs,
     get_product_info (world := shop_world) last_first (plain_session [] [])
       ["https://stockx.com/api/browse?page=1"; "https://stockx.com/api/browse?page=2"]
     = Ok self'
     /\ getattr self' "_scraped_products" = Ok (JArr ([] ++ docs))
     /\ List.length docs = 2%nat
     /\ Permutation (map Ok docs)
          (map (fetched (world := shop_world) JNull)
               ["https://stockx.com/api/browse?page=1";
                "https://stockx.com/api/browse?page=2"]))
  /\ (exists self' docs,
        get_product_sales_history (world := shop_world) last_first
          (plain_session [] []) ["p1"; "p2"] = Ok self'
        /\ getattr self' "_scraped_sales_history" = Ok (JArr ([] ++ docs))
        /\ List.length docs = 2%nat
        /\ Permutation (map Ok docs)
             (map (fetched_sales (world := shop_world) JNull)
                  (map sales_url ["p1"; "p2"]))).
Proof.
  apply (fetch_all_appends_one_document_per_url (world := shop_world) last_first
           (plain_session [] []) JNull [] []
           ["https://stockx.com/api/browse?page=1"; "https://stockx.com/api/browse?page=2"]
           ["p1"; "p2"]
           (plain_session_holds_products [] []) (plain_session_holds_sales [] [])).
  - intros u [<-|[<-|[]]]; eexists; vm_compute; reflexivity.
  - intros u [<-|[<-|[]]]; eexists; vm_compute; reflexivity.
Defined.

(** A fetch with a body that is not JSON and a host that is down among its
    URLs. *)
Lemma fetch_all_drops_failed_requests_witness :
  (exists self' docs,
     get_product_info (world := shop_world) in_order (plain_session [] [])
       ["https://stockx.com/garbage"; "https://down/"; "https://stockx.com/p1"]
     = Ok self'
     /\ getattr self' "_scraped_products" = Ok (JArr ([] ++ docs))
     /\ Permutation docs
          (delivered (fetched (world := shop_world) JNull)
             ["https://stockx.com/garbage"; "https://down/"; "https://stockx.com/p1"])
     /\ Permutation
          (futures (executor_map (_scrape (world := shop_world)) in_order
                      (plain_session [] [])
                      ["https://stockx.com/garbage"; "https://down/";
                       "https://stockx.com/p1"]))
          (map (fun u => (u, failure (fetched (world := shop_world) JNull u)))
               ["https://stockx.com/garbage"; "https://down/"; "https://stockx.com/p1"]))
  /\ (exists self' docs,
        get_product_sales_history (world := shop_world) in_order
          (plain_session [] []) ["p1"] = Ok self'
        /\ getattr self' "_scraped_sales_history" = Ok (JArr ([] ++ docs))
        /\ Permutation docs
             (delivered (fetched_sales (world := shop_world) JNull)
                (map sales_url ["p1"]))
        /\ Permutation
             (futures (executor_map (_scrape_sales_history (world := shop_world))
                         in_order (plain_session [] []) (map sales_url ["p1"])))
             (map (fun u => (u, failure (fetched_sales (world := shop_world) JNull u)))
                  (map sales_url ["p1"]))).
Proof.
  exact (fetch_all_drops_failed_requests (world := shop_world) in_order
           (plain_session [] []) JNull [] []
           ["https://stockx.com/garbage"; "https://down/"; "https://stockx.com/p1"]
           ["p1"]
           (plain_session_holds_products [] []) (plain_session_holds_sales [] [])).
Defined.

(** C2, the claim as written fails: the first request gets a body that is
    not JSON and the second cannot connect, yet the fetch returns normally
    and the two requests after them are made and stored, the one answered
    with status 404 included; the two exceptions stay in the futures. *)
Lemma failed_request_does_not_end_the_fetch :
  let urls := ["https://stockx.com/garbage"; "https://down/";
               "https://stockx.com/missing/p3"; "https://stockx.com/p1"] in
  get_product_info (world := shop_world) in_order (plain_session [] []) urls
  = Ok (plain_session [ shop_document "https://stockx.com/missing/p3";
                        shop_document "https://stockx.com/p1" ] [])
  /\ futures (executor_map (_scrape (world := shop_world)) in_order
                (plain_session [] []) urls)
     = [ ("https://stockx.com/p1", None);
         ("https://stockx.com/missing/p3", None);
         ("https://down/", Some ConnectionError);
         ("https://stockx.com/garbage", Some JSONDecodeError) ].
Proof. split; vm_compute; reflexivity. Qed.

(** ** Forward fill *)

Lemma ffill_from_length (last : option value) (col : list value) :
  List.length (ffill_from last col) = List.length col.
Proof.
  revert last. induction col as [|v col IH]; intros last; simpl; [reflexivity|].
  destruct (isna v); [destruct last|]; simpl; now rewrite IH.
Qed.

(** A cell that is not missing keeps its value. *)
Lemma ffill_from_keeps (last : option value) (col : list value) (i : nat) (v : value) :
  nth_error col i = Some v -> isna v = false ->
  nth_error (ffill_from last col) i = Some v.
Proof.
  revert last i. induction col as [|x col IH]; intros last [|i] H Hv; simpl in *;
    try discriminate.
  - injection H as ->. now rewrite Hv.
  - destruct (isna x); [destruct last|]; simpl; now apply IH.
Qed.

(** Through a run of missing cells the value carried along is handed on. *)
Lemma ffill_from_run (w : value) (col : list value) (i : nat) :
  (forall k, (k <= i)%nat -> exists x, nth_error col k = Some x /\ isna x = true) ->
  nth_error (ffill_from (Some w) col) i = Some w.
Proof.
  revert i. induction col as [|x col IH]; intros i H.
  - destruct (H 0%nat (Nat.le_0_l _)) as (y & Hy & _). discriminate.
  - destruct (H 0%nat (Nat.le_0_l _)) as (y & Hy & Hna). injection Hy as ->.
    simpl. rewrite Hna. destruct i as [|i]; [reflexivity|]. simpl.
    apply IH. intros k Hk. apply (H (S k)). lia.
Qed.

(** A missing cell takes the value of the nearest row above that has one. *)
Lemma ffill_from_nearest (last : option value) (col : list value) (j i : nat)
    (v : value) :
  (j < i)%nat -> nth_error col j = Some v -> isna v = false ->
  (forall k, (j < k <= i)%nat -> exists x, nth_error col k = Some x /\ isna x = true) ->
  nth_error (ffill_from last col) i = Some v.
Proof.
  revert last j i. induction col as [|x col IH]; intros last j i Hji Hj Hv Hrun.
  - destruct j; discriminate.
  - destruct i as [|i]; [lia|]. destruct j as [|j].
    + simpl in Hj. injection Hj as ->. simpl. rewrite Hv. simpl.
      apply ffill_from_run. intros k Hk. apply (Hrun (S k)). lia.
    + simpl in Hj.
      assert (Hgo : forall last', nth_error (ffill_from last' col) i = Some v).
      { intros last'. apply (IH last' j i); [lia|assumption|assumption|].
        intros k Hk. apply (Hrun (S k)). lia. }
      simpl. destruct (isna x); [destruct last|]; simpl; apply Hgo.
Qed.

(** With no value above, a missing cell stays as it is. *)
Lemma ffill_from_leading (col : list value) (i : nat) (v : value) :
  nth_error col i = Some v ->
  (forall k, (k <= i)%nat -> exists x, nth_error col k = Some x /\ isna x = true) ->
  nth_error (ffill_from None col) i = Some v.
Proof.
  revert i. induction col as [|x col IH]; intros i Hi H.
  - destruct i; discriminate.
  - destruct (H 0%nat (Nat.le_0_l _)) as (y & Hy & Hna). injection Hy as ->.
    simpl. rewrite Hna. destruct i as [|i]; [exact Hi|]. simpl.
    apply IH; [exact Hi|]. intros k Hk. apply (H (S k)). lia.
Qed.

Lemma cell_set_same (c : string) (v : value) (r : row) :
  cell c (dict_set c v r) = v.
Proof. unfold cell. now rewrite dict_get_set_same. Qed.

Lemma cell_set_other (c c' : string) (v : value) (r : row) :
  c <> c' -> cell c (dict_set c' v r) = cell c r.
Proof. intros H. unfold cell. now rewrite dict_get_set_other. Qed.

Lemma set_cells_length (c : string) (rs : list row) (vs : list value) :
  List.length (set_cells c rs vs) = List.length rs.
Proof.
  revert vs. induction rs as [|r rs IH]; intros [|v vs]; simpl; auto.
Qed.

Lemma set_cells_column (c : string) (rs : list row) (vs : list value) :
  List.length vs = List.length rs ->
  map (cell c) (set_cells c rs vs) = vs.
Proof.
  revert vs. induction rs as [|r rs IH]; intros [|v vs] H; simpl in *;
    try discriminate; [reflexivity|].
  rewrite cell_set_same. f_equal. apply IH. lia.
Qed.

Lemma set_cells_other (c c' : string) (rs : list row) (vs : list value) :
  c' <> c -> map (cell c') (set_cells c rs vs) = map (cell c') rs.
Proof.
  intros Hne. revert vs. induction rs as [|r rs IH]; intros [|v vs]; simpl;
    try reflexivity.
  rewrite cell_set_other by assumption. f_equal. apply IH.
Qed.

(** C6: the forward-fill step of [main] leaves every row in place and
    every other column as it was; in the identifier column a cell that has
    a value keeps it, a missing cell takes the value of the nearest row
    above that has one, and a missing cell with no value above stays
    missing; identifiers A, null, B, null become A, A, B, B. *)
Theorem main_ffill_fills_forward (df : DataFrame) :
  has_column "productId" (columns df) = true ->
  exists df',
    main_ffill df = Ok df'
    /\ List.length (rows df') = List.length (rows df)
    /\ (forall c, c <> "productId" ->
          map (cell c) (rows df') = map (cell c) (rows df))
    /\ (forall i v,
          nth_error (map (cell "productId") (rows df)) i = Some v ->
          isna v = false ->
          nth_error (map (cell "productId") (rows df')) i = Some v)
    /\ (forall j i v,
          (j < i)%nat ->
          nth_error (map (cell "productId") (rows df)) j = Some v ->
          isna v = false ->
          (forall k, (j < k <= i)%nat ->
             exists x, nth_error (map (cell "productId") (rows df)) k = Some x
                       /\ isna x = true) ->
          nth_error (map (cell "productId") (rows df')) i = Some v)
    /\ (forall i v,
          nth_error (map (cell "productId") (rows df)) i = Some v ->
          (forall k, (k <= i)%nat ->
             exists x, nth_error (map (cell "productId") (rows df)) k = Some x
                       /\ isna x = true) ->
          nth_error (map (cell "productId") (rows df')) i = Some v)
    /\ fillna_ffill [JStr "A"; JNull; JStr "B"; JNull]
       = [JStr "A"; JStr "A"; JStr "B"; JStr "B"].
Proof.
  intros Hcol. unfold main_ffill, column. rewrite Hcol. cbn [bind].
  eexists. split; [reflexivity|]. cbn [rows set_column].
  assert (Hids : map (cell "productId")
                   (set_cells "productId" (rows df)
                      (fillna_ffill (map (cell "productId") (rows df))))
                 = fillna_ffill (map (cell "productId") (rows df))).
  { apply set_cells_column. unfold fillna_ffill.
    now rewrite ffill_from_length, length_map. }
  split; [apply set_cells_length|].
  split; [intros c Hc; now apply set_cells_other|].
  rewrite Hids. unfold fillna_ffill.
  split; [intros i v; apply ffill_from_keeps|].
  split; [intros j i v; apply ffill_from_nearest|].
  split; [intros i v; apply ffill_from_leading|reflexivity].
Qed.

(** The table of the specification's example, identifiers A, null, B, null. *)
Lemma main_ffill_fills_forward_witness :
  exists df',
    main_ffill {| columns := ["productId"; "v"];
                  rows := [ [("productId", JStr "A"); ("v", JInt 1)];
                            [("productId", JNull); ("v", JInt 2)];
                            [("productId", JStr "B"); ("v", JInt 3)];
                            [("v", JInt 4)] ] |} = Ok df'
    /\ map (cell "productId") (rows df')
       = [JStr "A"; JStr "A"; JStr "B"; JStr "B"]
    /\ map (cell "v") (rows df') = [JInt 1; JInt 2; JInt 3; JInt 4].
Proof.
  destruct (main_ffill_fills_forward
              {| columns := ["productId"; "v"];
                 rows := [ [("productId", JStr "A"); ("v", JInt 1)];
                           [("productId", JNull); ("v", JInt 2)];
                           [("productId", JStr "B"); ("v", JInt 3)];
                           [("v", JInt 4)] ] |} eq_refl)
    as (df' & Hrun & _).
  exists df'. split; [exact Hrun|].
  vm_compute in Hrun. injection Hrun as <-. split; reflexivity.
Defined.

(** ** Left join *)








(** ** Projection to tables *)

Lemma has_column_In (c : string) (cols : list string) :
  has_column c cols = true <-> In c cols.
Proof.
  unfold has_column. rewrite existsb_exists. split.
  - intros (x & Hx & E). apply String.eqb_eq in E. now subst.
  - intros H. exists c. split; [exact H|apply String.eqb_refl].
Qed.

Lemma add_columns_In (cols new : list string) (c : string) :
  In c (add_columns cols new) <-> In c cols \/ In c new.
Proof.
  unfold add_columns. revert cols.
  induction new as [|x new IH]; intros cols; simpl; [tauto|].
  rewrite IH. destruct (has_column x cols) eqn:E.
  - apply has_column_In in E. split; [tauto|].
    intros [H|[<-|H]]; tauto.
  - rewrite in_app_iff. simpl. tauto.
Qed.

Lemma fold_add_columns_In {A : Type} (f : A -> list string) (xs : list A)
    (init : list string) (c : string) :
  In c (fold_left (fun acc x => add_columns acc (f x)) xs init) <->
  In c init \/ exists x, In x xs /\ In c (f x).
Proof.
  revert init. induction xs as [|x xs IH]; intros init; simpl.
  - split; [tauto|]. intros [H|(x & [] & _)]. exact H.
  - rewrite IH, add_columns_In. split.
    + intros [[H|H]|(y & Hy & Hc)]; eauto 6.
    + intros [H|(y & [<-|Hy] & Hc)]; eauto 6.
Qed.

Lemma json_normalize_records (entries : list value) :
  forallb is_record entries = true ->
  json_normalize (JArr entries) = Ok (frame_of_rows (map flatten_record entries)).
Proof.
  intros H. unfold json_normalize. rewrite H. now destruct entries.
Qed.

Lemma comprehension_Forall2 {A B : Type} (f : A -> result B) (xs : list A)
    (ys : list B) :
  Forall2 (fun x y => f x = Ok y) xs ys -> comprehension f xs = Ok ys.
Proof.
  induction 1 as [|x y xs ys Hxy _ IH]; simpl; [reflexivity|].
  now rewrite Hxy, IH.
Qed.

Lemma concat_frames (dfs : list DataFrame) :
  dfs <> [] ->
  concat dfs
  = Ok {| columns := fold_left (fun acc df => add_columns acc (columns df)) dfs [];
          rows := flat_map rows dfs |}.
Proof. destruct dfs; [congruence|reflexivity]. Qed.

(** The table of a non-empty accumulator whose documents all hold a list of
    records under [key]. *)
Lemma project_table (self : pyobj) (name key : string) (docs : list value)
    (entries : list (list value)) :
  plain_field self name ->
  dict_get name (ob_dict self) = Some (JArr docs) ->
  docs <> [] ->
  Forall2 (fun doc es => getitem_key doc key = Ok (JArr es)
                         /\ forallb is_record es = true) docs entries ->
  exists df,
    project self name key = Ok df
    /\ rows df = map flatten_record (List.concat entries)
    /\ List.length (rows df) = list_sum (map (@List.length value) entries)
    /\ (forall c, In c (columns df) <->
                  exists e, In e (List.concat entries)
                            /\ In c (map fst (flatten_record e))).
Proof.
  intros Hp Hd Hne Hall. unfold project.
  rewrite (getattr_plain _ _ _ Hp Hd). cbn [bind iterate].
  set (frames := map (fun es => frame_of_rows (map flatten_record es)) entries).
  assert (Hc : comprehension (fun data => es <- getitem_key data key ;; json_normalize es)
                 docs = Ok frames).
  { apply comprehension_Forall2. subst frames. clear - Hall.
    induction Hall as [|doc es docs' entries' [Hk Hr] _ IH]; simpl; constructor.
    - rewrite Hk. cbn [bind]. now apply json_normalize_records.
    - exact IH. }
  rewrite Hc. cbn [bind].
  assert (Hf : frames <> []).
  { subst frames. destruct Hall; [congruence|discriminate]. }
  rewrite (concat_frames _ Hf).
  eexists. split; [reflexivity|]. cbn [rows columns].
  assert (Hrows : flat_map rows frames = map flatten_record (List.concat entries)).
  { subst frames. clear. induction entries as [|es entries IH]; simpl.
    - reflexivity.
    - rewrite map_app. f_equal. exact IH. }
  split; [exact Hrows|]. split.
  - rewrite Hrows, length_map. clear. induction entries as [|es entries IH]; simpl.
    + reflexivity.
    + now rewrite length_app, IH.
  - intros c. rewrite fold_add_columns_In. subst frames. split.
    + intros [[]|(df & Hdf & Hc')].
      apply in_map_iff in Hdf as (es & <- & Hes). cbn [columns frame_of_rows] in Hc'.
      apply fold_add_columns_In in Hc' as [[]|(r & Hr & Hc')].
      apply in_map_iff in Hr as (e & <- & He).
      exists e. split; [|exact Hc']. apply in_concat. eauto.
    + intros (e & He & Hc'). right. apply in_concat in He as (es & Hes & He).
      exists (frame_of_rows (map flatten_record es)). split.
      * apply in_map_iff. eauto.
      * cbn [columns frame_of_rows]. apply fold_add_columns_In. right.
        exists (flatten_record e). split; [|exact Hc']. apply in_map_iff. eauto.
Qed.

(** ** The sales handler *)

Section Sales.

Context {world : Capabilities}.

(** When line 78 succeeds, the document is an object whose
    [ProductActivity] is a list starting with an object; that first object
    gets the sixth segment of the URL as [productId], and nothing else in
    the document changes. *)
Lemma inject_productId_ok (data data' : value) (url : string) :
  inject_productId data url = Ok data' ->
  exists d first others product,
    data = JObj d
    /\ dict_get "ProductActivity" d = Some (JArr (JObj first :: others))
    /\ list_index (split_from "/" 0 url) 5 = Ok product
    /\ data' = JObj (dict_set "ProductActivity"
                       (JArr (JObj (dict_set "productId" (JStr product) first) :: others))
                       d).
Proof.
  unfold inject_productId. cbn [str_split bind].
  destruct (list_index (split_from "/" 0 url) 5) as [product|e] eqn:Hseg;
    [|discriminate]. cbn [bind].
  destruct data as [| | | | | | |d]; try discriminate. cbn [getitem_key].
  destruct (dict_get "ProductActivity" d) as [activity|] eqn:Hact; [|discriminate].
  cbn [bind].
  destruct activity as [| | | | |s|items|fields]; try discriminate.
  - cbn [getitem_int]. destruct (String.get 0 s); discriminate.
  - destruct items as [|first others]; [discriminate|].
    cbn [getitem_int list_index nth_error bind].
    destruct first as [| | | | | | |first]; try discriminate.
    cbn [setitem_key bind put_first_activity]. rewrite Hact.
    intros [= <-]. now exists d, first, others, product.
Qed.

(** An empty [ProductActivity] makes line 78 raise [IndexError], whatever
    the URL. *)
Lemma inject_productId_empty (data : value) (url : string) :
  getitem_key data "ProductActivity" = Ok (JArr []) ->
  inject_productId data url = Raise IndexError.
Proof.
  intros H. unfold inject_productId. cbn [str_split bind].
  unfold list_index at 1.
  destruct (nth_error (split_from "/" 0 url) 5); [|reflexivity].
  cbn [bind]. now rewrite H.
Qed.

(** C10: when the response decodes to a document whose [ProductActivity]
    is an empty list, [_scrape_sales_history] raises [IndexError] and the
    task leaves the session as it was, nothing appended; and whenever the
    method does store a record, the list was not empty, its first entry
    alone got the identifier and the other entries are stored unchanged. *)
Theorem empty_activity_is_never_stored (self : pyobj) (headers : value)
    (acc : list value) (url : string) (r : Response) (data : value) :
  session_holds "_scraped_sales_history" headers self acc ->
  requests_get url headers = Ok r ->
  json_loads (text r) = Ok data ->
  (getitem_key data "ProductActivity" = Ok (JArr []) ->
     _scrape_sales_history self url = Raise IndexError
     /\ forall waiting futs,
          shared (complete _scrape_sales_history 0
                    {| pending := url :: waiting; futures := futs; shared := self |})
          = self)
  /\ (forall self',
        _scrape_sales_history self url = Ok self' ->
        exists d first others product,
          data = JObj d
          /\ dict_get "ProductActivity" d = Some (JArr (JObj first :: others))
          /\ list_index (split_from "/" 0 url) 5 = Ok product
          /\ getattr self' "_scraped_sales_history"
             = Ok (JArr (acc ++ [ JObj (dict_set "ProductActivity"
                                         (JArr (JObj (dict_set "productId" (JStr product) first)
                                                  :: others))
                                         d) ]))).
Proof.
  intros Hs Hget Hjson.
  destruct (session_holds_getattr _ _ _ _ Hs) as [Hh _].
  assert (Hrun : _scrape_sales_history self url
                 = (data <- inject_productId data url ;;
                    list_append self "_scraped_sales_history" data)).
  { unfold _scrape_sales_history. rewrite Hh. cbn [bind]. rewrite Hget. cbn [bind].
    now rewrite Hjson. }
  split.
  - intros Hempty.
    assert (Hraise : _scrape_sales_history self url = Raise IndexError)
      by (now rewrite Hrun, (inject_productId_empty _ _ Hempty)).
    split; [exact Hraise|]. intros waiting futs.
    unfold complete. cbn [pending nth_error shared]. now rewrite Hraise.
  - intros self' Hok. rewrite Hrun in Hok.
    destruct (inject_productId data url) as [data'|e] eqn:Hinj; [|discriminate].
    cbn [bind] in Hok.
    destruct (inject_productId_ok _ _ _ Hinj) as (d & first & others & product
                                                  & -> & Hact & Hseg & ->).
    exists d, first, others, product.
    split; [reflexivity|]. split; [exact Hact|]. split; [exact Hseg|].
    assert (Hne : "_scraped_sales_history" <> "headers") by discriminate.
    destruct (session_holds_append _ _ _ _
                (JObj (dict_set "ProductActivity"
                         (JArr (JObj (dict_set "productId" (JStr product) first) :: others))
                         d)) Hne Hs) as [Happ Hs'].
    rewrite Happ in Hok. injection Hok as <-.
    apply (session_holds_getattr _ _ _ _ Hs').
Qed.

End Sales.

Lemma empty_activity_is_never_stored_witness :
  _scrape_sales_history (world := quiet_world) (plain_session [] []) (sales_url "p1")
  = Raise IndexError
  /\ get_product_sales_history (world := quiet_world) in_order
       (plain_session [] []) ["p1"]
     = Ok (plain_session [] []).
Proof.
  destruct (empty_activity_is_never_stored (world := quiet_world)
              (plain_session [] []) JNull [] (sales_url "p1")
              {| status_code := 200; text := "{}" |}
              (JObj [ ("ProductActivity", JArr []) ])
              (plain_session_holds_sales [] []) eq_refl eq_refl)
    as [Hempty _].
  destruct (Hempty eq_refl) as [Hraise _].
  split; [exact Hraise|reflexivity].
Defined.

(** ** Flattened records *)

Lemma nested_to_record_items (top : bool) (prefix : string) (d : dict) :
  nested_to_record top prefix (JObj d) = flatten_items top prefix d d.
Proof.
  cbn [nested_to_record].
  generalize d at 1 3. intros todo. revert d.
  induction todo as [|[k v] todo IH]; intros new_d; [reflexivity|].
  cbn [flatten_items]. destruct v; apply IH.
Qed.

Lemma dict_set_keys (k : string) (v : value) (d : dict) (key : string) :
  In key (keys (dict_set k v d)) -> key = k \/ In key (keys d).
Proof.
  induction d as [|[k' v'] d IH]; simpl.
  - intros [<-|[]]. now left.
  - destruct (String.eqb_spec k k') as [->|]; simpl; intros [<-|H]; auto.
    destruct (IH H); auto.
Qed.

Lemma dict_update_keys (d e : dict) (key : string) :
  In key (keys (dict_update d e)) -> In key (keys d) \/ In key (keys e).
Proof.
  unfold dict_update. revert d. induction e as [|[k v] e IH]; intros d; simpl; auto.
  intros H. destruct (IH _ H) as [H'|H']; auto.
  destruct (dict_set_keys _ _ _ _ H') as [->|]; auto.
Qed.

Lemma dict_pop_keys (k : string) (d : dict) (key : string) :
  In key (keys (dict_pop k d)) -> In key (keys d) /\ key <> k.
Proof.
  induction d as [|[k' v'] d IH]; simpl; [tauto|].
  destruct (String.eqb_spec k k') as [->|Hne]; simpl.
  - intros H. destruct (IH H). auto.
  - intros [<-|H]; [split; auto|]. destruct (IH H). auto.
Qed.

Lemma string_app_assoc (a b c : string) :
  ((a ++ b) ++ c = a ++ b ++ c)%string.
Proof. induction a; simpl; congruence. Qed.

Lemma qualified_deeper (prefix k key : string) :
  qualified (prefix ++ "." ++ k) key -> qualified prefix key.
Proof.
  intros [rest ->]. exists (k ++ "." ++ rest)%string.
  rewrite !string_app_assoc. reflexivity.
Qed.

(** Below the top level the loop leaves qualified names only, apart from
    keys of the [dict] it started from that it has not come to yet. *)
Lemma flatten_items_keys (prefix : string) (todo : list (string * value)) :
  Forall (fun kv => forall p key,
            In key (keys (nested_to_record false p (snd kv))) -> qualified p key)
         todo ->
  forall new_d key,
    In key (keys (flatten_items false prefix todo new_d)) ->
    qualified prefix key \/ (In key (keys new_d) /\ ~ In key (keys todo)).
Proof.
  induction 1 as [|[k v] todo Hv _ IH]; intros new_d key Hkey;
    cbn [flatten_items] in Hkey.
  - right. split; [exact Hkey|auto].
  - cbn [snd] in Hv.
    assert (Hstep : forall nd,
              (forall key', In key' (keys nd) ->
                 qualified prefix key' \/ (In key' (keys new_d) /\ key' <> k)) ->
              In key (keys (flatten_items false prefix todo nd)) ->
              qualified prefix key
              \/ In key (keys new_d) /\ ~ In key (keys ((k, v) :: todo))).
    { intros nd Hnd Hk. destruct (IH nd key Hk) as [Hq|[Hin Hnot]]; [now left|].
      destruct (Hnd key Hin) as [Hq|[Hin' Hne]]; [now left|].
      right. split; [exact Hin'|]. simpl. intros [->|]; tauto. }
    assert (Hset : forall x key',
              In key' (keys (dict_set (prefix ++ "." ++ k) x (dict_pop k new_d))) ->
              qualified prefix key' \/ (In key' (keys new_d) /\ key' <> k)).
    { intros x key' Hk'. apply dict_set_keys in Hk' as [->|Hk'].
      - left. now exists k.
      - right. now apply dict_pop_keys in Hk'. }
    destruct v; try (apply (Hstep _ (Hset _) Hkey)).
    apply (Hstep _) in Hkey; [exact Hkey|].
    intros key' Hk'. apply dict_update_keys in Hk' as [Hk'|Hk'].
    + right. now apply dict_pop_keys in Hk'.
    + left. apply (qualified_deeper _ k), Hv, Hk'.
Qed.

(** Every column that comes from inside a nested [dict] is qualified. *)
Lemma nested_keys_qualified (v : value) :
  forall prefix key,
    In key (keys (nested_to_record false prefix v)) -> qualified prefix key.
Proof.
  induction v as [| | | | | | |fields IH] using value_nested_ind;
    intros prefix key; try (now intros []).
  rewrite nested_to_record_items. intros Hk.
  destruct (flatten_items_keys prefix fields IH fields key Hk) as [Hq|[Hin Hnot]];
    [exact Hq|now destruct Hnot].
Qed.

Lemma qualified_has_dot (prefix key : string) :
  qualified prefix key -> lacks "." key = false.
Proof.
  intros [rest ->]. induction prefix as [|c prefix IH]; [reflexivity|].
  change (String c prefix ++ "." ++ rest)%string
    with (String c (prefix ++ "." ++ rest)%string).
  cbn [lacks]. rewrite IH. apply andb_false_r.
Qed.

Lemma dict_get_pop_other (c k : string) (d : dict) :
  c <> k -> dict_get c (dict_pop k d) = dict_get c d.
Proof.
  intros Hne. induction d as [|[k' v'] d IH]; simpl; [reflexivity|].
  destruct (String.eqb_spec k k') as [->|Hk]; simpl.
  - destruct (String.eqb_spec c k'); [congruence|exact IH].
  - now rewrite IH.
Qed.

Lemma dict_get_update_other (c : string) (d e : dict) :
  ~ In c (keys e) -> dict_get c (dict_update d e) = dict_get c d.
Proof.
  unfold dict_update. revert d. induction e as [|[k v] e IH]; intros d Hnot; simpl;
    [reflexivity|].
  simpl in Hnot. rewrite IH by tauto. apply dict_get_set_other. intros ->. tauto.
Qed.

Lemma dict_get_In (k : string) (v : value) (d : dict) :
  dict_get k d = Some v -> In k (keys d).
Proof.
  induction d as [|[k' v'] d IH]; simpl; [discriminate|].
  destruct (String.eqb_spec k k') as [->|]; [now left|]. intros H. right. now apply IH.
Qed.

Lemma dict_get_NoDup (k : string) (v : value) (d : dict) :
  NoDup (keys d) -> In (k, v) d -> dict_get k d = Some v.
Proof.
  induction d as [|[k' v'] d IH]; simpl; [tauto|].
  intros Hnd [[= -> ->]|Hin].
  - now rewrite String.eqb_refl.
  - inversion Hnd as [|? ? Hnot Hnd']; subst.
    destruct (String.eqb_spec k k') as [->|]; [|now apply IH].
    destruct Hnot. apply (in_map fst) in Hin. exact Hin.
Qed.

(** At the top level a column without a dot in its name keeps the value
    the record gives it, when that value is not itself a [dict]. *)
Lemma flatten_items_top (c : string) (v : value) (todo : list (string * value)) :
  lacks "." c = true ->
  (forall k x, In (k, x) todo -> is_record x = true -> k <> c) ->
  forall new_d,
    dict_get c new_d = Some v ->
    dict_get c (flatten_items true EmptyString todo new_d) = Some v.
Proof.
  intros Hdot. induction todo as [|[k x] todo IH]; intros Hk new_d Hget;
    cbn [flatten_items]; [exact Hget|].
  assert (Hk' : forall k0 x0, In (k0, x0) todo -> is_record x0 = true -> k0 <> c)
    by (intros k0 x0 Hin; apply Hk; now right).
  destruct x; try (now apply IH).
  apply IH; [exact Hk'|].
  assert (Hne : c <> k)
    by (intros ->; now apply (Hk k (JObj fields) (or_introl eq_refl))).
  rewrite dict_get_update_other, dict_get_pop_other; [exact Hget|exact Hne|].
  intros Hin. apply nested_keys_qualified, qualified_has_dot in Hin. congruence.
Qed.

Lemma flatten_record_keeps (c : string) (v : value) (d : dict) :
  lacks "." c = true -> NoDup (keys d) ->
  dict_get c d = Some v -> is_record v = false ->
  cell c (flatten_record (JObj d)) = v.
Proof.
  intros Hdot Hnd Hget Hv. unfold cell, flatten_record.
  rewrite nested_to_record_items.
  rewrite (flatten_items_top c v d Hdot); [reflexivity| |exact Hget].
  intros k x Hin Hx ->. rewrite (dict_get_NoDup _ _ _ Hnd Hin) in Hget.
  injection Hget as ->. congruence.
Qed.

Lemma dict_set_NoDup (k : string) (v : value) (d : dict) :
  NoDup (keys d) -> NoDup (keys (dict_set k v d)).
Proof.
  induction d as [|[k' v'] d IH]; simpl; intros Hnd.
  - constructor; [tauto|constructor].
  - inversion Hnd as [|? ? Hnot Hnd']; subst.
    destruct (String.eqb_spec k k') as [->|Hne]; simpl; constructor; auto.
    intros Hin. apply dict_set_keys in Hin as [->|Hin]; [congruence|tauto].
Qed.

(** ** The columns of a projection *)

Lemma dict_set_keys_iff (k : string) (v : value) (d : dict) (key : string) :
  In key (keys (dict_set k v d)) <-> key = k \/ In key (keys d).
Proof.
  split; [apply dict_set_keys|].
  induction d as [|[k' v'] d IH]; simpl.
  - intros [->|[]]. now left.
  - destruct (String.eqb_spec k k') as [->|Hne]; simpl.
    + intros [->|[H|H]]; auto.
    + intros [->|[H|H]]; auto.
Qed.

Lemma dict_pop_keys_iff (k : string) (d : dict) (key : string) :
  In key (keys (dict_pop k d)) <-> In key (keys d) /\ key <> k.
Proof.
  split; [apply dict_pop_keys|].
  induction d as [|[k' v'] d IH]; simpl; [tauto|].
  destruct (String.eqb_spec k k') as [->|Hne]; simpl.
  - intros [[H|H] Hk]; [congruence|auto].
  - intros [[H|H] Hk]; auto.
Qed.

Lemma dict_update_keys_iff (d e : dict) (key : string) :
  In key (keys (dict_update d e)) <-> In key (keys d) \/ In key (keys e).
Proof.
  split; [apply dict_update_keys|].
  unfold dict_update. revert d. induction e as [|[k v] e IH]; intros d; simpl.
  - tauto.
  - intros H. apply IH. rewrite dict_set_keys_iff. intuition auto.
Qed.

Lemma leaf_paths_items (d : dict) :
  leaf_paths (JObj d) = flat_map item_paths d.
Proof.
  cbn [leaf_paths]. induction d as [|[k v] d IH]; [reflexivity|].
  cbn [flat_map]. rewrite <- IH. reflexivity.
Qed.

Lemma plain_keys_items (d : dict) :
  plain_keys (JObj d) ->
  NoDup (keys d)
  /\ Forall (fun kv => lacks "." (fst kv) = true /\ plain_keys (snd kv)) d.
Proof.
  cbn [plain_keys]. intros [Hnd H]. split; [exact Hnd|]. clear Hnd.
  induction d as [|[k v] d IH]; [constructor|].
  destruct H as (Hk & Hv & Hrest). constructor; [now split|now apply IH].
Qed.

Lemma qualified_paths (prefix k : string) (paths : list string) :
  map (fun q => ((prefix ++ "." ++ k) ++ "." ++ q)%string) paths
  = map (fun q => (prefix ++ "." ++ q)%string)
        (map (fun q => (k ++ "." ++ q)%string) paths).
Proof.
  rewrite map_map. apply map_ext. intros q. now rewrite !string_app_assoc.
Qed.

(** Inside a nested [dict] the loop replaces every key it comes to by the
    qualified paths under it. *)
Lemma flatten_items_nested (prefix : string) (todo : list (string * value)) :
  Forall (fun kv => lacks "." (fst kv) = true
                    /\ forall p c,
                         In c (keys (nested_to_record false p (snd kv))) <->
                         In c (map (fun q => (p ++ "." ++ q)%string)
                                   (leaf_paths (snd kv)))) todo ->
  forall new_d c,
    In c (keys (flatten_items false prefix todo new_d)) <->
    (In c (keys new_d) /\ ~ In c (keys todo))
    \/ In c (map (fun q => (prefix ++ "." ++ q)%string) (flat_map item_paths todo)).
Proof.
  induction 1 as [|[k v] todo [Hk Hv] Hall IH]; intros new_d c.
  - cbn [flatten_items flat_map map keys]. simpl. tauto.
  - cbn [fst snd] in Hk, Hv.
    assert (Hdotless : In c (keys todo) -> lacks "." c = true).
    { intros Hin. unfold keys in Hin. apply in_map_iff in Hin as (kv & <- & Hkv).
      rewrite Forall_forall in Hall. now apply Hall. }
    assert (Hnew : qualified prefix c -> ~ In c (keys todo)).
    { intros Hq Hin. apply qualified_has_dot in Hq. rewrite (Hdotless Hin) in Hq.
      discriminate. }
    assert (Hswap : k = c <-> c = k) by (split; congruence).
    cbn [flat_map]. rewrite map_app, in_app_iff.
    change (keys ((k, v) :: todo)) with (k :: keys todo). cbn [In].
    cbn [flatten_items].
    destruct v;
      try (rewrite IH, dict_set_keys_iff, dict_pop_keys_iff;
           cbn [item_paths fst snd map In];
           assert (Hself : c = (prefix ++ "." ++ k)%string -> qualified prefix c)
             by (intros ->; now exists k);
           assert (Hswap' : (prefix ++ "." ++ k)%string = c
                            <-> c = (prefix ++ "." ++ k)%string)
             by (split; congruence);
           tauto).
    rewrite IH, dict_update_keys_iff, dict_pop_keys_iff, Hv.
    cbn [item_paths fst snd]. rewrite qualified_paths.
    assert (Hin : In c (map (fun q => (prefix ++ "." ++ q)%string)
                          (map (fun q => (k ++ "." ++ q)%string)
                               (leaf_paths (JObj fields)))) ->
                  qualified prefix c).
    { intros Hc. apply in_map_iff in Hc as (q & <- & _). now exists q. }
    tauto.
Qed.

(** The keys a nested [dict] flattens to are its paths, qualified. *)
Lemma nested_paths (v : value) :
  plain_keys v ->
  forall p c,
    In c (keys (nested_to_record false p v)) <->
    In c (map (fun q => (p ++ "." ++ q)%string) (leaf_paths v)).
Proof.
  induction v as [| | | | | | |fields IH] using value_nested_ind;
    intros Hplain p c; try (simpl; tauto).
  apply plain_keys_items in Hplain as [_ Hall].
  rewrite nested_to_record_items, leaf_paths_items.
  rewrite (flatten_items_nested p fields); [tauto|].
  rewrite Forall_forall in *. intros kv Hkv. destruct (Hall kv Hkv) as [Hk Hv].
  split; [exact Hk|]. now apply IH.
Qed.

(** At the top level the loop leaves the keys that do not hold a [dict]
    where they are and replaces the others by the paths under them. *)
Lemma flatten_items_top_paths (todo : list (string * value)) :
  Forall (fun kv => lacks "." (fst kv) = true /\ plain_keys (snd kv)) todo ->
  forall new_d c,
    In c (keys (flatten_items true EmptyString todo new_d)) <->
    (In c (keys new_d)
     /\ ~ In c (keys (filter (fun kv => is_record (snd kv)) todo)))
    \/ In c (flat_map item_paths (filter (fun kv => is_record (snd kv)) todo)).
Proof.
  induction 1 as [|[k v] todo [Hk Hv] Hall IH]; intros new_d c.
  - cbn [flatten_items filter flat_map keys map In]. tauto.
  - cbn [fst snd] in Hk, Hv.
    assert (Hdotless : In c (keys (filter (fun kv => is_record (snd kv)) todo)) ->
                       lacks "." c = true).
    { intros Hin. unfold keys in Hin. apply in_map_iff in Hin as (kv & <- & Hkv).
      apply filter_In in Hkv as [Hkv _].
      rewrite Forall_forall in Hall. now apply Hall. }
    cbn [flatten_items filter snd].
    destruct v; cbn [is_record]; try (now rewrite IH).
    rewrite IH, dict_update_keys_iff, dict_pop_keys_iff.
    rewrite (nested_paths _ Hv k c).
    cbn [flat_map item_paths fst snd]. rewrite in_app_iff.
    change (keys ((k, JObj fields)
                  :: filter (fun kv => is_record (snd kv)) todo))
      with (k :: keys (filter (fun kv => is_record (snd kv)) todo)).
    cbn [In].
    assert (Hswap : k = c <-> c = k) by (split; congruence).
    assert (Hin : In c (map (fun q => (k ++ "." ++ q)%string)
                          (leaf_paths (JObj fields))) ->
                  ~ In c (keys (filter (fun kv => is_record (snd kv)) todo))).
    { intros Hc Hc'. apply in_map_iff in Hc as (q & <- & _).
      assert (Hq : qualified k (k ++ "." ++ q)%string) by now exists q.
      apply qualified_has_dot in Hq. rewrite (Hdotless Hc') in Hq. discriminate. }
    tauto.
Qed.

(** The columns a record with plain keys gives are its dot-qualified key
    paths, no more and no less. *)
Lemma flatten_record_paths (e : value) :
  plain_keys e ->
  forall c, In c (keys (flatten_record e)) <-> In c (leaf_paths e).
Proof.
  destruct e as [| | | | | | |d]; intros Hplain c; try (simpl; tauto).
  apply plain_keys_items in Hplain as [Hnd Hall].
  unfold flatten_record.
  rewrite nested_to_record_items, leaf_paths_items,
    (flatten_items_top_paths d Hall d c), !in_flat_map.
  split.
  - intros [[Hin Hnot]|(kv & Hkv & Hc)].
    + unfold keys in Hin. apply in_map_iff in Hin as ([k v] & <- & Hkv).
      exists (k, v). split; [exact Hkv|]. cbn [fst].
      destruct (is_record v) eqn:E.
      * destruct Hnot. unfold keys. apply in_map_iff. exists (k, v).
        split; [reflexivity|]. apply filter_In. now split.
      * unfold item_paths. cbn [fst snd]. destruct v; try (now left). discriminate.
    + apply filter_In in Hkv as [Hkv _]. eauto.
  - intros ([k v] & Hkv & Hc). destruct (is_record v) eqn:E.
    + right. exists (k, v). split; [|exact Hc]. apply filter_In. now split.
    + left. assert (Hck : c = k).
      { unfold item_paths in Hc. cbn [fst snd] in Hc.
        destruct v; try discriminate; destruct Hc as [<-|[]]; reflexivity. }
      subst c. split.
      * unfold keys. apply in_map_iff. now exists (k, v).
      * intros Hin. unfold keys in Hin.
        apply in_map_iff in Hin as ([k' v'] & Hk' & Hkv').
        cbn [fst] in Hk'. subst k'. apply filter_In in Hkv' as [Hkv' E'].
        cbn [snd] in E'.
        pose proof (dict_get_NoDup _ _ _ Hnd Hkv) as G1.
        pose proof (dict_get_NoDup _ _ _ Hnd Hkv') as G2.
        rewrite G1 in G2. injection G2 as ->. congruence.
Qed.

(** C8 (as amended): for either accumulator on its own, when it is not
    empty and its documents each hold a list of records under the
    extracted key, the projection returns a table with one row per entry,
    so as many rows as the lengths of the lists add up to, each row the
    flattened entry, and with exactly the flattened keys of the entries as
    columns; for an entry with plain keys those are its dot-qualified key
    paths.  The first part is the product table, whatever the sales
    accumulator holds; the second the sales table. *)
Theorem projection_rows_and_columns (self : pyobj) :
  (forall (products : list value) (product_entries : list (list value)),
     plain_field self "_scraped_products" ->
     dict_get "_scraped_products" (ob_dict self) = Some (JArr products) ->
     products <> [] ->
     Forall2 (fun doc es => getitem_key doc "Products" = Ok (JArr es)
                            /\ forallb is_record es = true)
             products product_entries ->
     exists df,
       product_info_to_dataframe self = Ok df
       /\ rows df = map flatten_record (List.concat product_entries)
       /\ List.length (rows df) = list_sum (map (@List.length value) product_entries)
       /\ (forall c, In c (columns df) <->
                     exists e, In e (List.concat product_entries)
                               /\ In c (map fst (flatten_record e)))
       /\ (Forall plain_keys (List.concat product_entries) ->
           forall c, In c (columns df) <->
                     exists e, In e (List.concat product_entries)
                               /\ In c (leaf_paths e)))
  /\ (forall (sales : list value) (sale_entries : list (list value)),
        plain_field self "_scraped_sales_history" ->
        dict_get "_scraped_sales_history" (ob_dict self) = Some (JArr sales) ->
        sales <> [] ->
        Forall2 (fun doc es => getitem_key doc "ProductActivity" = Ok (JArr es)
                               /\ forallb is_record es = true)
                sales sale_entries ->
        exists df,
          sales_history_to_dataframe self = Ok df
          /\ rows df = map flatten_record (List.concat sale_entries)
          /\ List.length (rows df) = list_sum (map (@List.length value) sale_entries)
          /\ (forall c, In c (columns df) <->
                        exists e, In e (List.concat sale_entries)
                                  /\ In c (map fst (flatten_record e)))
          /\ (Forall plain_keys (List.concat sale_entries) ->
              forall c, In c (columns df) <->
                        exists e, In e (List.concat sale_entries)
                                  /\ In c (leaf_paths e))).
Proof.
  assert (Hpaths : forall (entries : list (list value)) (df : DataFrame),
            (forall c, In c (columns df) <->
                       exists e, In e (List.concat entries)
                                 /\ In c (map fst (flatten_record e))) ->
            Forall plain_keys (List.concat entries) ->
            forall c, In c (columns df) <->
                      exists e, In e (List.concat entries) /\ In c (leaf_paths e)).
  { intros entries df Hcols Hplain c. rewrite Hcols.
    rewrite Forall_forall in Hplain.
    split; intros (e & He & Hc); exists e; (split; [exact He|]);
      now apply (flatten_record_paths e (Hplain e He)). }
  split.
  - intros products entries Pp Dp Np Hp.
    destruct (project_table self _ _ _ _ Pp Dp Np Hp) as (df & Hrun & Hrows & Hlen & Hcols).
    exists df. repeat (split; [assumption|]). now apply Hpaths.
  - intros sales entries Ps Ds Ns Hs.
    destruct (project_table self _ _ _ _ Ps Ds Ns Hs) as (df & Hrun & Hrows & Hlen & Hcols).
    exists df. repeat (split; [assumption|]). now apply Hpaths.
Qed.

(** Two documents of three entries each give six rows, for the product
    table while the sales accumulator is still empty, as at line 162, and
    for the sales table. *)
Lemma projection_rows_and_columns_witness :
  (exists df,
     product_info_to_dataframe
       (plain_session [catalogue_page ["a"; "b"; "c"]; catalogue_page ["d"; "e"; "f"]] [])
     = Ok df
     /\ List.length (rows df) = 6%nat
     /\ columns df = ["id"; "media.imageUrl"]
     /\ In "media.imageUrl" (columns df))
  /\ (exists df,
        sales_history_to_dataframe
          (plain_session [] [catalogue_page ["a"; "b"; "c"]; catalogue_page ["d"; "e"; "f"]])
        = Ok df
        /\ List.length (rows df) = 6%nat
        /\ columns df = ["amount"; "chainId"]).
Proof.
  split.
  - destruct (proj1 (projection_rows_and_columns
                       (plain_session [catalogue_page ["a"; "b"; "c"];
                                       catalogue_page ["d"; "e"; "f"]] []))
                [catalogue_page ["a"; "b"; "c"]; catalogue_page ["d"; "e"; "f"]]
                (map (fun doc => match getitem_key doc "Products" with
                                 | Ok (JArr es) => es
                                 | _ => []
                                 end)
                     [catalogue_page ["a"; "b"; "c"]; catalogue_page ["d"; "e"; "f"]])
                eq_refl eq_refl ltac:(discriminate) ltac:(repeat constructor))
      as (df & Hrun & _ & Hlen & _ & Hpaths).
    exists df. split; [exact Hrun|]. split; [exact Hlen|].
    split; [vm_compute in Hrun; now injection Hrun as <-|].
    apply Hpaths.
    + apply Forall_forall. intros e He. vm_compute in He.
      repeat (destruct He as [<-|He];
              [vm_compute; repeat split; repeat constructor; simpl;
               intuition discriminate|]).
      destruct He.
    + eexists. split; [left; reflexivity|]. vm_compute. tauto.
  - destruct (proj2 (projection_rows_and_columns
                       (plain_session [] [catalogue_page ["a"; "b"; "c"];
                                          catalogue_page ["d"; "e"; "f"]]))
                [catalogue_page ["a"; "b"; "c"]; catalogue_page ["d"; "e"; "f"]]
                (map (fun doc => match getitem_key doc "ProductActivity" with
                                 | Ok (JArr es) => es
                                 | _ => []
                                 end)
                     [catalogue_page ["a"; "b"; "c"]; catalogue_page ["d"; "e"; "f"]])
                eq_refl eq_refl ltac:(discriminate) ltac:(repeat constructor))
      as (df & Hrun & _ & Hlen & _).
    exists df. split; [exact Hrun|]. split; [exact Hlen|].
    vm_compute in Hrun. now injection Hrun as <-.
Defined.

(** C8, the claim as written fails: for an accumulator without documents
    the lengths add up to zero, but no table comes back, the concatenation
    of no frames raises.  The sales accumulator is read as a field by the
    class of the source as well. *)
Lemma projection_of_nothing_raises :
  product_info_to_dataframe (plain_session [] []) = Raise ValueError
  /\ sales_history_to_dataframe (plain_session [] []) = Raise ValueError
  /\ sales_history_to_dataframe
       {| ob_type := StockX_class;
          ob_dict := [("_scraped_sales_history", JArr [])] |} = Raise ValueError.
Proof. repeat split. Qed.

(** ** The identifier of a sales record *)

Lemma string_app_nil (a : string) : (a ++ EmptyString)%string = a.
Proof. induction a; simpl; congruence. Qed.

(** A stretch without a slash, then a slash: one segment of the split. *)
Lemma split_segment (a t : string) :
  lacks "/" a = true ->
  split_from "/" 0 (a ++ "/" ++ t)%string = a :: split_from "/" 0 t.
Proof.
  intros H. rewrite (split_from_lacks "/" EmptyString a _ H).
  change ("/" ++ t)%string with (String "/" EmptyString ++ t)%string.
  rewrite split_from_separator. cbn [hd tl]. now rewrite string_app_nil.
Qed.

(** The sixth segment of a product's sales URL is the product identifier,
    when the identifier has no slash in it. *)
Lemma sales_url_product (p : string) :
  lacks "/" p = true ->
  list_index (split_from "/" 0 (sales_url p)) 5 = Ok p.
Proof.
  intros H. unfold sales_url.
  change ("https://stockx.com/api/products/" ++ p
          ++ "/activity?state=480&currency=USD&limit=10000&page=1")%string
    with ("https:" ++ "/" ++ EmptyString ++ "/" ++ "stockx.com" ++ "/" ++ "api" ++ "/"
          ++ "products" ++ "/" ++ p ++ "/"
          ++ "activity?state=480&currency=USD&limit=10000&page=1")%string.
  rewrite !split_segment by (exact H || reflexivity). reflexivity.
Qed.

Lemma ffill_from_nulls (w : value) (nulls rest : list value) :
  Forall (fun x => isna x = true) nulls ->
  ffill_from (Some w) (nulls ++ rest)
  = repeat w (List.length nulls) ++ ffill_from (Some w) rest.
Proof.
  induction 1 as [|x nulls Hx _ IH]; simpl; [reflexivity|].
  now rewrite Hx, IH.
Qed.

Lemma stored_record_entries (owners : list (string * nat)) (records : list value) :
  Forall2 (fun owner record => stored_record (fst owner) (snd owner) record)
          owners records ->
  exists entries,
    Forall2 (fun doc es => getitem_key doc "ProductActivity" = Ok (JArr es)
                           /\ forallb is_record es = true) records entries
    /\ Forall2 owned_entries owners entries.
Proof.
  induction 1 as [|owner record owners records Hrec _ (entries & Hp & Ho)].
  - exists []. split; constructor.
  - destruct Hrec as (d & first & others & -> & Hact & Hid & Hnd & Hrs & Hna & Hn).
    exists ((JObj first :: others) :: entries). split; constructor; try assumption.
    + cbn [getitem_key]. rewrite Hact. split; [reflexivity|exact Hrs].
    + exists first, others. repeat split; try assumption.
      now apply flatten_record_keeps.
Qed.

(** Forward fill over records laid one after the other: every row takes
    the identifier of the first row of its own record. *)
Lemma ffill_from_records (owners : list (string * nat)) (entries : list (list value)) :
  Forall2 owned_entries owners entries ->
  forall last,
    ffill_from last (map (cell "productId") (map flatten_record (List.concat entries)))
    = List.concat (map (fun owner => repeat (JStr (fst owner)) (snd owner)) owners).
Proof.
  induction 1 as [|owner es owners entries Hes _ IH]; intros last; [reflexivity|].
  destruct Hes as (first & others & -> & Hid & _ & Hna & Hn).
  cbn [List.concat map app]. rewrite Hid, Hn. cbn [ffill_from isna repeat app].
  rewrite !map_app, ffill_from_nulls, IH, !length_map; [reflexivity|].
  rewrite Forall_map, Forall_map. exact Hna.
Qed.

(** The sales table of an accumulator of stored records, forward filled. *)
Lemma stored_records_table (self : pyobj) (owners : list (string * nat))
    (records : list value) :
  plain_field self "_scraped_sales_history" ->
  dict_get "_scraped_sales_history" (ob_dict self) = Some (JArr records) ->
  records <> [] ->
  Forall2 (fun owner record => stored_record (fst owner) (snd owner) record)
          owners records ->
  exists df df',
    sales_history_to_dataframe self = Ok df
    /\ main_ffill df = Ok df'
    /\ map (cell "productId") (rows df')
       = List.concat (map (fun owner => repeat (JStr (fst owner)) (snd owner)) owners).
Proof.
  intros Hp Hd Hne Hall.
  destruct (stored_record_entries _ _ Hall) as (entries & Hproj & Hown).
  destruct (project_table self _ "ProductActivity" _ _ Hp Hd Hne Hproj)
    as (df & Hrun & Hrows & _ & Hcols).
  assert (Hcol : has_column "productId" (columns df) = true).
  { apply has_column_In, Hcols.
    destruct Hown as [|owner es owners' entries' (first & others & -> & Hid & _) _];
      [inversion Hproj; congruence|].
    exists (JObj first). split; [now left|].
    unfold cell in Hid.
    destruct (dict_get "productId" (flatten_record (JObj first))) eqn:G;
      [|discriminate].
    exact (dict_get_In _ _ _ G). }
  exists df. eexists. split; [exact Hrun|].
  unfold main_ffill, column. rewrite Hcol. cbn [bind].
  split; [reflexivity|]. cbn [rows set_column].
  rewrite set_cells_column
    by (unfold fillna_ffill; now rewrite ffill_from_length, length_map).
  rewrite Hrows. apply ffill_from_records, Hown.
Qed.

Section Identifier.

Context {world : Capabilities}.

(** C5 (as amended): for a product identifier [p] without a slash, the
    identifier [_scrape_sales_history] writes into the record it stores is
    the sixth segment of the request URL, which is [p]; it goes into the
    first activity entry only.  When the other entries of each record bring
    no [productId] of their own, the forward fill of the projected table
    gives every row of a record the identifier of that record, for the new
    record and for those accumulated before it, in whatever order. *)
Theorem injected_identifier_fills_its_record (self : pyobj) (headers : value)
    (owners : list (string * nat)) (acc : list value) (p : string)
    (r : Response) (d first : dict) (others : list value) :
  session_holds "_scraped_sales_history" headers self acc ->
  Forall2 (fun owner record => stored_record (fst owner) (snd owner) record)
          owners acc ->
  lacks "/" p = true ->
  requests_get (sales_url p) headers = Ok r ->
  json_loads (text r) = Ok (JObj d) ->
  dict_get "ProductActivity" d = Some (JArr (JObj first :: others)) ->
  NoDup (keys first) ->
  forallb is_record others = true ->
  Forall (fun e => isna (cell "productId" (flatten_record e)) = true) others ->
  exists self' record df df',
    _scrape_sales_history self (sales_url p) = Ok self'
    /\ (forall sched, get_product_sales_history sched self [p] = Ok self')
    /\ getattr self' "_scraped_sales_history" = Ok (JArr (acc ++ [record]))
    /\ list_index (split_from "/" 0 (sales_url p)) 5 = Ok p
    /\ getitem_key record "ProductActivity"
       = Ok (JArr (JObj (dict_set "productId" (JStr p) first) :: others))
    /\ sales_history_to_dataframe self' = Ok df
    /\ main_ffill df = Ok df'
    /\ map (cell "productId") (rows df')
       = List.concat (map (fun owner => repeat (JStr (fst owner)) (snd owner))
                          (owners ++ [(p, S (List.length others))])).
Proof.
  intros Hs Hacc Hp Hget Hjson Hact Hnd Hrs Hna.
  set (record := JObj (dict_set "ProductActivity"
                         (JArr (JObj (dict_set "productId" (JStr p) first) :: others))
                         d)).
  assert (Hfetch : fetched_sales headers (sales_url p) = Ok record).
  { unfold fetched_sales, fetched. rewrite Hget. cbn [bind]. rewrite Hjson.
    cbn [bind]. unfold inject_productId. cbn [str_split bind].
    rewrite (sales_url_product _ Hp). cbn [bind getitem_key]. rewrite Hact.
    cbn [bind getitem_int list_index nth_error setitem_key put_first_activity].
    now rewrite Hact. }
  destruct (_scrape_sales_history_appends _ _ _ _ _ Hs Hfetch) as (self' & Hrun & Hs').
  assert (Hstored : stored_record p (S (List.length others)) record).
  { exists (dict_set "ProductActivity"
              (JArr (JObj (dict_set "productId" (JStr p) first) :: others)) d),
           (dict_set "productId" (JStr p) first), others.
    split; [reflexivity|]. split; [apply dict_get_set_same|].
    split; [apply dict_get_set_same|]. split; [now apply dict_set_NoDup|].
    now repeat split. }
  assert (Hall : Forall2 (fun owner rec => stored_record (fst owner) (snd owner) rec)
                   (owners ++ [(p, S (List.length others))]) (acc ++ [record])).
  { apply Forall2_app; [exact Hacc|]. constructor; [exact Hstored|constructor]. }
  destruct Hs' as (Ph' & Pn' & Dh' & Dn').
  destruct (stored_records_table self' _ _ Pn' Dn' ltac:(now destruct acc) Hall)
    as (df & df' & Hdf & Hfill & Hids).
  exists self', record, df, df'.
  split; [exact Hrun|]. split.
  { intros sched. unfold get_product_sales_history, executor_map.
    cbn [map List.length drain pending]. rewrite Nat.mod_1_r.
    unfold complete. cbn [pending nth_error shared]. now rewrite Hrun. }
  split; [now apply getattr_plain|]. split; [now apply sales_url_product|].
  split; [subst record; cbn [getitem_key]; now rewrite dict_get_set_same|].
  split; [exact Hdf|]. split; [exact Hfill|exact Hids].
Qed.

End Identifier.

(** The sales of product [p1], fetched into an empty session. *)
Lemma injected_identifier_fills_its_record_witness :
  exists self' df df',
    get_product_sales_history (world := shop_world) in_order
      (plain_session [] []) ["p1"] = Ok self'
    /\ sales_history_to_dataframe self' = Ok df
    /\ main_ffill df = Ok df'
    /\ map (cell "productId") (rows df') = [JStr "p1"; JStr "p1"].
Proof.
  destruct (injected_identifier_fills_its_record (world := shop_world)
              (plain_session [] []) JNull [] [] "p1"
              {| status_code := 200; text := sales_url "p1" |}
              [ ("Products", JArr [ JObj [ ("id", JStr (sales_url "p1")) ] ]);
                ("ProductActivity",
                 JArr [ JObj [ ("amount", JInt 250) ]; JObj [ ("amount", JInt 260) ] ]) ]
              [ ("amount", JInt 250) ] [ JObj [ ("amount", JInt 260) ] ]
              (plain_session_holds_sales [] []) (Forall2_nil _)
              eq_refl eq_refl eq_refl eq_refl
              ltac:(repeat constructor; simpl; tauto) eq_refl
              ltac:(repeat constructor))
    as (self' & record & df & df' & _ & Hrun & _ & _ & _ & Hdf & Hfill & Hids).
  exists self', df, df'. split; [apply Hrun|]. split; [exact Hdf|].
  split; [exact Hfill|exact Hids].
Defined.

(** C5, the claim as written fails twice.  For the product identifier
    [a/b] the sixth segment of the URL is [a], and [a] is what gets stored.
    And in a record whose second entry brings the identifier [Q] of its
    own, the forward fill hands [Q], not the identifier [P] of the record,
    to the rows from there on. *)
Lemma identifier_not_propagated :
  (exists self',
     get_product_sales_history (world := shop_world) in_order
       (plain_session [] []) ["a/b"] = Ok self'
     /\ (records <- getattr self' "_scraped_sales_history" ;;
         record <- getitem_int records 0 ;;
         activity <- getitem_key record "ProductActivity" ;;
         first <- getitem_int activity 0 ;;
         getitem_key first "productId") = Ok (JStr "a"))
  /\ (exists self' df df',
        get_product_sales_history (world := tagged_world) in_order
          (plain_session [] []) ["P"] = Ok self'
        /\ sales_history_to_dataframe self' = Ok df
        /\ main_ffill df = Ok df'
        /\ map (cell "productId") (rows df') = [JStr "P"; JStr "Q"; JStr "Q"]).
Proof.
  split.
  - eexists. split; [reflexivity|]. vm_compute. reflexivity.
  - eexists _, _, _. split; [reflexivity|]. split; [vm_compute; reflexivity|].
    split; [vm_compute; reflexivity|]. vm_compute. reflexivity.
Qed.

(** * Further properties of the code *)

(** ** The resolver: the list it returns *)

Lemma string_app_inv_head (a x y : string) :
  (a ++ x)%string = (a ++ y)%string -> x = y.
Proof. induction a as [|c a IH]; simpl; [auto|]. intros [= H]. auto. Qed.

Lemma str_of_int_inj (m n : Z) : str_of_int m = str_of_int n -> m = n.
Proof.
  unfold str_of_int. intros H. apply DecimalZ.to_int_inj.
  assert (Hnn : forall z, Z.to_int z <> Decimal.Pos Decimal.Nil
                          /\ Z.to_int z <> Decimal.Neg Decimal.Nil).
  { intros [|p|p]; simpl; split; try discriminate; intros [= E];
      now apply (DecimalPos.Unsigned.to_uint_nonnil p). }
  destruct (Hnn m) as [Hm1 Hm2]. destruct (Hnn n) as [Hn1 Hn2].
  pose proof (NilZero.isi _ Hm1 Hm2) as Em.
  pose proof (NilZero.isi _ Hn1 Hn2) as En.
  rewrite H in Em. rewrite Em in En. now injection En.
Qed.

Lemma page_url_inj (api tag category p q : string) :
  page_url api tag category p = page_url api tag category q -> p = q.
Proof.
  unfold page_url. intros H.
  repeat (apply string_app_inv_head in H). exact H.
Qed.

Lemma NoDup_map_injective {A B : Type} (f : A -> B) (l : list A) :
  (forall x y, f x = f y -> x = y) -> NoDup l -> NoDup (map f l).
Proof.
  intros Hinj. induction 1 as [|x l Hx _ IH]; simpl; constructor; [|exact IH].
  intros Hin. apply in_map_iff in Hin as (y & Hy & Hyl).
  apply Hinj in Hy. now subst.
Qed.

Lemma decimal_from_nonneg (s : string) (acc : Z) :
  (0 <= acc)%Z -> (0 <= decimal_from acc s)%Z.
Proof.
  revert acc. induction s as [|c s IH]; intros acc H; cbn [decimal_from];
    [exact H|].
  apply IH. unfold digit_value. lia.
Qed.

(** [int] reads a minus sign before the digits. *)
Lemma py_int_negative (s : string) :
  s <> EmptyString -> all_digits s = true ->
  py_int (String "-" s) = Ok (- decimal_value s)%Z.
Proof.
  intros Hne H. unfold py_int, strip.
  change (lstrip (String "-" s)) with (String "-" s).
  assert (Hr : rstrip (String "-" s) = String "-" s).
  { cbn [rstrip]. rewrite (rstrip_digits _ H). now destruct s. }
  rewrite Hr. cbn.
  destruct s as [|c s]; [congruence|].
  simpl in H. apply andb_true_iff in H as [Hd Hs].
  cbn [int_digits]. rewrite Hd.
  rewrite (int_digits_decimal _ _ Hs). reflexivity.
Qed.

Section ResolverList.

Context {world : Capabilities}.

Local Open Scope string_scope.

(** X1: whatever integer [int] reads after the first [page=] of
    [lastPage], up to the next [&], the next [page=] or the end, the
    method returns that many URLs, none for a count of zero or below;
    the URLs are pairwise distinct, and when there is at least one the
    first is the very URL the method itself requested. *)
Theorem get_category_urls_list_shape (self : pyobj) (tag category api : string)
    (headers : value) (r : Response) (data pagination : value)
    (pre number post : string) (n : Z) :
  plain_field self "api" -> plain_field self "headers" ->
  dict_get "api" (ob_dict self) = Some (JStr api) ->
  dict_get "headers" (ob_dict self) = Some headers ->
  requests_get (page_url api tag category "1") headers = Ok r ->
  json_loads (text r) = Ok data ->
  getitem_key data "Pagination" = Ok pagination ->
  getitem_key pagination "lastPage" = Ok (JStr (pre ++ "page=" ++ number ++ post)) ->
  str_find "page=" (pre ++ "page=" ++ number ++ post) = Some (String.length pre) ->
  str_find "page=" number = None -> lacks "&" number = true ->
  (post = EmptyString \/ (exists q, post = String "&" q)
   \/ exists q, post = "page=" ++ q) ->
  py_int number = Ok n ->
  exists urls,
    get_category_urls self tag category = Ok urls
    /\ List.length urls = Z.to_nat n
    /\ ((n <= 0)%Z -> urls = [])
    /\ NoDup urls
    /\ ((1 <= n)%Z -> hd_error urls = Some (page_url api tag category "1")).
Proof.
  intros Pa Ph Da Dh Hget Hjson Hpag Hlast Hfind Hp Hamp Hpost Hint.
  rewrite (get_category_urls_cut _ _ _ _ _ _ _ _ _ _ _
             Pa Ph Da Dh Hget Hjson Hpag Hlast Hfind Hp Hamp Hpost).
  rewrite Hint. cbn [bind]. rewrite page_urls_range.
  eexists. split; [reflexivity|].
  split; [now rewrite length_map, length_seq|].
  split; [intros Hn; now replace (Z.to_nat n) with 0%nat by lia|].
  split.
  - apply NoDup_map_injective; [|apply seq_NoDup].
    intros x y H. apply page_url_inj, str_of_int_inj in H. lia.
  - intros Hn. destruct (Z.to_nat n) as [|k] eqn:E; [lia|]. reflexivity.
Qed.

(** X2: a page count written with a minus sign is read by [int] as a
    negative number, and the method returns the empty list, without any
    error. *)
Theorem get_category_urls_negative_count (self : pyobj) (tag category api : string)
    (headers : value) (r : Response) (data pagination : value)
    (pre digits post : string) :
  plain_field self "api" -> plain_field self "headers" ->
  dict_get "api" (ob_dict self) = Some (JStr api) ->
  dict_get "headers" (ob_dict self) = Some headers ->
  requests_get (page_url api tag category "1") headers = Ok r ->
  json_loads (text r) = Ok data ->
  getitem_key data "Pagination" = Ok pagination ->
  getitem_key pagination "lastPage"
    = Ok (JStr (pre ++ "page=" ++ String "-" digits ++ post)) ->
  str_find "page=" (pre ++ "page=" ++ String "-" digits ++ post)
    = Some (String.length pre) ->
  digits <> EmptyString -> all_digits digits = true ->
  (post = EmptyString \/ exists q, post = String "&" q) ->
  get_category_urls self tag category = Ok [].
Proof.
  intros Pa Ph Da Dh Hget Hjson Hpag Hlast Hfind Hne Hdig Hpost.
  assert (Hp : lacks "p" (String "-" digits) = true)
    by (cbn [lacks]; now rewrite (digit_lacks "p" _ eq_refl Hdig)).
  assert (Hamp : lacks "&" (String "-" digits) = true)
    by (cbn [lacks]; now rewrite (digit_lacks "&" _ eq_refl Hdig)).
  rewrite (get_category_urls_number _ _ _ _ _ _ _ _ _ _ _
             Pa Ph Da Dh Hget Hjson Hpag Hlast Hfind Hp Hamp Hpost).
  rewrite (py_int_negative _ Hne Hdig). cbn [bind]. unfold py_range.
  pose proof (decimal_from_nonneg digits 0 (Z.le_refl 0)) as Hnn.
  fold (decimal_value digits) in Hnn.
  now replace (Z.to_nat (- decimal_value digits + 1 - 1)) with 0%nat by lia.
Qed.

End ResolverList.

Lemma get_category_urls_list_shape_witness :
  exists urls,
    get_category_urls
      (world := listing_world "/api/browse?_tags=a&page= 3 &sort=x")
      (plain_session [] []) "a" "sneakers" = Ok urls
    /\ List.length urls = 3%nat
    /\ NoDup urls
    /\ hd_error urls
       = Some "https://stockx.com/api/browse?_tags=a&productCategory=sneakers&page=1".
Proof.
  destruct (get_category_urls_list_shape
              (world := listing_world "/api/browse?_tags=a&page= 3 &sort=x")
              (plain_session [] []) "a" "sneakers"
              "https://stockx.com/api/browse?" JNull
              {| status_code := 200; text := "listing" |}
              (listing_document "/api/browse?_tags=a&page= 3 &sort=x")
              (JObj [ ("page", JInt 1);
                      ("lastPage", JStr "/api/browse?_tags=a&page= 3 &sort=x") ])
              "/api/browse?_tags=a&" " 3 " "&sort=x" 3%Z
              eq_refl eq_refl eq_refl eq_refl eq_refl eq_refl eq_refl eq_refl
              eq_refl eq_refl eq_refl
              (or_intror (or_introl (ex_intro _ "sort=x" eq_refl))) eq_refl)
    as (urls & Hrun & Hlen & _ & Hnd & Hhd).
  exists urls. split; [exact Hrun|]. split; [exact Hlen|]. split; [exact Hnd|].
  apply Hhd. discriminate.
Defined.

Lemma get_category_urls_negative_count_witness :
  get_category_urls (world := listing_world "/api/browse?_tags=a&page=-12")
    (plain_session [] []) "a" "sneakers" = Ok [].
Proof.
  apply (get_category_urls_negative_count
           (world := listing_world "/api/browse?_tags=a&page=-12")
           (plain_session [] []) "a" "sneakers"
           "https://stockx.com/api/browse?" JNull
           {| status_code := 200; text := "listing" |}
           (listing_document "/api/browse?_tags=a&page=-12")
           (JObj [ ("page", JInt 1);
                   ("lastPage", JStr "/api/browse?_tags=a&page=-12") ])
           "/api/browse?_tags=a&" "12" EmptyString);
    try reflexivity.
  - discriminate.
  - now left.
Defined.

(** X3: the status code of a response plays no part: through any other
    status codes the resolver and the two fetch handlers do exactly what
    they do on the service as it is, error responses included. *)
Theorem status_code_is_never_read (status : string -> Z) (w : Capabilities)
    (self : pyobj) (tag category url : string) :
  get_category_urls (world := with_status status w) self tag category
  = get_category_urls (world := w) self tag category
  /\ _scrape (world := with_status status w) self url
     = _scrape (world := w) self url
  /\ _scrape_sales_history (world := with_status status w) self url
     = _scrape_sales_history (world := w) self url.
Proof.
  unfold get_category_urls, _scrape, _scrape_sales_history. cbn [with_status
    requests_get json_loads].
  split; [|split].
  - destruct (getattr self "api") as [a|e]; [|reflexivity]. cbn [bind].
    destruct (format_field a) as [a'|e]; [|reflexivity]. cbn [bind].
    destruct (getattr self "headers") as [h|e]; [|reflexivity]. cbn [bind].
    now destruct (requests_get _ h).
  - destruct (getattr self "headers") as [h|e]; [|reflexivity]. cbn [bind].
    now destruct (requests_get url h).
  - destruct (getattr self "headers") as [h|e]; [|reflexivity]. cbn [bind].
    now destruct (requests_get url h).
Qed.

(** ** The sales handler: the URL and the document *)

Lemma string_length_app (a b : string) :
  String.length (a ++ b)%string = (String.length a + String.length b)%nat.
Proof. induction a; simpl; congruence. Qed.

Lemma string_app_inv_tail (a b s : string) :
  (a ++ s)%string = (b ++ s)%string -> a = b.
Proof.
  intros H. apply (append_same_length a b s s); [|exact H].
  apply (f_equal String.length) in H. rewrite !string_length_app in H. lia.
Qed.

(** The first piece of a split does not see what follows the first slash. *)
Lemma hd_split_slash (p t : string) :
  hd EmptyString (split_from "/" 0 (p ++ "/" ++ t)%string)
  = hd EmptyString (split_from "/" 0 p).
Proof.
  induction p as [|c p IH].
  - change (EmptyString ++ "/" ++ t)%string with (String "/" EmptyString ++ t)%string.
    now rewrite split_from_separator.
  - change (String c p ++ "/" ++ t)%string with (String c (p ++ "/" ++ t)%string).
    cbn [split_from String.prefix].
    destruct (ascii_dec "/" c) as [_|_].
    + now destruct (p ++ "/" ++ t)%string, p.
    + destruct (split_from_cons "/" 0 (p ++ "/" ++ t)%string) as (x & xs & Hx).
      destruct (split_from_cons "/" 0 p) as (y & ys & Hy).
      rewrite Hx, Hy in *. cbn [hd] in *. now rewrite IH.
Qed.

(** The right-hand side of line 78 on a URL built by
    [get_product_sales_history]. *)
Lemma sales_url_segment (p : string) :
  (segments <- str_split (sales_url p) "/" ;; list_index segments 5)
  = Ok (hd EmptyString (split_from "/" 0 p)).
Proof.
  cbn [str_split bind]. unfold sales_url.
  change ("https://stockx.com/api/products/" ++ p
          ++ "/activity?state=480&currency=USD&limit=10000&page=1")%string
    with ("https:" ++ "/" ++ EmptyString ++ "/" ++ "stockx.com" ++ "/" ++ "api"
          ++ "/" ++ "products" ++ "/" ++ p ++ "/"
          ++ "activity?state=480&currency=USD&limit=10000&page=1")%string.
  rewrite !split_segment by reflexivity.
  pose proof (hd_split_slash p "activity?state=480&currency=USD&limit=10000&page=1")
    as Hhd.
  destruct (split_from_cons "/" 0
              (p ++ "/" ++ "activity?state=480&currency=USD&limit=10000&page=1")%string)
    as (x & xs & Hx).
  rewrite Hx in *. cbn [hd] in Hhd. rewrite <- Hhd. reflexivity.
Qed.

(** X4: for every product identifier the sales URL has a sixth segment, so
    the right-hand side of line 78 never raises; that segment is the part of
    the identifier before its first slash, the whole identifier when it has
    none. *)
Theorem sales_url_sixth_segment (p : string) :
  (segments <- str_split (sales_url p) "/" ;; list_index segments 5)
  = Ok (hd EmptyString (split_from "/" 0 p))
  /\ (lacks "/" p = true -> hd EmptyString (split_from "/" 0 p) = p).
Proof.
  split.
  - apply sales_url_segment.
  - intros H. rewrite <- (string_app_nil p) at 1.
    rewrite (split_from_lacks "/" EmptyString p EmptyString H). cbn [hd split_from].
    apply string_app_nil.
Qed.

(** X5: distinct product identifiers are requested through distinct URLs. *)
Theorem sales_urls_distinct (products : list string) :
  NoDup products -> NoDup (map sales_url products).
Proof.
  apply NoDup_map_injective. intros p q H. unfold sales_url in H.
  apply string_app_inv_head in H. now apply string_app_inv_tail in H.
Qed.

Lemma sales_urls_distinct_witness :
  NoDup (map sales_url ["p1"; "p2"; "p1/x"]).
Proof.
  apply (sales_urls_distinct ["p1"; "p2"; "p1/x"]).
  repeat constructor; simpl; intuition discriminate.
Defined.

Lemma dict_set_keys_same (k : string) (v w : value) (d : dict) :
  dict_get k d = Some w -> keys (dict_set k v d) = keys d.
Proof.
  induction d as [|[k' v'] d IH]; simpl; [discriminate|].
  destruct (String.eqb_spec k k') as [->|]; simpl; [reflexivity|].
  intros H. now rewrite IH.
Qed.

Lemma dict_set_twice (k : string) (v v' : value) (d : dict) :
  dict_set k v (dict_set k v' d) = dict_set k v d.
Proof.
  induction d as [|[k' w] d IH]; simpl.
  - now rewrite String.eqb_refl.
  - destruct (String.eqb_spec k k') as [->|Hne]; simpl.
    + now rewrite String.eqb_refl.
    + destruct (String.eqb_spec k k'); [congruence|]. now rewrite IH.
Qed.

(** X6: when line 78 succeeds it changes one cell of the document and
    nothing else: the document keeps its keys, in their order, and the
    values of all keys but [ProductActivity]; the list keeps every entry
    after the first; the first entry keeps the values of all keys but
    [productId], which now holds the URL segment whatever it held before.
    Doing it again changes nothing more. *)
Theorem inject_productId_touches_one_cell (data data' : value) (url : string) :
  inject_productId data url = Ok data' ->
  exists d d' first first' others product,
    data = JObj d /\ data' = JObj d'
    /\ keys d' = keys d
    /\ (forall k, k <> "ProductActivity" -> dict_get k d' = dict_get k d)
    /\ dict_get "ProductActivity" d = Some (JArr (JObj first :: others))
    /\ dict_get "ProductActivity" d' = Some (JArr (JObj first' :: others))
    /\ list_index (split_from "/" 0 url) 5 = Ok product
    /\ dict_get "productId" first' = Some (JStr product)
    /\ (forall k, k <> "productId" -> dict_get k first' = dict_get k first)
    /\ inject_productId data' url = Ok data'.
Proof.
  intros H.
  destruct (inject_productId_ok _ _ _ H) as (d & first & others & product
                                             & -> & Hact & Hseg & ->).
  exists d, (dict_set "ProductActivity"
               (JArr (JObj (dict_set "productId" (JStr product) first) :: others)) d),
         first, (dict_set "productId" (JStr product) first), others, product.
  split; [reflexivity|]. split; [reflexivity|].
  split; [exact (dict_set_keys_same _ _ _ _ Hact)|].
  split; [intros k Hk; now apply dict_get_set_other|].
  split; [exact Hact|]. split; [apply dict_get_set_same|].
  split; [exact Hseg|]. split; [apply dict_get_set_same|].
  split; [intros k Hk; now apply dict_get_set_other|].
  unfold inject_productId. cbn [str_split bind]. rewrite Hseg.
  cbn [bind getitem_key]. rewrite dict_get_set_same.
  cbn [bind getitem_int list_index nth_error setitem_key put_first_activity].
  now rewrite dict_get_set_same, !dict_set_twice.
Qed.

Lemma inject_productId_touches_one_cell_witness :
  exists data',
    inject_productId
      (JObj [ ("ProductActivity",
               JArr [ JObj [ ("productId", JStr "stale"); ("amount", JInt 250) ];
                      JObj [ ("amount", JInt 260) ] ]);
              ("Pagination", JNull) ])
      (sales_url "p1") = Ok data'
    /\ data' = JObj [ ("ProductActivity",
                       JArr [ JObj [ ("productId", JStr "p1"); ("amount", JInt 250) ];
                              JObj [ ("amount", JInt 260) ] ]);
                      ("Pagination", JNull) ]
    /\ inject_productId data' (sales_url "p1") = Ok data'.
Proof.
  destruct (inject_productId_touches_one_cell
              (JObj [ ("ProductActivity",
                       JArr [ JObj [ ("productId", JStr "stale"); ("amount", JInt 250) ];
                              JObj [ ("amount", JInt 260) ] ]);
                      ("Pagination", JNull) ])
              (JObj [ ("ProductActivity",
                       JArr [ JObj [ ("productId", JStr "p1"); ("amount", JInt 250) ];
                              JObj [ ("amount", JInt 260) ] ]);
                      ("Pagination", JNull) ])
              (sales_url "p1") eq_refl)
    as (d & d' & first & first' & others & product & _ & _ & _ & _ & _ & _ & _
        & _ & _ & Hagain).
  eexists. split; [reflexivity|]. split; [reflexivity|exact Hagain].
Defined.

Section SalesShapes.

Context {world : Capabilities}.

(** X7: a decoded sales response of the wrong shape makes
    [_scrape_sales_history] raise, and the exception tells the shape: a
    [TypeError] for a document that is no object, for an activity that is a
    scalar or a text, and for a first entry that is no object; a [KeyError]
    for a missing activity or one that is an object; an [IndexError] for an
    empty text. *)
Theorem _scrape_sales_history_bad_document (self : pyobj) (headers : value)
    (acc : list value) (p : string) (r : Response) (data : value) (e : exn) :
  session_holds "_scraped_sales_history" headers self acc ->
  requests_get (sales_url p) headers = Ok r ->
  json_loads (text r) = Ok data ->
  bad_sales_document data e ->
  _scrape_sales_history self (sales_url p) = Raise e.
Proof.
  intros Hs Hget Hjson Hbad.
  destruct (session_holds_getattr _ _ _ _ Hs) as [Hh _].
  unfold _scrape_sales_history. rewrite Hh. cbn [bind]. rewrite Hget. cbn [bind].
  rewrite Hjson. cbn [bind]. unfold inject_productId.
  pose proof (sales_url_segment p) as Hseg.
  destruct (str_split (sales_url p) "/") as [segments|e0]; [|discriminate].
  cbn [bind] in Hseg |- *. rewrite Hseg. cbn [bind].
  destruct Hbad as [data Hrec | d Hact | d fields Hact | d x Hact Hx | d Hact
                   | d c s Hact | d first others Hact Hrec].
  - now destruct data.
  - cbn [getitem_key]. now rewrite Hact.
  - cbn [getitem_key]. now rewrite Hact.
  - cbn [getitem_key]. rewrite Hact. cbn [bind].
    destruct Hx as [[<-|[<-|[]]]|[[b ->]|[[n ->]|[lit ->]]]]; reflexivity.
  - cbn [getitem_key]. now rewrite Hact.
  - cbn [getitem_key]. now rewrite Hact.
  - cbn [getitem_key]. rewrite Hact.
    cbn [bind getitem_int list_index nth_error]. now destruct first.
Qed.

End SalesShapes.

Lemma _scrape_sales_history_bad_document_witness :
  _scrape_sales_history
    (world := {| requests_get := fun _ _ => Ok {| status_code := 200; text := "[]" |};
                 json_loads := fun _ => Ok (JArr []) |})
    (plain_session [] []) (sales_url "p1") = Raise TypeError.
Proof.
  apply (_scrape_sales_history_bad_document
           (world := {| requests_get := fun _ _ => Ok {| status_code := 200; text := "[]" |};
                        json_loads := fun _ => Ok (JArr []) |})
           (plain_session [] []) JNull [] "p1"
           {| status_code := 200; text := "[]" |} (JArr []) TypeError
           (plain_session_holds_sales [] []) eq_refl eq_refl).
  apply sales_not_an_object. reflexivity.
Defined.

(** ** The fetches: what they leave alone, and the order of arrival *)

Section FetchFrame.

Context {world : Capabilities}.

Lemma _scrape_store (headers : value) (self : pyobj) (acc : list value)
    (u : string) (d : value) :
  session_holds "_scraped_products" headers self acc ->
  fetched headers u = Ok d ->
  _scrape self u = Ok (store self "_scraped_products" (JArr (acc ++ [d]))).
Proof.
  intros Hs Hd. destruct (session_holds_getattr _ _ _ _ Hs) as [Hh _].
  assert (Hne : "_scraped_products" <> "headers") by discriminate.
  destruct (session_holds_append _ _ _ _ d Hne Hs) as [Ha _].
  unfold _scrape. rewrite Hh. cbn [bind]. unfold fetched in Hd.
  destruct (requests_get u headers) as [r|e]; [|discriminate]. cbn [bind] in *.
  rewrite Hd. exact Ha.
Qed.

Lemma _scrape_sales_history_store (headers : value) (self : pyobj)
    (acc : list value) (u : string) (d : value) :
  session_holds "_scraped_sales_history" headers self acc ->
  fetched_sales headers u = Ok d ->
  _scrape_sales_history self u
  = Ok (store self "_scraped_sales_history" (JArr (acc ++ [d]))).
Proof.
  intros Hs Hd. destruct (session_holds_getattr _ _ _ _ Hs) as [Hh _].
  assert (Hne : "_scraped_sales_history" <> "headers") by discriminate.
  destruct (session_holds_append _ _ _ _ d Hne Hs) as [Ha _].
  unfold _scrape_sales_history. rewrite Hh. cbn [bind].
  unfold fetched_sales, fetched in Hd.
  destruct (requests_get u headers) as [r|e]; [|discriminate]. cbn [bind] in *.
  destruct (json_loads (text r)) as [data|e]; [|discriminate]. cbn [bind] in *.
  rewrite Hd. exact Ha.
Qed.

Lemma same_but_store (name : string) (headers : value) (self0 self : pyobj)
    (acc : list value) (d : value) :
  name <> "headers" ->
  same_but name headers self0 self acc ->
  same_but name headers self0 (store self name (JArr (acc ++ [d]))) (acc ++ [d]).
Proof.
  intros Hne (Hs & Ht & Hk & Hd).
  split; [exact (proj2 (session_holds_append _ _ _ _ d Hne Hs))|].
  split; [exact Ht|]. split.
  - cbn [store ob_dict]. destruct Hs as (_ & _ & _ & Hget).
    now rewrite (dict_set_keys_same _ _ _ _ Hget).
  - intros k Hkn. cbn [store ob_dict]. rewrite dict_get_set_other by exact Hkn.
    now apply Hd.
Qed.

(** X8: a fetch changes the accumulator of its handler and nothing else.
    Whatever the order of completion and whatever fails, the session keeps
    its class, its attributes and, but for that one list, their values; the
    product fetch leaves the sales accumulator alone and the other way
    round. *)
Theorem fetch_changes_only_its_accumulator (sched : nat -> nat) (self : pyobj)
    (headers : value) (products sales : list value) (urls ids : list string) :
  session_holds "_scraped_products" headers self products ->
  session_holds "_scraped_sales_history" headers self sales ->
  (exists self',
     get_product_info sched self urls = Ok self'
     /\ ob_type self' = ob_type self
     /\ keys (ob_dict self') = keys (ob_dict self)
     /\ forall k, k <> "_scraped_products" ->
                  dict_get k (ob_dict self') = dict_get k (ob_dict self))
  /\ (exists self',
        get_product_sales_history sched self ids = Ok self'
        /\ ob_type self' = ob_type self
        /\ keys (ob_dict self') = keys (ob_dict self)
        /\ forall k, k <> "_scraped_sales_history" ->
                     dict_get k (ob_dict self') = dict_get k (ob_dict self)).
Proof.
  intros Hp Hs. split.
  - destruct (drain_all _scrape (fetched headers)
                (same_but "_scraped_products" headers self)) with
      (n := List.length urls) (sched := sched) (pend := urls)
      (futs := @nil (string * option exn)) (self := self) (acc := products)
      as (_ & ds & (_ & Ht & Hk & Hd) & _).
    + intros s acc u d Hsb Hdoc. destruct Hsb as (Hs0 & Hrest).
      rewrite (_scrape_store _ _ _ _ _ Hs0 Hdoc). eexists. split; [reflexivity|].
      apply same_but_store; [discriminate|now split].
    + intros s acc u e (Hs0 & _) Hdoc. exact (_scrape_raises _ _ _ _ _ Hs0 Hdoc).
    + reflexivity.
    + split; [assumption|]. split; [reflexivity|]. split; [reflexivity|].
      reflexivity.
    + eexists. split; [reflexivity|]. split; [exact Ht|]. split; [exact Hk|exact Hd].
  - destruct (drain_all _scrape_sales_history (fetched_sales headers)
                (same_but "_scraped_sales_history" headers self)) with
      (n := List.length (map sales_url ids)) (sched := sched)
      (pend := map sales_url ids)
      (futs := @nil (string * option exn)) (self := self) (acc := sales)
      as (_ & ds & (_ & Ht & Hk & Hd) & _).
    + intros s acc u d Hsb Hdoc. destruct Hsb as (Hs0 & Hrest).
      rewrite (_scrape_sales_history_store _ _ _ _ _ Hs0 Hdoc).
      eexists. split; [reflexivity|].
      apply same_but_store; [discriminate|now split].
    + intros s acc u e (Hs0 & _) Hdoc.
      exact (_scrape_sales_history_raises _ _ _ _ _ Hs0 Hdoc).
    + reflexivity.
    + split; [assumption|]. split; [reflexivity|]. split; [reflexivity|].
      reflexivity.
    + eexists. split; [reflexivity|]. split; [exact Ht|]. split; [exact Hk|exact Hd].
Qed.

End FetchFrame.

Lemma fetch_changes_only_its_accumulator_witness :
  (exists self',
     get_product_info (world := shop_world) last_first
       (plain_session [] [JNull])
       ["https://stockx.com/garbage"; "https://stockx.com/p1"] = Ok self'
     /\ getattr self' "_scraped_sales_history" = Ok (JArr [JNull])
     /\ getattr self' "api" = Ok (JStr "https://stockx.com/api/browse?"))
  /\ (exists self',
        get_product_sales_history (world := shop_world) last_first
          (plain_session [JNull] []) ["p1"; "p2"] = Ok self'
        /\ getattr self' "_scraped_products" = Ok (JArr [JNull])).
Proof.
  destruct (fetch_changes_only_its_accumulator (world := shop_world) last_first
              (plain_session [] [JNull]) JNull [] [JNull]
              ["https://stockx.com/garbage"; "https://stockx.com/p1"] []
              (plain_session_holds_products [] [JNull])
              (plain_session_holds_sales [] [JNull]))
    as [(s1 & Hrun1 & Ht1 & _ & Hd1) _].
  destruct (fetch_changes_only_its_accumulator (world := shop_world) last_first
              (plain_session [JNull] []) JNull [JNull] [] [] ["p1"; "p2"]
              (plain_session_holds_products [JNull] [])
              (plain_session_holds_sales [JNull] []))
    as [_ (s2 & Hrun2 & Ht2 & _ & Hd2)].
  split.
  - exists s1. split; [exact Hrun1|]. split.
    + apply getattr_plain; [unfold plain_field; now rewrite Ht1|].
      now rewrite Hd1 by discriminate.
    + apply getattr_plain; [unfold plain_field; now rewrite Ht1|].
      now rewrite Hd1 by discriminate.
  - exists s2. split; [exact Hrun2|].
    apply getattr_plain; [unfold plain_field; now rewrite Ht2|].
    now rewrite Hd2 by discriminate.
Defined.

Section InOrder.

Variable handler : pyobj -> string -> result pyobj.
Variable doc : string -> result value.
Variable holds : pyobj -> list value -> Prop.

Hypothesis handler_appends : forall self acc u d,
  holds self acc -> doc u = Ok d ->
  exists self', handler self u = Ok self' /\ holds self' (acc ++ [d]).

Hypothesis handler_raises : forall self acc u e,
  holds self acc -> doc u = Raise e -> handler self u = Raise e.

(** When tasks finish in the order submitted, documents arrive in the
    order of the URLs. *)
Lemma drain_in_order (pend : list string) :
  forall futs self acc,
    holds self acc ->
    holds (shared (drain handler in_order (List.length pend)
                     {| pending := pend; futures := futs; shared := self |}))
          (acc ++ delivered doc pend).
Proof.
  induction pend as [|u pend IH]; intros futs self acc Hacc.
  - simpl. now rewrite app_nil_r.
  - cbn [List.length drain pending in_order]. rewrite Nat.Div0.mod_0_l.
    unfold complete. cbn [pending nth_error firstn skipn app shared futures].
    cbn [delivered flat_map]. destruct (doc u) as [d|e] eqn:Hdoc.
    + destruct (handler_appends _ _ _ _ Hacc Hdoc) as (self' & -> & Hacc').
      rewrite app_assoc. apply (IH _ _ _ Hacc').
    + rewrite (handler_raises _ _ _ _ Hacc Hdoc). apply (IH _ _ _ Hacc).
Qed.

End InOrder.

Section FetchOrder.

Context {world : Capabilities}.

(** X9: when the tasks of a fetch finish in the order they were
    submitted, the accumulator gains the documents of the requests that
    succeeded in the order of the URLs, after what it held before. *)
Theorem fetch_in_submission_order (self : pyobj) (headers : value)
    (products sales : list value) (urls ids : list string) :
  session_holds "_scraped_products" headers self products ->
  session_holds "_scraped_sales_history" headers self sales ->
  (exists self',
     get_product_info in_order self urls = Ok self'
     /\ getattr self' "_scraped_products"
        = Ok (JArr (products ++ delivered (fetched headers) urls)))
  /\ (exists self',
        get_product_sales_history in_order self ids = Ok self'
        /\ getattr self' "_scraped_sales_history"
           = Ok (JArr (sales ++ delivered (fetched_sales headers)
                                          (map sales_url ids)))).
Proof.
  intros Hp Hs. split; eexists; (split; [reflexivity|]).
  - apply (session_holds_getattr "_scraped_products" headers).
    apply (drain_in_order _scrape (fetched headers)
             (session_holds "_scraped_products" headers)
             (_scrape_appends headers) (_scrape_raises headers)). exact Hp.
  - apply (session_holds_getattr "_scraped_sales_history" headers).
    apply (drain_in_order _scrape_sales_history (fetched_sales headers)
             (session_holds "_scraped_sales_history" headers)
             (_scrape_sales_history_appends headers)
             (_scrape_sales_history_raises headers)). exact Hs.
Qed.

End FetchOrder.

Lemma fetch_in_submission_order_witness :
  exists self',
    get_product_info (world := shop_world) in_order (plain_session [JNull] [])
      ["https://stockx.com/p1"; "https://down/"; "https://stockx.com/p2"] = Ok self'
    /\ getattr self' "_scraped_products"
       = Ok (JArr [ JNull; shop_document "https://stockx.com/p1";
                    shop_document "https://stockx.com/p2" ]).
Proof.
  destruct (fetch_in_submission_order (world := shop_world)
              (plain_session [JNull] []) JNull [JNull] []
              ["https://stockx.com/p1"; "https://down/"; "https://stockx.com/p2"] []
              (plain_session_holds_products [JNull] [])
              (plain_session_holds_sales [JNull] []))
    as [(self' & Hrun & Hacc) _].
  exists self'. split; [exact Hrun|exact Hacc].
Defined.

(** ** Resetting a session *)

Lemma resolve_set_plain (depth : nat) (cls : pyclass) (name : string) :
  class_lookup name cls = None -> resolve_set depth cls name = Ok name.
Proof. intros H. destruct depth; simpl; now rewrite H. Qed.

Lemma setattr_plain (self : pyobj) (name : string) (v : value) :
  plain_field self name -> setattr self name v = Ok (store self name v).
Proof.
  intros H. unfold setattr. now rewrite (resolve_set_plain _ _ _ H).
Qed.

Lemma dict_set_same_value (k : string) (v : value) (d : dict) :
  dict_get k d = Some v -> dict_set k v d = d.
Proof.
  induction d as [|[k' v'] d IH]; simpl; [discriminate|].
  destruct (String.eqb_spec k k') as [->|]; [now intros [= ->]|].
  intros H. now rewrite IH.
Qed.

(** X10: on a session whose two accumulators are ordinary fields,
    [reset_scrape] leaves both empty, whether or not they existed, keeps the
    class and every other attribute, and a second reset changes nothing.
    On an instance of the class as written it raises [AttributeError] at
    its first assignment, so the sales accumulator is not reset either. *)
Theorem reset_scrape_empties_both (self : pyobj) :
  plain_field self "_scraped_products" ->
  plain_field self "_scraped_sales_history" ->
  (exists self',
     reset_scrape self = Ok self'
     /\ getattr self' "_scraped_products" = Ok (JArr [])
     /\ getattr self' "_scraped_sales_history" = Ok (JArr [])
     /\ ob_type self' = ob_type self
     /\ (forall k, k <> "_scraped_products" -> k <> "_scraped_sales_history" ->
                   dict_get k (ob_dict self') = dict_get k (ob_dict self))
     /\ reset_scrape self' = Ok self')
  /\ (forall d, reset_scrape {| ob_type := StockX_class; ob_dict := d |}
                = Raise AttributeError).
Proof.
  intros Pp Ps. split; [|reflexivity].
  unfold reset_scrape. rewrite (setattr_plain _ _ _ Pp). cbn [bind].
  rewrite setattr_plain by exact Ps.
  eexists. split; [reflexivity|].
  assert (Hp : dict_get "_scraped_products"
                 (ob_dict (store (store self "_scraped_products" (JArr []))
                                 "_scraped_sales_history" (JArr [])))
               = Some (JArr [])).
  { cbn [store ob_dict]. rewrite dict_get_set_other by discriminate.
    apply dict_get_set_same. }
  assert (Hs : dict_get "_scraped_sales_history"
                 (ob_dict (store (store self "_scraped_products" (JArr []))
                                 "_scraped_sales_history" (JArr [])))
               = Some (JArr []))
    by apply dict_get_set_same.
  split; [now apply getattr_plain|]. split; [now apply getattr_plain|].
  split; [reflexivity|]. split.
  - intros k Hk1 Hk2. cbn [store ob_dict]. now rewrite !dict_get_set_other.
  - rewrite setattr_plain by exact Pp. cbn [bind].
    rewrite setattr_plain by exact Ps. f_equal.
    unfold store at 1 2. cbn [ob_type ob_dict].
    rewrite (dict_set_same_value "_scraped_products" _ _ Hp).
    rewrite (dict_set_same_value "_scraped_sales_history" _ _ Hs).
    reflexivity.
Qed.

Lemma reset_scrape_empties_both_witness :
  reset_scrape (plain_session [JNull] [JNull; JNull]) = Ok (plain_session [] []).
Proof.
  destruct (reset_scrape_empties_both (plain_session [JNull] [JNull; JNull])
              eq_refl eq_refl) as [(self' & Hrun & _) _].
  rewrite Hrun. vm_compute in Hrun. symmetry. exact Hrun.
Defined.

(** ** The projections: failures and edge cases *)

Lemma comprehension_stops {A B : Type} (f : A -> result B) (good : list A)
    (ys : list B) (bad : A) (rest : list A) (e : exn) :
  Forall2 (fun x y => f x = Ok y) good ys -> f bad = Raise e ->
  comprehension f (good ++ bad :: rest) = Raise e.
Proof.
  induction 1 as [|x y good ys Hxy _ IH]; intros Hbad; simpl.
  - now rewrite Hbad.
  - now rewrite Hxy, (IH Hbad).
Qed.

Lemma comprehension_raises {A B : Type} (f : A -> result B) (before : list A)
    (bad : A) (after : list A) (e : exn) :
  f bad = Raise e ->
  exists e', comprehension f (before ++ bad :: after) = Raise e'.
Proof.
  intros Hbad. induction before as [|x before [e' IH]]; simpl.
  - exists e. now rewrite Hbad.
  - destruct (f x) as [y|e0]; cbn [bind]; [|now exists e0].
    exists e'. now rewrite IH.
Qed.

(** X11: a document without the extracted key, or that is no object, makes
    the projection raise whatever the documents before and after it hold:
    no table comes back.  When the documents before it are well formed,
    the exception is the one of that document, a [KeyError] for the
    missing key or a [TypeError] for what is no object.  [method] is
    either of the two projections, with its accumulator and key. *)
Theorem projection_stops_at_bad_document (self : pyobj) (name key : string)
    (method : pyobj -> result DataFrame)
    (before : list value) (bad : value) (after : list value) (e : exn) :
  In (name, key, method)
     [ ("_scraped_products", "Products", product_info_to_dataframe);
       ("_scraped_sales_history", "ProductActivity", sales_history_to_dataframe) ] ->
  plain_field self name ->
  dict_get name (ob_dict self) = Some (JArr (before ++ bad :: after)) ->
  getitem_key bad key = Raise e ->
  (e = KeyError \/ e = TypeError)
  /\ (exists e', method self = Raise e')
  /\ (forall entries,
        Forall2 (fun doc es => getitem_key doc key = Ok (JArr es)
                               /\ forallb is_record es = true) before entries ->
        method self = Raise e).
Proof.
  intros Hin Hp Hd Hbad.
  assert (Hmethod : method self = project self name key).
  { destruct Hin as [[= <- <- <-]|[[= <- <- <-]|[]]]; reflexivity. }
  rewrite Hmethod. clear Hin Hmethod.
  split; [exact (getitem_key_raises _ _ _ Hbad)|].
  unfold project. rewrite (getattr_plain _ _ _ Hp Hd). cbn [bind iterate]. split.
  - destruct (comprehension_raises
                (fun data => es <- getitem_key data key ;; json_normalize es)
                before bad after e) as [e' He']; [now rewrite Hbad|].
    exists e'. now rewrite He'.
  - intros entries Hgood.
    rewrite (comprehension_stops _ before
               (map (fun es => frame_of_rows (map flatten_record es)) entries)
               bad after e); [reflexivity| |now rewrite Hbad].
    clear - Hgood. induction Hgood as [|doc es good entries [Hk Hr] _ IH];
      simpl; constructor; [|exact IH].
    rewrite Hk. cbn [bind]. now apply json_normalize_records.
Qed.

(** A page of the service's error answer among the listing pages, once
    behind a well-formed page and once behind a page that is no object. *)
Lemma projection_stops_at_bad_document_witness :
  product_info_to_dataframe
    (plain_session [ catalogue_page ["a"]; JObj [ ("error", JStr "blocked") ];
                     catalogue_page ["b"] ] [])
  = Raise KeyError
  /\ exists e',
       sales_history_to_dataframe
         (plain_session [] [ JNull; JObj [ ("error", JStr "blocked") ] ])
       = Raise e'.
Proof.
  split.
  - destruct (projection_stops_at_bad_document
                (plain_session [ catalogue_page ["a"]; JObj [ ("error", JStr "blocked") ];
                                 catalogue_page ["b"] ] [])
                "_scraped_products" "Products" product_info_to_dataframe
                [ catalogue_page ["a"] ]
                (JObj [ ("error", JStr "blocked") ]) [ catalogue_page ["b"] ] KeyError
                (or_introl eq_refl) eq_refl eq_refl eq_refl)
      as (_ & _ & Hp).
    apply (Hp [ [ JObj [ ("id", JStr "a");
                         ("media", JObj [ ("imageUrl", JStr "a") ]) ] ] ]).
    repeat constructor.
  - destruct (projection_stops_at_bad_document
                (plain_session [] [ JNull; JObj [ ("error", JStr "blocked") ] ])
                "_scraped_sales_history" "ProductActivity" sales_history_to_dataframe
                [ JNull ] (JObj [ ("error", JStr "blocked") ]) [] KeyError
                (or_intror (or_introl eq_refl)) eq_refl eq_refl eq_refl)
      as (_ & He & _).
    exact He.
Defined.

(** X14: when every listing page stored holds an empty list of products,
    the product table has no rows and no columns, and reading its [id]
    column, line 163, raises [KeyError]. *)
Theorem empty_product_lists_have_no_id (self : pyobj) (docs : list value) :
  plain_field self "_scraped_products" ->
  dict_get "_scraped_products" (ob_dict self) = Some (JArr docs) ->
  docs <> [] ->
  Forall (fun doc => getitem_key doc "Products" = Ok (JArr [])) docs ->
  exists df,
    product_info_to_dataframe self = Ok df
    /\ rows df = [] /\ columns df = []
    /\ column df "id" = Raise KeyError.
Proof.
  intros Hp Hd Hne Hall.
  destruct (project_table self "_scraped_products" "Products" docs
              (map (fun _ => []) docs) Hp Hd Hne) as (df & Hrun & Hrows & _ & Hcols).
  { clear - Hall. induction Hall as [|doc docs Hdoc _ IH]; simpl; constructor;
      [now split|exact IH]. }
  assert (Hnone : List.concat (map (fun _ : value => @nil value) docs) = [])
    by (clear; induction docs; simpl; auto).
  rewrite Hnone in Hrows, Hcols.
  assert (Hc : columns df = []).
  { destruct (columns df) as [|c cs]; [reflexivity|].
    destruct (proj1 (Hcols c) (or_introl eq_refl)) as (x & [] & _). }
  exists df. split; [exact Hrun|]. split; [exact Hrows|]. split; [exact Hc|].
  unfold column. now rewrite Hc.
Qed.

Lemma empty_product_lists_have_no_id_witness :
  exists df,
    product_info_to_dataframe
      (plain_session [ listing_document "/api/browse?page=2";
                       listing_document "/api/browse?page=2" ] []) = Ok df
    /\ column df "id" = Raise KeyError.
Proof.
  destruct (empty_product_lists_have_no_id
              (plain_session [ listing_document "/api/browse?page=2";
                               listing_document "/api/browse?page=2" ] [])
              [ listing_document "/api/browse?page=2";
                listing_document "/api/browse?page=2" ]
              eq_refl eq_refl ltac:(discriminate) ltac:(repeat constructor))
    as (df & Hrun & _ & _ & Hid).
  exists df. split; [exact Hrun|exact Hid].
Defined.

(** ** The sales table after the fill *)

Lemma ffill_from_present (w : value) (col : list value) :
  isna w = false ->
  Forall (fun v => isna v = false) (ffill_from (Some w) col).
Proof.
  revert w. induction col as [|x col IH]; intros w Hw; simpl; [constructor|].
  destruct (isna x) eqn:Hx; constructor; auto.
Qed.

Lemma kept_record_entries (records : list value) :
  Forall kept_record records ->
  exists entries,
    Forall2 (fun doc es => getitem_key doc "ProductActivity" = Ok (JArr es)
                           /\ forallb is_record es = true) records entries
    /\ Forall (fun es => exists first others p,
                 es = JObj first :: others
                 /\ cell "productId" (flatten_record (JObj first)) = JStr p)
              entries.
Proof.
  induction 1 as [|record records Hrec _ (entries & Hp & Ho)].
  - exists []. split; constructor.
  - destruct Hrec as (d & first & others & p & -> & Hact & Hid & Hnd & Hrs).
    exists ((JObj first :: others) :: entries). split; constructor; try assumption.
    + cbn [getitem_key]. rewrite Hact. split; [reflexivity|exact Hrs].
    + exists first, others, p. split; [reflexivity|].
      now apply flatten_record_keeps.
Qed.

(** X12: for an accumulator of records as the handler stores them, each
    with its identifier in the first entry, the sales table has a
    [productId] column and after the forward fill no row is left without an
    identifier, whatever the other entries bring. *)
Theorem filled_sales_table_has_every_identifier (self : pyobj)
    (records : list value) :
  plain_field self "_scraped_sales_history" ->
  dict_get "_scraped_sales_history" (ob_dict self) = Some (JArr records) ->
  records <> [] ->
  Forall kept_record records ->
  exists df df',
    sales_history_to_dataframe self = Ok df
    /\ main_ffill df = Ok df'
    /\ List.length (rows df') = List.length (rows df)
    /\ Forall (fun v => isna v = false) (map (cell "productId") (rows df')).
Proof.
  intros Hp Hd Hne Hall.
  destruct (kept_record_entries _ Hall) as (entries & Hproj & Hown).
  destruct (project_table self _ "ProductActivity" _ _ Hp Hd Hne Hproj)
    as (df & Hrun & Hrows & _ & Hcols).
  assert (Hfirst : exists first others p rest,
            List.concat entries = JObj first :: others ++ rest
            /\ cell "productId" (flatten_record (JObj first)) = JStr p).
  { destruct Hown as [|es entries' (first & others & p & -> & Hid) _];
      [inversion Hproj; congruence|].
    exists first, others, p, (List.concat entries'). now split. }
  destruct Hfirst as (first & others & p & rest & Hcat & Hid).
  assert (Hcol : has_column "productId" (columns df) = true).
  { apply has_column_In, Hcols. exists (JObj first).
    split; [rewrite Hcat; now left|]. unfold cell in Hid.
    destruct (dict_get "productId" (flatten_record (JObj first))) eqn:G;
      [|discriminate].
    exact (dict_get_In _ _ _ G). }
  exists df. eexists. split; [exact Hrun|].
  unfold main_ffill, column. rewrite Hcol. cbn [bind].
  split; [reflexivity|]. cbn [rows set_column].
  split; [apply set_cells_length|].
  rewrite set_cells_column
    by (unfold fillna_ffill; now rewrite ffill_from_length, length_map).
  rewrite Hrows, Hcat. cbn [map]. rewrite Hid. unfold fillna_ffill.
  cbn [ffill_from isna]. constructor; [reflexivity|].
  now apply ffill_from_present.
Qed.

Lemma filled_sales_table_has_every_identifier_witness :
  exists self' df df',
    get_product_sales_history (world := tagged_world) in_order
      (plain_session [] []) ["P"] = Ok self'
    /\ sales_history_to_dataframe self' = Ok df
    /\ main_ffill df = Ok df'
    /\ Forall (fun v => isna v = false) (map (cell "productId") (rows df')).
Proof.
  eexists. 
  destruct (filled_sales_table_has_every_identifier
              (plain_session []
                 [ JObj [ ("ProductActivity",
                           JArr [ JObj [ ("amount", JInt 250); ("productId", JStr "P") ];
                                  JObj [ ("amount", JInt 255); ("productId", JStr "Q") ];
                                  JObj [ ("amount", JInt 260) ] ]) ] ])
              _ eq_refl eq_refl ltac:(discriminate)
              ltac:(repeat constructor;
                    exists [ ("ProductActivity",
                              JArr [ JObj [ ("amount", JInt 250); ("productId", JStr "P") ];
                                     JObj [ ("amount", JInt 255); ("productId", JStr "Q") ];
                                     JObj [ ("amount", JInt 260) ] ]) ],
                           [ ("amount", JInt 250); ("productId", JStr "P") ],
                           [ JObj [ ("amount", JInt 255); ("productId", JStr "Q") ];
                             JObj [ ("amount", JInt 260) ] ], "P";
                    repeat split; repeat constructor; simpl; intuition discriminate))
    as (df & df' & Hdf & Hfill & _ & Hall).
  exists df, df'. split; [reflexivity|]. split; [exact Hdf|].
  split; [exact Hfill|exact Hall].
Defined.

(** ** The merge: how many rows *)

Lemma key_eqb_shared (a b c : value) :
  key_eqb a b = true -> key_eqb a c = true -> key_eqb b c = true.
Proof.
  destruct a, b; simpl; try discriminate; destruct c; simpl; try discriminate;
    try reflexivity;
    rewrite ?String.eqb_eq; congruence.
Qed.

Lemma matches_at_most_one (k : value) (rs : list row) :
  ForallOrdPairs (fun r r' => key_eqb (cell "id" r) (cell "id" r') = false) rs ->
  (List.length (filter (fun r => key_eqb k (cell "id" r)) rs) <= 1)%nat.
Proof.
  induction 1 as [|r rs Hr _ IH]; simpl; [lia|].
  destruct (key_eqb k (cell "id" r)) eqn:E; [|exact IH].
  replace (filter (fun r0 => key_eqb k (cell "id" r0)) rs) with (@nil row);
    [simpl; lia|].
  symmetry. clear IH. induction Hr as [|r' rs Hr' _ IH']; simpl; [reflexivity|].
  destruct (key_eqb k (cell "id" r')) eqn:E'; [|exact IH'].
  rewrite (key_eqb_shared _ _ _ E E') in Hr'. discriminate.
Qed.

(** X13: for key columns of text, when no two products of the product
    table share an [id], the merged table is the sales table row for row:
    as many rows, the same sales rows in the same order, each with at most
    its one product. *)
Theorem main_merge_one_row_per_sale (df product_info : DataFrame) :
  has_column "productId" (columns df) = true ->
  has_column "id" (columns product_info) = true ->
  text_column (map (cell "productId") (rows df)) = true ->
  text_column (map (cell "id") (rows product_info)) = true ->
  ForallOrdPairs (fun r r' => key_eqb (cell "id" r) (cell "id" r') = false)
                 (rows product_info) ->
  exists out,
    main_merge df product_info = Ok out
    /\ List.length out = List.length (rows df)
    /\ map left_part out = rows df.
Proof.
  intros Hl Hr Tl Tr Hdistinct. unfold main_merge, merge_left.
  rewrite Hl, Hr. cbn [andb]. cbv zeta. rewrite Tl, Tr. cbn [andb].
  eexists. split; [reflexivity|].
  assert (Hleft : map left_part
                    (flat_map (joined_block product_info "productId" "id") (rows df))
                  = rows df).
  { clear Tl. induction (rows df) as [|l ls IH]; [reflexivity|].
    cbn [flat_map]. rewrite map_app, IH. unfold joined_block.
    pose proof (matches_at_most_one (cell "productId" l) _ Hdistinct) as Hone.
    destruct (filter _ (rows product_info)) as [|m [|m' ms]]; simpl in *;
      [reflexivity|reflexivity|lia]. }
  split; [|exact Hleft].
  rewrite <- Hleft at 2. now rewrite length_map.
Qed.

Lemma main_merge_one_row_per_sale_witness :
  exists out,
    main_merge
      {| columns := ["amount"; "productId"];
         rows := [ [("amount", JInt 250); ("productId", JStr "P")];
                   [("amount", JInt 90); ("productId", JStr "X")];
                   [("amount", JInt 260); ("productId", JStr "P")] ] |}
      {| columns := ["id"];
         rows := [ [("id", JStr "P")]; [("id", JStr "R")] ] |} = Ok out
    /\ List.length out = 3%nat.
Proof.
  destruct (main_merge_one_row_per_sale
              {| columns := ["amount"; "productId"];
                 rows := [ [("amount", JInt 250); ("productId", JStr "P")];
                           [("amount", JInt 90); ("productId", JStr "X")];
                           [("amount", JInt 260); ("productId", JStr "P")] ] |}
              {| columns := ["id"];
                 rows := [ [("id", JStr "P")]; [("id", JStr "R")] ] |}
              eq_refl eq_refl eq_refl eq_refl ltac:(repeat constructor))
    as (out & Hrun & Hlen & _).
  exists out. split; [exact Hrun|exact Hlen].
Defined.

(** ** The script *)

Section Script.

Context {world : Capabilities}.

Lemma delivered_none (doc : string -> result value) (urls : list string) :
  (forall u, In u urls -> exists e, doc u = Raise e) -> delivered doc urls = [].
Proof.
  induction urls as [|u urls IH]; intros H; [reflexivity|].
  cbn [delivered flat_map]. destruct (H u (or_introl eq_refl)) as [e ->].
  cbn [app]. apply IH. intros v Hv. apply H. now right.
Qed.

Lemma project_empty (self : pyobj) (name key : string) :
  getattr self name = Ok (JArr []) -> project self name key = Raise ValueError.
Proof. intros H. unfold project. now rewrite H. Qed.

(** X15: a fetch without a single document, because every request fails
    or because there is nothing to request, still returns, and leaves an
    empty accumulator as empty as it was; the failure shows in the
    projection that follows, which raises [ValueError].  This holds for
    the product fetch with [product_info_to_dataframe], as at lines 160 and
    162, and for the sales fetch with [sales_history_to_dataframe]. *)
Theorem empty_fetch_fails_at_projection (sched : nat -> nat) (self : pyobj)
    (headers : value) :
  (forall urls,
     session_holds "_scraped_products" headers self [] ->
     (forall u, In u urls -> exists e, fetched headers u = Raise e) ->
     exists self',
       get_product_info sched self urls = Ok self'
       /\ getattr self' "_scraped_products" = Ok (JArr [])
       /\ product_info_to_dataframe self' = Raise ValueError)
  /\ (forall products,
        session_holds "_scraped_sales_history" headers self [] ->
        (forall p, In p products ->
           exists e, fetched_sales headers (sales_url p) = Raise e) ->
        exists self',
          get_product_sales_history sched self products = Ok self'
          /\ getattr self' "_scraped_sales_history" = Ok (JArr [])
          /\ sales_history_to_dataframe self' = Raise ValueError).
Proof.
  split.
  - intros urls Hs Hfail.
    destruct (get_product_info_run sched self headers [] urls Hs)
      as (self' & docs & Hrun & Hs' & Hperm & _).
    rewrite (delivered_none _ _ Hfail) in Hperm.
    apply Permutation_sym, Permutation_nil in Hperm. subst docs.
    destruct (session_holds_getattr _ _ _ _ Hs') as [_ Hacc].
    exists self'. split; [exact Hrun|]. split; [exact Hacc|].
    now apply project_empty.
  - intros products Hs Hfail.
    destruct (get_product_sales_history_run sched self headers [] products Hs)
      as (self' & docs & Hrun & Hs' & Hperm & _).
    rewrite delivered_none in Hperm.
    + apply Permutation_sym, Permutation_nil in Hperm. subst docs.
      destruct (session_holds_getattr _ _ _ _ Hs') as [_ Hacc].
      exists self'. split; [exact Hrun|]. split; [exact Hacc|].
      now apply project_empty.
    + intros u Hu. apply in_map_iff in Hu as (p & <- & Hp). now apply Hfail.
Qed.

End Script.

(** Two listing pages whose answers are not JSON. *)
Lemma empty_fetch_fails_at_projection_witness :
  exists self',
    get_product_info (world := broken_world) last_first (plain_session [] [])
      ["https://stockx.com/api/browse?page=1"; "https://stockx.com/api/browse?page=2"]
    = Ok self'
    /\ getattr self' "_scraped_products" = Ok (JArr [])
    /\ product_info_to_dataframe self' = Raise ValueError.
Proof.
  apply (proj1 (empty_fetch_fails_at_projection (world := broken_world)
                  last_first (plain_session [] []) JNull)).
  - apply plain_session_holds_products.
  - intros u _. exists JSONDecodeError. reflexivity.
Defined.

(** ** The accessors at any depth *)

(** X16: no limit on the depth of calls lets the getters of the source
    return: for every depth the read of each of the four attributes, and of
    [set_headers], ends in [RecursionError], and the assignment to each of
    the four in [AttributeError]; [_scraped_sales_history], which has no
    accessor, is the one attribute read and written in place. *)
Theorem accessors_fail_at_every_depth (depth : nat) :
  resolve_get depth StockX_class "api" = Raise RecursionError
  /\ resolve_get depth StockX_class "sales_api" = Raise RecursionError
  /\ resolve_get depth StockX_class "headers" = Raise RecursionError
  /\ resolve_get depth StockX_class "_scraped_products" = Raise RecursionError
  /\ resolve_get depth StockX_class "set_headers" = Raise RecursionError
  /\ resolve_set depth StockX_class "api" = Raise AttributeError
  /\ resolve_set depth StockX_class "sales_api" = Raise AttributeError
  /\ resolve_set depth StockX_class "headers" = Raise AttributeError
  /\ resolve_set depth StockX_class "_scraped_products" = Raise AttributeError
  /\ resolve_get depth StockX_class "_scraped_sales_history"
     = Ok "_scraped_sales_history"
  /\ resolve_set depth StockX_class "_scraped_sales_history"
     = Ok "_scraped_sales_history".
Proof.
  split; [exact (self_referential_getter depth StockX_class "api" _ eq_refl eq_refl)|].
  split; [exact (self_referential_getter depth StockX_class "sales_api" _
                   eq_refl eq_refl)|].
  split; [exact (self_referential_getter depth StockX_class "headers" _
                   eq_refl eq_refl)|].
  split; [exact (self_referential_getter depth StockX_class "_scraped_products" _
                   eq_refl eq_refl)|].
  split.
  { destruct depth as [|d]; [reflexivity|].
    change (resolve_get (S d) StockX_class "set_headers")
      with (resolve_get d StockX_class "headers").
    exact (self_referential_getter d StockX_class "headers" _ eq_refl eq_refl). }
  repeat split; destruct depth; reflexivity.
Qed.

(** ** The sales fetch: one record per product *)

Section SalesFetch.

Context {world : Capabilities}.

Lemma fetched_sales_identifier (headers : value) (p : string) (d : value) :
  lacks "/" p = true ->
  fetched_sales headers (sales_url p) = Ok d ->
  record_identifier d = Ok (JStr p).
Proof.
  intros Hp H. unfold fetched_sales in H.
  destruct (fetched headers (sales_url p)) as [data|e]; [|discriminate].
  cbn [bind] in H.
  destruct (inject_productId_ok _ _ _ H) as (d0 & first & others & product
                                             & -> & Hact & Hseg & ->).
  rewrite (sales_url_product _ Hp) in Hseg. injection Hseg as <-.
  unfold record_identifier. cbn [getitem_key]. rewrite dict_get_set_same.
  cbn [bind getitem_int list_index nth_error getitem_key].
  now rewrite dict_get_set_same.
Qed.

(** X17: when the sales requests of all products succeed and no
    identifier has a slash, the fetch stores one record per product and the
    identifiers the records carry are the products asked for, each as
    often as it was asked for, in the order the tasks finished. *)
Theorem sales_fetch_one_record_per_product (sched : nat -> nat) (self : pyobj)
    (headers : value) (sales : list value) (products : list string) :
  session_holds "_scraped_sales_history" headers self sales ->
  (forall p, In p products ->
     lacks "/" p = true
     /\ exists d, fetched_sales headers (sales_url p) = Ok d) ->
  exists self' docs,
    get_product_sales_history sched self products = Ok self'
    /\ getattr self' "_scraped_sales_history" = Ok (JArr (sales ++ docs))
    /\ List.length docs = List.length products
    /\ Permutation (map record_identifier docs)
                   (map (fun p => Ok (JStr p)) products).
Proof.
  intros Hs Hall.
  destruct (get_product_sales_history_run sched self headers sales products Hs)
    as (self' & docs & Hrun & Hs' & Hperm & _).
  assert (Hids : map record_identifier
                   (delivered (fetched_sales headers) (map sales_url products))
                 = map (fun p => Ok (JStr p)) products).
  { clear - Hall. induction products as [|p products IH]; [reflexivity|].
    destruct (Hall p (or_introl eq_refl)) as [Hp [d Hd]].
    cbn [map delivered flat_map]. rewrite Hd. cbn [app map].
    rewrite (fetched_sales_identifier _ _ _ Hp Hd). f_equal.
    apply IH. intros q Hq. apply Hall. now right. }
  exists self', docs. split; [exact Hrun|].
  split; [apply (session_holds_getattr _ _ _ _ Hs')|].
  pose proof (Permutation_map record_identifier Hperm) as Hm.
  rewrite Hids in Hm. split; [|exact Hm].
  apply Permutation_length in Hm. now rewrite !length_map in Hm.
Qed.

End SalesFetch.

Lemma sales_fetch_one_record_per_product_witness :
  exists self' docs,
    get_product_sales_history (world := shop_world) last_first
      (plain_session [] []) ["p1"; "p2"; "p1"] = Ok self'
    /\ getattr self' "_scraped_sales_history" = Ok (JArr docs)
    /\ Permutation (map record_identifier docs)
                   [Ok (JStr "p1"); Ok (JStr "p2"); Ok (JStr "p1")].
Proof.
  destruct (sales_fetch_one_record_per_product (world := shop_world) last_first
              (plain_session [] []) JNull [] ["p1"; "p2"; "p1"]
              (plain_session_holds_sales [] []))
    as (self' & docs & Hrun & Hacc & _ & Hperm).
  - intros p [<-|[<-|[<-|[]]]]; (split; [reflexivity|]); eexists;
      vm_compute; reflexivity.
  - exists self', docs. split; [exact Hrun|]. split; [exact Hacc|exact Hperm].
Defined.
